(** * PrivyLock backend: a shallow embedding of the request handlers

    The Django models of [users], [vault] and [notifications] become records,
    every table is a finite map from the primary key to its row, and every
    view, serializer method and task becomes a function from the tables to a
    response and the new tables.  Exceptions are values of a small error
    monad; [transaction.atomic] is the handler that restores the tables. *)

From Stdlib Require Import ZArith String Ascii List Bool Lia.
From stdpp Require Import base option list gmap strings pretty fin_maps fin_sets.

Local Open Scope string_scope.
Local Open Scope Z_scope.

#[global] Set Warnings "-clear-no-such-hyp".

(** ** Shared vocabulary *)

(** A [UUIDField] value. *)
Abbreviation UUID := N.

(** A [DateTimeField] value, in seconds; [date_of] is the [__date] lookup. *)
Abbreviation datetime := Z.

Definition date_of (t : datetime) : Z := t / 86400.

(** [rest_framework.status] *)
Definition HTTP_200_OK : Z := 200.
Definition HTTP_201_CREATED : Z := 201.
Definition HTTP_204_NO_CONTENT : Z := 204.
Definition HTTP_400_BAD_REQUEST : Z := 400.
Definition HTTP_401_UNAUTHORIZED : Z := 401.
Definition HTTP_403_FORBIDDEN : Z := 403.
Definition HTTP_404_NOT_FOUND : Z := 404.
Definition HTTP_500_INTERNAL_SERVER_ERROR : Z := 500.

(** The exceptions the handlers raise or catch. *)
Inductive exn :=
| ValidationError (field message : string)
| Http404
| DoesNotExist
| MultipleObjectsReturned
| IntegrityError (constraint : string)
| TypeError (message : string)
| AttributeError (attribute : string)
| IOError.

(** A computation that returns or raises. *)
Inductive result (A : Type) :=
| Ok (a : A)
| Raise (e : exn).
Arguments Ok {A} a.
Arguments Raise {A} e.

#[global] Instance result_ret : MRet result := λ A a, Ok a.

#[global] Instance result_bind : MBind result := λ A B k r,
  match r with
  | Ok a => k a
  | Raise e => Raise e
  end.

(** A key of [request.data] or of [validated_data]: missing, [None], or a
    value.  [truthy] is Python's [if data.get(k)] for a key whose values are
    never falsy themselves. *)
Inductive field (A : Type) :=
| Absent
| Null
| Given (a : A).
Arguments Absent {A}.
Arguments Null {A}.
Arguments Given {A} a.

Definition truthy {A} (f : field A) : option A :=
  match f with
  | Given a => Some a
  | _ => None
  end.

Definition present {A} (f : field A) : bool :=
  match f with
  | Absent => false
  | _ => true
  end.

(** ** Tables

    A table is a [gmap] from the primary key to the row, so that two rows
    never share a primary key. *)

(** [Model.objects.get] with keyword filters [P]: the one matching row. *)
Definition objects_get {A} (P : A → bool) (table : gmap UUID A)
  : result (UUID * A) :=
  match map_to_list (filter (λ kv, P kv.2 = true) table) with
  | [] => Raise DoesNotExist
  | [row] => Ok row
  | _ => Raise MultipleObjectsReturned
  end.

(** [Model.objects.filter(...).exists()] *)
Definition objects_exists {A} (P : A → bool) (table : gmap UUID A) : bool :=
  bool_decide (filter (λ kv, P kv.2 = true) table ≠ ∅).

(** [Model.objects.filter(...).count()] *)
Definition objects_count {A} (P : A → bool) (table : gmap UUID A) : Z :=
  Z.of_nat (size (filter (λ kv, P kv.2 = true) table)).

(** [Model.objects.filter(...).update(...)] *)
Definition objects_update {A} (P : A → bool) (f : A → A) (table : gmap UUID A)
  : gmap UUID A :=
  (λ row, if P row then f row else row) <$> table.

(** [Model.objects.filter(...).delete()] on a table nothing cascades from. *)
Definition objects_delete {A} (P : A → bool) (table : gmap UUID A)
  : gmap UUID A :=
  filter (λ kv, P kv.2 = false) table.

(** The count and the update for a filter that reads the primary key as
    well ([id__in=...]). *)
Definition objects_count_pk {A} (P : UUID → A → bool) (table : gmap UUID A)
  : Z :=
  Z.of_nat (size (filter (λ kv, P kv.1 kv.2 = true) table)).

Definition objects_update_pk {A} (P : UUID → A → bool) (f : A → A)
    (table : gmap UUID A) : gmap UUID A :=
  map_imap (λ pk row, Some (if P pk row then f row else row)) table.

(** An [INSERT]: the primary key must be new. *)
Definition insert_row {A} (pk : UUID) (row : A) (table : gmap UUID A)
  : result (gmap UUID A) :=
  match table !! pk with
  | Some _ => Raise (IntegrityError "primary key")
  | None => Ok (<[pk := row]> table)
  end.

(** ** users/models.py *)

Module User.
Record t := mk {
  username : string;
  email : string;
  mobile_number : string;
  password : string;
  recovery_key_hash : string;
  google_id : option string;
  auth_provider : string;
  email_verified : bool;
  email_verification_token : option string;
  subscription_tier : string;
  storage_used : Z;
  last_login_at : option datetime
}.

Definition set_storage_used (v : Z) (u : t) : t :=
  mk (username u) (email u) (mobile_number u) (password u)
    (recovery_key_hash u) (google_id u) (auth_provider u) (email_verified u)
    (email_verification_token u) (subscription_tier u) v (last_login_at u).

Definition set_last_login_at (v : datetime) (u : t) : t :=
  mk (username u) (email u) (mobile_number u) (password u)
    (recovery_key_hash u) (google_id u) (auth_provider u) (email_verified u)
    (email_verification_token u) (subscription_tier u) (storage_used u) (Some v).

Definition set_email_verification_token (v : option string) (u : t) : t :=
  mk (username u) (email u) (mobile_number u) (password u)
    (recovery_key_hash u) (google_id u) (auth_provider u) (email_verified u)
    v (subscription_tier u) (storage_used u) (last_login_at u).
End User.

Module Device.
Record t := mk {
  user : UUID;
  device_id : string;
  device_name : string;
  device_type : string;
  is_trusted : bool
}.
End Device.

(** ** vault/models.py *)

Module DocumentCategory.
Record t := mk {
  name : string;
  icon : string;
  display_order : Z
}.
End DocumentCategory.

Module Folder.
Record t := mk {
  user : UUID;
  category : UUID;
  encrypted_name : string;
  parent : option UUID;
  color : string;
  icon : string
}.
End Folder.

(** The value of a [FileField] column: the path [document_upload_path]
    builds, [documents/{user_id}/{uuid4().hex}.{ext}]. *)
Record FilePath := mkFilePath {
  path_user : UUID;
  path_random : N;
  path_ext : string
}.

Module Document.
Record t := mk {
  user : UUID;
  category : option UUID;
  folder : option UUID;
  encrypted_title : string;
  encrypted_description : string;
  encrypted_doc_type : string;
  encrypted_file : FilePath;
  file_size : Z;
  file_extension : string;
  mime_type : string;
  file_hash : string;
  has_expiry : bool;
  encrypted_issue_date : string;
  encrypted_expiry_date : string;
  notification_trigger_timestamp : option datetime;
  is_deleted : bool;
  deleted_at : option datetime;
  created_at : datetime;
  updated_at : datetime
}.

Definition set_folder (v : option UUID) (d : t) : t :=
  mk (user d) (category d) v (encrypted_title d) (encrypted_description d)
    (encrypted_doc_type d) (encrypted_file d) (file_size d) (file_extension d)
    (mime_type d) (file_hash d) (has_expiry d) (encrypted_issue_date d)
    (encrypted_expiry_date d) (notification_trigger_timestamp d) (is_deleted d)
    (deleted_at d) (created_at d) (updated_at d).
End Document.

Module DocumentVersion.
Record t := mk {
  document : UUID;
  version_number : Z;
  encrypted_file : FilePath;
  file_size : Z;
  file_hash : string;
  encrypted_change_notes : string;
  created_at : datetime
}.
End DocumentVersion.

(** ** notifications/models.py *)

Module Notification.
Definition DOCUMENT_EXPIRY := "DOCUMENT_EXPIRY".
Definition DOCUMENT_EXPIRED := "DOCUMENT_EXPIRED".
Definition STORAGE_WARNING := "STORAGE_WARNING".
Definition STORAGE_CRITICAL := "STORAGE_CRITICAL".
Definition SECURITY_ALERT := "SECURITY_ALERT".
Definition NEW_DEVICE_LOGIN := "NEW_DEVICE_LOGIN".
Definition SYSTEM := "SYSTEM".
Definition MEDIUM := "MEDIUM".

Record t := mk {
  user : UUID;
  notification_type : string;
  priority : string;
  encrypted_title : string;
  encrypted_body : string;
  document : option UUID;
  device : option UUID;
  is_read : bool;
  read_at : option datetime;
  email_sent : bool;
  email_sent_at : option datetime;
  push_sent : bool;
  push_sent_at : option datetime;
  action_url : option string;
  expires_at : option datetime;
  created_at : datetime
}.

(** The two columns [mark_as_read] and the bulk updates write. *)
Definition set_read (r : bool) (at_ : option datetime) (n : t) : t :=
  mk (user n) (notification_type n) (priority n) (encrypted_title n)
    (encrypted_body n) (document n) (device n) r at_ (email_sent n)
    (email_sent_at n) (push_sent n) (push_sent_at n) (action_url n)
    (expires_at n) (created_at n).

Definition set_email (r : bool) (at_ : option datetime) (n : t) : t :=
  mk (user n) (notification_type n) (priority n) (encrypted_title n)
    (encrypted_body n) (document n) (device n) (is_read n) (read_at n) r at_
    (push_sent n) (push_sent_at n) (action_url n) (expires_at n) (created_at n).

Definition set_push (r : bool) (at_ : option datetime) (n : t) : t :=
  mk (user n) (notification_type n) (priority n) (encrypted_title n)
    (encrypted_body n) (document n) (device n) (is_read n) (read_at n)
    (email_sent n) (email_sent_at n) r at_ (action_url n) (expires_at n)
    (created_at n).

Definition set_device (v : option UUID) (n : t) : t :=
  mk (user n) (notification_type n) (priority n) (encrypted_title n)
    (encrypted_body n) (document n) v (is_read n) (read_at n)
    (email_sent n) (email_sent_at n) (push_sent n) (push_sent_at n)
    (action_url n) (expires_at n) (created_at n).

(** [Notification.mark_as_read] *)
Definition mark_as_read (now : datetime) (n : t) : t :=
  if negb (is_read n) then set_read true (Some now) n else n.

(** [Notification.mark_email_sent] *)
Definition mark_email_sent (now : datetime) (n : t) : t :=
  if negb (email_sent n) then set_email true (Some now) n else n.

(** [Notification.mark_push_sent] *)
Definition mark_push_sent (now : datetime) (n : t) : t :=
  if negb (push_sent n) then set_push true (Some now) n else n.
End Notification.

Module NotificationPreference.
Record t := mk {
  in_app_enabled : bool;
  email_enabled : bool;
  email_expiry_alerts : bool;
  email_storage_alerts : bool;
  email_security_alerts : bool;
  push_enabled : bool;
  push_expiry_alerts : bool;
  push_storage_alerts : bool;
  push_security_alerts : bool;
  alert_30_days : bool;
  alert_15_days : bool;
  alert_7_days : bool;
  alert_1_day : bool;
  alert_on_expiry : bool;
  storage_warning_threshold : Z;
  storage_critical_threshold : Z
}.

(** The column defaults of the model. *)
Definition defaults : t :=
  mk true true true true true true true true true true true true true true 80 95.
End NotificationPreference.

(** ** The database

    [preferences] is keyed by the user: [NotificationPreference.user] is a
    [OneToOneField], one row per user at most. *)
Record Db := mkDb {
  users : gmap UUID User.t;
  devices : gmap UUID Device.t;
  categories : gmap UUID DocumentCategory.t;
  folders : gmap UUID Folder.t;
  documents : gmap UUID Document.t;
  versions : gmap UUID DocumentVersion.t;
  notifications : gmap UUID Notification.t;
  preferences : gmap UUID NotificationPreference.t
}.

Definition with_users (v : gmap UUID User.t) (db : Db) : Db :=
  mkDb v (devices db) (categories db) (folders db) (documents db)
    (versions db) (notifications db) (preferences db).

Definition with_devices (v : gmap UUID Device.t) (db : Db) : Db :=
  mkDb (users db) v (categories db) (folders db) (documents db)
    (versions db) (notifications db) (preferences db).

Definition with_folders (v : gmap UUID Folder.t) (db : Db) : Db :=
  mkDb (users db) (devices db) (categories db) v (documents db)
    (versions db) (notifications db) (preferences db).

Definition with_documents (v : gmap UUID Document.t) (db : Db) : Db :=
  mkDb (users db) (devices db) (categories db) (folders db) v
    (versions db) (notifications db) (preferences db).

Definition with_versions (v : gmap UUID DocumentVersion.t) (db : Db) : Db :=
  mkDb (users db) (devices db) (categories db) (folders db) (documents db)
    v (notifications db) (preferences db).

Definition with_notifications (v : gmap UUID Notification.t) (db : Db) : Db :=
  mkDb (users db) (devices db) (categories db) (folders db) (documents db)
    (versions db) v (preferences db).

Definition with_preferences (v : gmap UUID NotificationPreference.t) (db : Db)
  : Db :=
  mkDb (users db) (devices db) (categories db) (folders db) (documents db)
    (versions db) (notifications db) v.

(** [NotificationPreference.get_or_create_for_user] *)
Definition get_or_create_for_user (user : UUID) (db : Db)
  : NotificationPreference.t * Db :=
  match preferences db !! user with
  | Some prefs => (prefs, db)
  | None =>
      (NotificationPreference.defaults,
       with_preferences (<[user := NotificationPreference.defaults]> (preferences db)) db)
  end.

(** The library calls of the code base: [hashlib.sha256(..).hexdigest()],
    [int(_, 16)], the e-mail validator, [re.match] of the phone pattern,
    [str.lower], [str.strip], the two [str.replace] calls of the phone
    clean-up, the [SearchFilter] of [rest_framework] (whether a row with the
    given values of [search_fields] matches the [search] parameter), the
    token issuer of [rest_framework_simplejwt], and
    [vault.encryption.decrypt_text] followed by [strptime(..).date()], which
    gives the day number of the expiry date or raises. *)
Class Lib := {
  sha256_hexdigest : string → string;
  int_base16 : string → bool;
  email_format : string → bool;
  phone_regex : string → bool;
  lower : string → string;
  strip : string → string;
  drop_separators : string → string;
  search_filter : list string → string → bool;
  RefreshToken_for_user : UUID → string * string;
  decrypt_expiry_date : string → UUID → option Z
}.

(** ** Requests, responses and effects *)

(** The JSON values the views answer with. *)
#[warnings="-register-all"]
Inductive json :=
| JNull
| JBool (b : bool)
| JInt (z : Z)
| JStr (s : string)
| JList (l : list json)
| JObj (members : list (string * json)).

Record Response := mkResponse {
  status : Z;
  data : json
}.

(** What a request draws from outside the tables: [timezone.now()], the
    [uuid.uuid4()] values in the order they are drawn,
    [secrets.token_urlsafe(32)], and whether the storage backend can read and
    write the uploaded file. *)
Record Env := mkEnv {
  now : datetime;
  uuid4 : nat → UUID;
  token_urlsafe : string;
  storage_ok : bool
}.

(** A handler: it reads and writes the tables and returns or raises.  The
    tables an exception leaves behind are kept, as on a connection in
    autocommit mode. *)
Definition M (A : Type) : Type := Db → result A * Db.

#[global] Instance M_ret : MRet M := λ A a db, (Ok a, db).

#[global] Instance M_bind : MBind M := λ A B k m db,
  match m db with
  | (Ok a, db') => k a db'
  | (Raise e, db') => (Raise e, db')
  end.

Definition raise {A} (e : exn) : M A := λ db, (Raise e, db).

Definition lift {A} (r : result A) : M A := λ db, (r, db).

Definition get_db : M Db := λ db, (Ok db, db).

Definition put_db (db' : Db) : M unit := λ _, (Ok tt, db').

(** [try: body except Exception as e: handler(e)] *)
Definition try_catch {A} (body : M A) (handler : exn → M A) : M A := λ db,
  match body db with
  | (Ok a, db') => (Ok a, db')
  | (Raise e, db') => handler e db'
  end.

(** [with transaction.atomic(): body]: an exception rolls the tables back and
    goes on propagating. *)
Definition atomic {A} (body : M A) : M A := λ db,
  match body db with
  | (Ok a, db') => (Ok a, db')
  | (Raise e, _) => (Raise e, db)
  end.

(** What the framework makes of a view: the exception handler of
    [rest_framework] answers 400 to a [ValidationError] and 404 to an
    [Http404]; anything else that leaves the view is a 500. *)
Definition dispatch (view : M Response) (db : Db) : Response * Db :=
  match view db with
  | (Ok response, db') => (response, db')
  | (Raise (ValidationError f m), db') =>
      (mkResponse HTTP_400_BAD_REQUEST (JObj [(f, JList [JStr m])]), db')
  | (Raise Http404, db') =>
      (mkResponse HTTP_404_NOT_FOUND (JObj [("detail", JStr "Not found.")]), db')
  | (Raise _, db') =>
      (mkResponse HTTP_500_INTERNAL_SERVER_ERROR (JStr "Server Error (500)"), db')
  end.

Definition not_authenticated : Response :=
  mkResponse HTTP_401_UNAUTHORIZED
    (JObj [("detail", JStr "Authentication credentials were not provided.")]).

(** [permission_classes = [IsAuthenticated]]: the bearer of the request is a
    row of [users]. *)
Definition authenticated (user_pk : UUID) (view : User.t → M Response)
  : M Response :=
  db ← get_db;
  match users db !! user_pk with
  | Some user => view user
  | None => mret not_authenticated
  end.

Definition newline : string := String (ascii_of_nat 10) "".

Definition dquote : string := String (ascii_of_nat 34) "".

(** A Python call with keyword arguments only: it raises [TypeError] on a
    keyword the function does not have and on a parameter without default
    that is not given. *)
Definition call_with_keywords (required optional given : list string)
  : result unit :=
  if forallb (λ k, existsb (String.eqb k) (required ++ optional)) given
     && forallb (λ p, existsb (String.eqb p) given) required
  then Ok tt
  else Raise (TypeError "unexpected or missing keyword argument").

(** ** notifications/utils.py and notifications/signals.py *)

Module NotificationCreator.

(** The parameters of [create_expiry_alert(user, document,
    days_until_expiry)]; none has a default. *)
Definition create_expiry_alert_parameters : list string :=
  ["user"; "document"; "days_until_expiry"].

(** The parameters of [create_storage_alert(user, storage_percentage)]. *)
Definition create_storage_alert_parameters : list string :=
  ["user"; "storage_percentage"].

(** [create_expiry_alert], the body.  The three branches choose the same
    [notification_type]; the title and body texts are the strings the code
    encodes. *)
Definition create_expiry_alert (env : Env) (pk : UUID) (user document : UUID)
    (days_until_expiry : Z) : M (UUID * Notification.t) :=
  let '(title, body, notification_type) :=
    if (0 <? days_until_expiry)%Z then
      ("Document Expiring Soon",
       "Your document will expire in " ++ pretty days_until_expiry ++ " days.",
       "EXPIRY_ALERT")
    else if (days_until_expiry =? 0)%Z then
      ("Document Expires Today",
       "Your document expires today. Please renew if needed.", "EXPIRY_ALERT")
    else
      ("Document Expired",
       "Your document expired " ++ pretty (Z.abs days_until_expiry) ++ " days ago.",
       "EXPIRY_ALERT") in
  let priority :=
    if (days_until_expiry <=? 1)%Z then "high"
    else if (days_until_expiry <=? 7)%Z then "medium"
    else "low" in
  let notification :=
    Notification.mk user notification_type priority title body (Some document)
      None false None false None false None None None (now env) in
  db ← get_db;
  table ← lift (insert_row pk notification (notifications db));
  _ ← put_db (with_notifications table db);
  mret (pk, notification).

(** [create_security_alert(user, alert_message, device_info=None)] *)
Definition create_security_alert (env : Env) (pk : UUID) (user : UUID)
    (alert_message : string) (device_info : option string)
  : M (UUID * Notification.t) :=
  let title := "Security Alert" in
  let body :=
    match device_info with
    | Some device => alert_message ++ newline ++ newline ++ "Device: " ++ device
    | None => alert_message
    end in
  let notification :=
    Notification.mk user "SECURITY_ALERT" "high" title body None None false
      None false None false None None None (now env) in
  db ← get_db;
  table ← lift (insert_row pk notification (notifications db));
  _ ← put_db (with_notifications table db);
  mret (pk, notification).

End NotificationCreator.

Module Signals.

(** [get_or_create_for_user] as a step of a handler. *)
Definition preferences_of (user : UUID) : M NotificationPreference.t := λ db,
  let '(prefs, db') := get_or_create_for_user user db in (Ok prefs, db').

(** [create_expiry_notifications], a [post_save] receiver of [Document].
    The call it makes gives [preferences] and no [days_until_expiry]. *)
Definition create_expiry_notifications (env : Env) (pk : UUID)
    (instance : Document.t) (created : bool) : M unit :=
  if negb (Document.has_expiry instance)
     || String.eqb (Document.encrypted_expiry_date instance) "" then mret tt
  else if created then
    prefs ← preferences_of (Document.user instance);
    try_catch
      (_ ← lift (call_with_keywords
                   NotificationCreator.create_expiry_alert_parameters []
                   ["document"; "user"; "preferences"]);
       mret tt)
      (λ _, mret tt)
  else mret tt.

(** [check_storage_usage]: it sums the sizes of the user's documents and then
    reads [user.storage_limit], an attribute [User] does not have. *)
Definition check_storage_usage (user : UUID) : M unit :=
  db ← get_db;
  let total_size :=
    map_fold (λ _ doc acc,
                if N.eqb (Document.user doc) user then acc + Document.file_size doc
                else acc) 0 (documents db) in
  raise (AttributeError "storage_limit").

(** [monitor_storage_after_upload], a [post_save] receiver of [Document]. *)
Definition monitor_storage_after_upload (user : UUID) (created : bool)
  : M unit :=
  if created then try_catch (check_storage_usage user) (λ _, mret tt)
  else mret tt.

(** [check_expiry_date_change], the [pre_save] receiver of [Document]: when
    the row exists and the expiry date differs, the unread expiry
    notifications of the document are deleted. *)
Definition check_expiry_date_change (pk : UUID) (instance : Document.t)
  : M unit :=
  db ← get_db;
  match documents db !! pk with
  | Some old_instance =>
      if negb (String.eqb (Document.encrypted_expiry_date old_instance)
                 (Document.encrypted_expiry_date instance)) then
        put_db (with_notifications
                  (objects_delete
                     (λ n, bool_decide (Notification.document n = Some pk)
                           && (String.eqb (Notification.notification_type n)
                                 Notification.DOCUMENT_EXPIRY
                               || String.eqb (Notification.notification_type n)
                                    Notification.DOCUMENT_EXPIRED)
                           && negb (Notification.is_read n))
                     (notifications db)) db)
      else mret tt
  | None => mret tt
  end.

(** [create_new_device_notification], the [post_save] receiver of [Device];
    [pk] is the key of the notification it may create. *)
Definition create_new_device_notification (env : Env) (pk : UUID)
    (instance : Device.t) (created : bool) : M unit :=
  if created then
    prefs ← preferences_of (Device.user instance);
    if negb (NotificationPreference.push_security_alerts prefs)
       && negb (NotificationPreference.email_security_alerts prefs) then mret tt
    else
      try_catch
        (_ ← NotificationCreator.create_security_alert env pk
               (Device.user instance)
               ("New device login: " ++ Device.device_name instance)
               (Some (Device.device_name instance));
         mret tt)
        (λ _, mret tt)
  else mret tt.

End Signals.

(** ** users/models.py (methods), users/serializers.py, users/views.py *)

Module Users.
Section WithLib.
Context `{Lib}.

(** [len(raw) == 64 and all(c in '0123456789abcdef' for c in raw)] *)
Definition is_hex_digest (raw : string) : bool :=
  Nat.eqb (String.length raw) 64
  && forallb (λ c, existsb (Ascii.eqb c) (list_ascii_of_string "0123456789abcdef"))
       (list_ascii_of_string raw).

(** [User.set_password] *)
Definition set_password (raw_password : string) (u : User.t) : User.t :=
  let password :=
    if is_hex_digest raw_password then raw_password
    else sha256_hexdigest raw_password in
  User.mk (User.username u) (User.email u) (User.mobile_number u) password
    (User.recovery_key_hash u) (User.google_id u) (User.auth_provider u)
    (User.email_verified u) (User.email_verification_token u)
    (User.subscription_tier u) (User.storage_used u) (User.last_login_at u).

(** [User.check_password] *)
Definition check_password (u : User.t) (raw_password : string) : bool :=
  let password_hash :=
    if is_hex_digest raw_password then raw_password
    else sha256_hexdigest raw_password in
  String.eqb (User.password u) password_hash.

(** *** [login] *)

Record LoginRequest := mkLoginRequest {
  login_username : option string;
  login_password : option string
}.

(** Python's [not s] for [s = request.data.get(k)]. *)
Definition falsy (s : option string) : bool :=
  match s with
  | None => true
  | Some v => String.eqb v ""
  end.

Definition invalid_credentials : Response :=
  mkResponse HTTP_401_UNAUTHORIZED (JObj [("detail", JStr "Invalid credentials")]).

Definition email_not_verified : Response :=
  mkResponse HTTP_403_FORBIDDEN
    (JObj [("detail", JStr "Please verify your email before logging in. Check your inbox for the verification link.")]).

(** [users/views.py], [login]: the body of the view.  [User.DoesNotExist] is
    the one exception it catches. *)
Definition login_view (env : Env) (request : LoginRequest) : M Response :=
  let username := login_username request in
  let password := login_password request in
  if falsy username || falsy password then
    mret (mkResponse HTTP_400_BAD_REQUEST
            (JObj [("detail", JStr "Username and password are required")]))
  else
    let username := default "" username in
    let password := default "" password in
    try_catch
      (db ← get_db;
       '(pk, user) ← lift (objects_get (λ u, String.eqb (User.username u) username)
                             (users db));
       if negb (check_password user password) then mret invalid_credentials
       else if negb (User.email_verified user) then mret email_not_verified
       else
         let refresh := RefreshToken_for_user pk in
         _ ← put_db (with_users (alter (User.set_last_login_at (now env)) pk (users db)) db);
         mret (mkResponse HTTP_200_OK
                 (JObj [("access", JStr (fst refresh)); ("refresh", JStr (snd refresh))])))
      (λ e, match e with
            | DoesNotExist => mret invalid_credentials
            | _ => raise e
            end).

Definition login (env : Env) (request : LoginRequest) (db : Db)
  : Response * Db :=
  dispatch (login_view env request) db.

(** *** Device rows *)

(** The [INSERT] of a [Device]: the primary key, [device_id] ([unique=True])
    and the pair of [unique_together] must be new. *)
Definition Device_insert (pk : UUID) (row : Device.t) : M unit :=
  db ← get_db;
  if bool_decide (is_Some (devices db !! pk)) then
    raise (IntegrityError "devices.id")
  else if objects_exists (λ d, String.eqb (Device.device_id d) (Device.device_id row))
            (devices db) then
    raise (IntegrityError "devices.device_id")
  else if objects_exists (λ d, N.eqb (Device.user d) (Device.user row)
                               && String.eqb (Device.device_id d) (Device.device_id row))
            (devices db) then
    raise (IntegrityError "devices.user_id, devices.device_id")
  else put_db (with_devices (<[pk := row]> (devices db)) db).

(** [Device.objects.create(...)]: the insert, then the [post_save] receiver.
    [uuid4 env i] is the key of the row and [uuid4 env (S i)] the key of the
    notification of the receiver. *)
Definition Device_objects_create (env : Env) (i : nat) (row : Device.t)
  : M UUID :=
  let pk := uuid4 env i in
  _ ← Device_insert pk row;
  _ ← Signals.create_new_device_notification env (uuid4 env (S i)) row true;
  mret pk.

(** [Device.objects.get_or_create(user=.., device_id=.., defaults=..)]: a
    failed insert is followed by a second [get], whose failure raises the
    [IntegrityError] again. *)
Definition Device_objects_get_or_create (env : Env) (i : nat) (row : Device.t)
  : M UUID :=
  let lookup db :=
    objects_get (λ d, N.eqb (Device.user d) (Device.user row)
                      && String.eqb (Device.device_id d) (Device.device_id row))
      (devices db) in
  db ← get_db;
  match lookup db with
  | Ok (pk, _) => mret pk
  | Raise DoesNotExist =>
      try_catch (atomic (Device_objects_create env i row))
        (λ e, match e with
              | IntegrityError _ =>
                  db' ← get_db;
                  match lookup db' with
                  | Ok (pk, _) => mret pk
                  | Raise _ => raise e
                  end
              | _ => raise e
              end)
  | Raise e => raise e
  end.

(** [remove_device]: [Device.objects.get(id=.., user=request.user)], then
    [device.delete()], which sets [Notification.device] to [NULL]
    ([on_delete=SET_NULL]). *)
Definition remove_device_view (user : UUID) (pk : UUID) : M Response :=
  db ← get_db;
  match devices db !! pk with
  | Some device =>
      if N.eqb (Device.user device) user then
        _ ← put_db
              (with_notifications
                 (objects_update
                    (λ n, bool_decide (Notification.device n = Some pk))
                    (Notification.set_device None) (notifications db))
                 (with_devices (delete pk (devices db)) db));
        mret (mkResponse HTTP_200_OK
                (JObj [("success", JBool true);
                       ("message", JStr ("Device " ++ dquote ++ Device.device_name device
                                         ++ dquote ++ " removed successfully"))]))
      else mret (mkResponse HTTP_404_NOT_FOUND (JObj [("error", JStr "Device not found")]))
  | None => mret (mkResponse HTTP_404_NOT_FOUND (JObj [("error", JStr "Device not found")]))
  end.

Definition remove_device (user pk : UUID) (db : Db) : Response * Db :=
  dispatch (remove_device_view user pk) db.

(** *** [register] *)

Record RegisterRequest := mkRegisterRequest {
  reg_username : option string;
  reg_email : option string;
  reg_mobile_number : option string;
  reg_password : option string;
  reg_recovery_key_hash : option string;
  reg_device_id : option string;
  reg_device_name : option string
}.

Record RegisterData := mkRegisterData {
  val_username : string;
  val_email : string;
  val_mobile_number : string;
  val_password : string;
  val_recovery_key_hash : string;
  val_device_id : string;
  val_device_name : string
}.

(** A required [serializers.CharField]: the value is stripped, must not be
    blank and must fit [max_length]. *)
Definition CharField (name : string) (max_length : option nat)
    (v : option string) : result string :=
  match v with
  | None => Raise (ValidationError name "This field is required.")
  | Some raw =>
      let value := strip raw in
      if String.eqb value "" then
        Raise (ValidationError name "This field may not be blank.")
      else
        match max_length with
        | Some m =>
            if Nat.ltb m (String.length value) then
              Raise (ValidationError name "Ensure this field has no more characters.")
            else Ok value
        | None => Ok value
        end
  end.

Definition validate_username (db : Db) (value : string) : result string :=
  if negb (Nat.eqb (String.length value) 30) then
    Raise (ValidationError "username" "Username must be exactly 30 characters")
  else if negb (int_base16 value) then
    Raise (ValidationError "username" "Username must be a valid hexadecimal string")
  else if objects_exists (λ u, String.eqb (User.username u) value) (users db) then
    Raise (ValidationError "username" "A user with this email already exists")
  else Ok value.

Definition validate_email (db : Db) (value : string) : result string :=
  let value := strip (lower value) in
  if objects_exists (λ u, String.eqb (User.email u) value) (users db) then
    Raise (ValidationError "email" "A user with this email already exists")
  else Ok value.

Definition validate_mobile_number (db : Db) (value : string) : result string :=
  let value := drop_separators value in
  if negb (phone_regex value) then
    Raise (ValidationError "mobile_number"
             "Mobile number must be in format: '+999999999'. Up to 15 digits allowed.")
  else if objects_exists (λ u, String.eqb (User.mobile_number u) value) (users db) then
    Raise (ValidationError "mobile_number" "A user with this mobile number already exists")
  else Ok value.

Definition validate_password (value : string) : result string :=
  if negb (Nat.eqb (String.length value) 64) then
    Raise (ValidationError "password" "Password must be SHA-256 hash (64 characters)")
  else Ok value.

(** [UserRegistrationSerializer.is_valid]: every field, in the order of the
    class.  The serializer reports the errors of all fields at once; here the
    first one stands for the report. *)
Definition registration_is_valid (db : Db) (request : RegisterRequest)
  : result RegisterData :=
  username ← CharField "username" (Some 30%nat) (reg_username request);
  username ← validate_username db username;
  email ← CharField "email" None (reg_email request);
  email ← (if email_format email then Ok email
           else Raise (ValidationError "email" "Enter a valid email address."));
  email ← validate_email db email;
  mobile_number ← CharField "mobile_number" (Some 17%nat) (reg_mobile_number request);
  mobile_number ← validate_mobile_number db mobile_number;
  password ← CharField "password" None (reg_password request);
  password ← validate_password password;
  recovery_key_hash ← CharField "recovery_key_hash" None (reg_recovery_key_hash request);
  device_id ← CharField "device_id" None (reg_device_id request);
  device_name ← CharField "device_name" None (reg_device_name request);
  mret (mkRegisterData username email mobile_number password recovery_key_hash
          device_id device_name).

(** The [INSERT] of a [User]: the primary key and the three [unique=True]
    columns the row fills must be new. *)
Definition User_insert (pk : UUID) (row : User.t) : M unit :=
  db ← get_db;
  if bool_decide (is_Some (users db !! pk)) then raise (IntegrityError "users.id")
  else if objects_exists (λ u, String.eqb (User.username u) (User.username row)) (users db)
  then raise (IntegrityError "users.username")
  else if objects_exists (λ u, String.eqb (User.email u) (User.email row)) (users db)
  then raise (IntegrityError "users.email")
  else if objects_exists (λ u, String.eqb (User.mobile_number u) (User.mobile_number row))
            (users db)
  then raise (IntegrityError "users.mobile_number")
  else put_db (with_users (<[pk := row]> (users db)) db).

(** [UserRegistrationSerializer.create]: the user row, its verification
    token, then the first device.  No transaction spans the three writes. *)
Definition registration_create (env : Env) (validated_data : RegisterData)
  : M (UUID * User.t) :=
  let pk := uuid4 env 0 in
  let user :=
    set_password (val_password validated_data)
      (User.mk (val_username validated_data) (val_email validated_data)
         (val_mobile_number validated_data) ""
         (val_recovery_key_hash validated_data) None "local" false None "FREE" 0
         None) in
  _ ← User_insert pk user;
  let user := User.set_email_verification_token (Some (token_urlsafe env)) user in
  db ← get_db;
  _ ← put_db (with_users (<[pk := user]> (users db)) db);
  _ ← Device_objects_create env 1
        (Device.mk pk (val_device_id validated_data)
           (val_device_name validated_data) "web" true);
  mret (pk, user).

(** [users/views.py], [register].  Sending the verification mail writes no
    table and its failures are caught, so it leaves no trace here. *)
Definition register_view (env : Env) (request : RegisterRequest) : M Response :=
  try_catch
    (db ← get_db;
     match registration_is_valid db request with
     | Ok validated_data =>
         '(pk, user) ← registration_create env validated_data;
         mret (mkResponse HTTP_201_CREATED
                 (JObj [("success", JBool true);
                        ("user_id", JStr (pretty pk));
                        ("email_verified", JBool (User.email_verified user));
                        ("mobile_verified", JBool true);
                        ("message", JStr "Registration successful. Please check your email to verify your account, then login.")]))
     | Raise (ValidationError f m) =>
         mret (mkResponse HTTP_400_BAD_REQUEST
                 (JObj [("success", JBool false);
                        ("errors", JObj [(f, JList [JStr m])])]))
     | Raise e => raise e
     end)
    (λ _, mret (mkResponse HTTP_500_INTERNAL_SERVER_ERROR
                  (JObj [("success", JBool false);
                         ("error", JStr "An error occurred during registration")]))).

Definition register (env : Env) (request : RegisterRequest) (db : Db)
  : Response * Db :=
  dispatch (register_view env request) db.

End WithLib.
End Users.

(** ** vault/serializers.py and vault/views.py *)

(** The uploaded file of a multipart request. *)
Module UploadedFile.
Record t := mk {
  name : string;
  size : Z;
  content_type : string;
  content : string;
  readable : bool
}.
End UploadedFile.

Module Vault.
Section WithLib.
Context `{Lib}.

(** The writable fields of [DocumentSerializer] as [request.data] has them. *)
Record UploadRequest := mkUploadRequest {
  category : field UUID;
  folder : field UUID;
  encrypted_title : option string;
  encrypted_description : option string;
  encrypted_doc_type : option string;
  encrypted_file : option UploadedFile.t;
  has_expiry : option bool;
  encrypted_issue_date : option string;
  encrypted_expiry_date : option string;
  notification_trigger_timestamp : option datetime
}.

(** [storage_limits] of [DocumentSerializer.create] *)
Definition storage_limits : list (string * Z) :=
  [("FREE", 1073741824); ("PREMIUM", 26843545600);
   ("FAMILY", 107374182400); ("LIFETIME", 10737418240)].

(** [dict.get(key, default)] *)
Fixpoint dict_get (key : string) (d : list (string * Z)) (default : Z) : Z :=
  match d with
  | [] => default
  | (k, v) :: rest => if String.eqb k key then v else dict_get key rest default
  end.

(** [file_name.split('.')[-1] if '.' in file_name else ''] *)
Fixpoint last_segment (acc s : string) : string :=
  match s with
  | EmptyString => acc
  | String c rest =>
      if Ascii.eqb c "."%char then last_segment "" rest
      else last_segment (acc ++ String c "") rest
  end.

Definition file_extension_of (file_name : string) : string :=
  if existsb (Ascii.eqb "."%char) (list_ascii_of_string file_name)
  then last_segment "" file_name
  else "".

(** A [PrimaryKeyRelatedField] that may be null: the key must be a row. *)
Definition related_field {A} (name : string) (table : gmap UUID A)
    (v : field UUID) : result (field UUID) :=
  match v with
  | Given pk =>
      match table !! pk with
      | Some _ => Ok v
      | None => Raise (ValidationError name "Invalid pk - object does not exist.")
      end
  | _ => Ok v
  end.

(** The [FileField] of the serializer: required, named, not empty, and a
    name of 100 characters at most. *)
Definition file_field (v : option UploadedFile.t) : result UploadedFile.t :=
  match v with
  | None => Raise (ValidationError "encrypted_file" "No file was submitted.")
  | Some f =>
      if String.eqb (UploadedFile.name f) "" then
        Raise (ValidationError "encrypted_file" "No filename could be determined.")
      else if UploadedFile.size f =? 0 then
        Raise (ValidationError "encrypted_file" "The submitted file is empty.")
      else if Nat.ltb 100 (String.length (UploadedFile.name f)) then
        Raise (ValidationError "encrypted_file" "Ensure this filename has at most 100 characters.")
      else Ok f
  end.

(** [DocumentSerializer.validate] *)
Definition validate (db : Db) (user : UUID) (data : UploadRequest)
  : result UploadRequest :=
  match truthy (folder data) with
  | Some folder_pk =>
      match folders db !! folder_pk with
      | Some folder_row =>
          if negb (N.eqb (Folder.user folder_row) user) then
            Raise (ValidationError "folder" "Folder must belong to you")
          else if present (category data)
                  && negb (bool_decide (Some (Folder.category folder_row)
                                        = truthy (category data))) then
            Raise (ValidationError "folder" "Folder must be in same category as document")
          else Ok data
      | None => Ok data
      end
  | None => Ok data
  end.

(** [serializer.is_valid()]: the field checks of the framework, then
    [validate]. The first error stands for the error report. *)
Definition is_valid (db : Db) (user : UUID) (data : UploadRequest)
  : result UploadRequest :=
  _ ← related_field "category" (categories db) (category data);
  _ ← related_field "folder" (folders db) (folder data);
  _ ← file_field (encrypted_file data);
  validate db user data.

(** The [INSERT] of a [DocumentVersion]: [unique_together] is
    [(document, version_number)]. *)
Definition DocumentVersion_objects_create (env : Env) (pk : UUID)
    (row : DocumentVersion.t) : M unit :=
  db ← get_db;
  if negb (storage_ok env) then raise IOError
  else if objects_exists
            (λ v, N.eqb (DocumentVersion.document v) (DocumentVersion.document row)
                  && (DocumentVersion.version_number v
                      =? DocumentVersion.version_number row))
            (versions db) then
    raise (IntegrityError "document_versions.document_id, version_number")
  else
    table ← lift (insert_row pk row (versions db));
    put_db (with_versions table db).

(** [Document.objects.create(...)]: the [pre_save] receiver, the file and
    the row, then the two [post_save] receivers. *)
Definition Document_objects_create (env : Env) (pk : UUID) (row : Document.t)
  : M unit :=
  _ ← Signals.check_expiry_date_change pk row;
  db ← get_db;
  if negb (storage_ok env) then raise IOError
  else
    table ← lift (insert_row pk row (documents db));
    _ ← put_db (with_documents table db);
    _ ← Signals.create_expiry_notifications env pk row true;
    Signals.monitor_storage_after_upload (Document.user row) true.

(** [DocumentSerializer.create].  [user] is [request.user] as the
    authentication loaded it.  The keys drawn are [uuid4 env 0] for the
    document, [1] for its file name, [2] for the version, [3] for the file
    name of the version. *)
Definition create (env : Env) (user_pk : UUID) (user : User.t)
    (validated_data : UploadRequest) : M (UUID * Document.t) :=
  match encrypted_file validated_data with
  | None => raise (ValidationError "encrypted_file" "This field is required.")
  | Some file =>
      let file_size := UploadedFile.size file in
      let user_limit :=
        dict_get (User.subscription_tier user) storage_limits
          (dict_get "FREE" storage_limits 0) in
      if user_limit <? User.storage_used user + file_size then
        raise (ValidationError "file"
                 ("Storage limit exceeded. Available: "
                  ++ pretty (user_limit - User.storage_used user) ++ " bytes"))
      else if negb (UploadedFile.readable file) then
        raise (ValidationError "file" "Failed to process file")
      else
        let file_hash := sha256_hexdigest (UploadedFile.content file) in
        let file_extension := file_extension_of (UploadedFile.name file) in
        let mime_type :=
          if String.eqb (UploadedFile.content_type file) "" then "application/octet-stream"
          else UploadedFile.content_type file in
        let document :=
          Document.mk user_pk (truthy (category validated_data))
            (truthy (folder validated_data))
            (default "" (encrypted_title validated_data))
            (default "" (encrypted_description validated_data))
            (default "" (encrypted_doc_type validated_data))
            (mkFilePath user_pk (uuid4 env 1) file_extension)
            file_size file_extension mime_type file_hash
            (default false (has_expiry validated_data))
            (default "" (encrypted_issue_date validated_data))
            (default "" (encrypted_expiry_date validated_data))
            (notification_trigger_timestamp validated_data)
            false None (now env) (now env) in
        let version :=
          DocumentVersion.mk (uuid4 env 0) 1
            (mkFilePath user_pk (uuid4 env 3) file_extension)
            file_size file_hash "" (now env) in
        try_catch
          (atomic
             (_ ← Document_objects_create env (uuid4 env 0) document;
              _ ← DocumentVersion_objects_create env (uuid4 env 2) version;
              db ← get_db;
              _ ← put_db (with_users
                            (alter (User.set_storage_used
                                      (User.storage_used user + file_size))
                               user_pk (users db)) db);
              mret (uuid4 env 0, document)))
          (λ e, raise (ValidationError "error" "Failed to create document"))
  end.

(** What [serializer.data] shows of a document; the full representation has
    every field of [Meta.fields]. *)
Definition document_data (pk : UUID) (d : Document.t) : json :=
  JObj [("id", JStr (pretty pk));
        ("file_size", JInt (Document.file_size d));
        ("file_extension", JStr (Document.file_extension d));
        ("mime_type", JStr (Document.mime_type d));
        ("file_hash", JStr (Document.file_hash d));
        ("has_expiry", JBool (Document.has_expiry d));
        ("is_deleted", JBool (Document.is_deleted d))].

(** [DocumentViewSet.create] with [perform_create]. *)
Definition DocumentViewSet_create_view (env : Env) (user_pk : UUID)
    (data : UploadRequest) : M Response :=
  authenticated user_pk (λ user,
    db ← get_db;
    match is_valid db user_pk data with
    | Ok validated_data =>
        '(pk, document) ← create env user_pk user validated_data;
        mret (mkResponse HTTP_201_CREATED (document_data pk document))
    | Raise (ValidationError f m) =>
        mret (mkResponse HTTP_400_BAD_REQUEST (JObj [(f, JList [JStr m])]))
    | Raise e => raise e
    end).

Definition DocumentViewSet_create (env : Env) (user_pk : UUID)
    (data : UploadRequest) (db : Db) : Response * Db :=
  dispatch (DocumentViewSet_create_view env user_pk data) db.

(** *** Reading and deleting documents *)

(** The query string of a [DocumentViewSet] request: [category] is [None]
    when the parameter is missing, empty or ['all']; [folder] is [Null] for
    ['null'] and for the empty string; [search] is the parameter of the
    [SearchFilter]. *)
Record DocumentQuery := mkDocumentQuery {
  q_category : option UUID;
  q_folder : field UUID;
  q_search : option string
}.

(** [DocumentViewSet.get_queryset], followed by the [SearchFilter] of
    [filter_backends] that [get_object] applies too. *)
Definition get_queryset (user : UUID) (query : DocumentQuery) (d : Document.t)
  : bool :=
  N.eqb (Document.user d) user
  && negb (Document.is_deleted d)
  && match q_category query with
     | Some c => bool_decide (Document.category d = Some c)
     | None => true
     end
  && match q_folder query with
     | Null => bool_decide (Document.folder d = None)
     | Given f => bool_decide (Document.folder d = Some f)
     | Absent => true
     end
  && match q_search query with
     | Some search =>
         search_filter
           [Document.encrypted_title d; Document.encrypted_doc_type d] search
     | None => true
     end.

(** [self.get_object()] *)
Definition get_object (user : UUID) (query : DocumentQuery) (pk : UUID)
  : M Document.t :=
  db ← get_db;
  match documents db !! pk with
  | Some d => if get_queryset user query d then mret d else raise Http404
  | None => raise Http404
  end.

(** [instance.save()] of a row that exists: the [pre_save] receiver, the
    [UPDATE] with [updated_at = now], the [post_save] receivers. *)
Definition Document_save (env : Env) (pk : UUID) (instance : Document.t)
  : M unit :=
  _ ← Signals.check_expiry_date_change pk instance;
  db ← get_db;
  let row :=
    Document.mk (Document.user instance) (Document.category instance)
      (Document.folder instance) (Document.encrypted_title instance)
      (Document.encrypted_description instance)
      (Document.encrypted_doc_type instance) (Document.encrypted_file instance)
      (Document.file_size instance) (Document.file_extension instance)
      (Document.mime_type instance) (Document.file_hash instance)
      (Document.has_expiry instance) (Document.encrypted_issue_date instance)
      (Document.encrypted_expiry_date instance)
      (Document.notification_trigger_timestamp instance)
      (Document.is_deleted instance) (Document.deleted_at instance)
      (Document.created_at instance) (now env) in
  _ ← put_db (with_documents (<[pk := row]> (documents db)) db);
  _ ← Signals.create_expiry_notifications env pk row false;
  Signals.monitor_storage_after_upload (Document.user row) false.

(** [DocumentViewSet.perform_destroy] *)
Definition perform_destroy (env : Env) (pk : UUID) (instance : Document.t)
  : M unit :=
  db ← get_db;
  match users db !! Document.user instance with
  | None => raise DoesNotExist
  | Some user =>
      let file_size := Document.file_size instance in
      let instance :=
        Document.mk (Document.user instance) (Document.category instance)
          (Document.folder instance) (Document.encrypted_title instance)
          (Document.encrypted_description instance)
          (Document.encrypted_doc_type instance)
          (Document.encrypted_file instance) (Document.file_size instance)
          (Document.file_extension instance) (Document.mime_type instance)
          (Document.file_hash instance) (Document.has_expiry instance)
          (Document.encrypted_issue_date instance)
          (Document.encrypted_expiry_date instance)
          (Document.notification_trigger_timestamp instance)
          true (Some (now env))
          (Document.created_at instance) (Document.updated_at instance) in
      _ ← Document_save env pk instance;
      db ← get_db;
      put_db (with_users
                (alter (User.set_storage_used (User.storage_used user - file_size))
                   (Document.user instance) (users db)) db)
  end.

(** [DocumentViewSet.destroy] *)
Definition DocumentViewSet_destroy_view (env : Env) (user_pk : UUID)
    (query : DocumentQuery) (pk : UUID) : M Response :=
  authenticated user_pk (λ _,
    try_catch
      (document ← get_object user_pk query pk;
       _ ← perform_destroy env pk document;
       mret (mkResponse HTTP_200_OK
               (JObj [("success", JBool true); ("message", JStr "Document deleted")])))
      (λ e, match e with
            | Http404 =>
                mret (mkResponse HTTP_404_NOT_FOUND
                        (JObj [("error", JStr "Document not found")]))
            | _ => raise e
            end)).

Definition DocumentViewSet_destroy (env : Env) (user_pk : UUID)
    (query : DocumentQuery) (pk : UUID) (db : Db) : Response * Db :=
  dispatch (DocumentViewSet_destroy_view env user_pk query pk) db.

(** *** Deleting folders *)

(** The query string of a [FolderViewSet] request: [parent] is [Null] for
    ['null'] and for the empty string. *)
Record FolderQuery := mkFolderQuery {
  fq_category : option UUID;
  fq_parent : field UUID
}.

(** [FolderViewSet.get_queryset] *)
Definition folder_queryset (user : UUID) (query : FolderQuery) (f : Folder.t)
  : bool :=
  N.eqb (Folder.user f) user
  && match fq_category query with
     | Some c => N.eqb (Folder.category f) c
     | None => true
     end
  && match fq_parent query with
     | Null => bool_decide (Folder.parent f = None)
     | Given p => bool_decide (Folder.parent f = Some p)
     | Absent => true
     end.

(** The rows of [table] whose [parent] is one of [objs]: the [subfolders]
    relation of [objs], which [on_delete=CASCADE] follows. *)
Definition related_objects (table : gmap UUID Folder.t) (objs : gset UUID)
  : gset UUID :=
  dom (filter (λ kv, match Folder.parent kv.2 with
                     | Some p => bool_decide (p ∈ objs)
                     | None => false
                     end = true) table).

(** The collector of [Model.delete()]: it adds the rows it has not seen and
    follows the cascade from them, until a round adds nothing.  A round adds
    one row at least, so as many rounds as there are rows are enough. *)
Fixpoint collect (fuel : nat) (table : gmap UUID Folder.t)
    (seen new_objs : gset UUID) : gset UUID :=
  match fuel with
  | O => seen
  | S fuel' =>
      let sub_objs := related_objects table new_objs ∖ seen in
      if decide (sub_objs = ∅) then seen
      else collect fuel' table (seen ∪ sub_objs) sub_objs
  end.

(** [instance.delete()] of a [Folder]: the collected folders go, and
    [Document.folder] ([on_delete=SET_NULL]) is set to [NULL] where it points
    to one of them. *)
Definition Folder_delete (pk : UUID) : M unit :=
  db ← get_db;
  let collected :=
    collect (size (folders db)) (folders db) {[pk]} {[pk]} in
  put_db
    (with_documents
       (objects_update
          (λ d, match Document.folder d with
                | Some f => bool_decide (f ∈ collected)
                | None => false
                end)
          (Document.set_folder None) (documents db))
       (with_folders (filter (λ kv, kv.1 ∉ collected) (folders db)) db)).

(** [FolderViewSet.perform_destroy]; the two counts only go to the log. *)
Definition folder_perform_destroy (pk : UUID) : M unit :=
  Folder_delete pk.

(** [FolderViewSet.destroy], the one of [DestroyModelMixin]. *)
Definition FolderViewSet_destroy_view (user_pk : UUID) (query : FolderQuery)
    (pk : UUID) : M Response :=
  authenticated user_pk (λ _,
    db ← get_db;
    match folders db !! pk with
    | Some f =>
        if folder_queryset user_pk query f then
          _ ← folder_perform_destroy pk;
          mret (mkResponse HTTP_204_NO_CONTENT JNull)
        else raise Http404
    | None => raise Http404
    end).

Definition FolderViewSet_destroy (user_pk : UUID) (query : FolderQuery)
    (pk : UUID) (db : Db) : Response * Db :=
  dispatch (FolderViewSet_destroy_view user_pk query pk) db.

End WithLib.
End Vault.

(** ** notifications/serializers.py and notifications/views.py *)

Module Notifications.
Section WithLib.
Context `{Lib}.

(** The query string of a [NotificationViewSet] request. *)
Record NotificationQuery := mkNotificationQuery {
  unread_only : bool;
  q_notification_type : option string;
  q_priority : option string
}.

(** [NotificationViewSet.get_queryset] *)
Definition get_queryset (env : Env) (user : UUID) (query : NotificationQuery)
    (n : Notification.t) : bool :=
  N.eqb (Notification.user n) user
  && (if unread_only query then negb (Notification.is_read n) else true)
  && match q_notification_type query with
     | Some t => String.eqb (Notification.notification_type n) t
     | None => true
     end
  && match q_priority query with
     | Some p => String.eqb (Notification.priority n) p
     | None => true
     end
  && match Notification.expires_at n with
     | None => true
     | Some t => now env <? t
     end.

Definition get_object (env : Env) (user : UUID) (query : NotificationQuery)
    (pk : UUID) : M Notification.t :=
  db ← get_db;
  match notifications db !! pk with
  | Some n => if get_queryset env user query n then mret n else raise Http404
  | None => raise Http404
  end.

(** [notification.save(update_fields=[...])]: an [UPDATE] of the named
    columns of the row; [write] sets them. *)
Definition save_update_fields (pk : UUID) (write : Notification.t → Notification.t)
  : M unit :=
  db ← get_db;
  put_db (with_notifications (alter write pk (notifications db)) db).

(** [notification.mark_as_read()] on the instance [n] of row [pk]. *)
Definition mark_as_read_instance (env : Env) (pk : UUID) (n : Notification.t)
  : M Notification.t :=
  if negb (Notification.is_read n) then
    _ ← save_update_fields pk (Notification.set_read true (Some (now env)));
    mret (Notification.mark_as_read (now env) n)
  else mret n.

(** [notification.mark_email_sent()] *)
Definition mark_email_sent_instance (env : Env) (pk : UUID) (n : Notification.t)
  : M unit :=
  if negb (Notification.email_sent n) then
    save_update_fields pk (Notification.set_email true (Some (now env)))
  else mret tt.

(** [notification.mark_push_sent()] *)
Definition mark_push_sent_instance (env : Env) (pk : UUID) (n : Notification.t)
  : M unit :=
  if negb (Notification.push_sent n) then
    save_update_fields pk (Notification.set_push true (Some (now env)))
  else mret tt.

(** What [serializer.data] shows of a notification. *)
Definition notification_data (pk : UUID) (n : Notification.t) : json :=
  JObj [("id", JStr (pretty pk));
        ("notification_type", JStr (Notification.notification_type n));
        ("priority", JStr (Notification.priority n));
        ("is_read", JBool (Notification.is_read n));
        ("email_sent", JBool (Notification.email_sent n));
        ("push_sent", JBool (Notification.push_sent n))].

Definition failed (message : string) : Response :=
  mkResponse HTTP_500_INTERNAL_SERVER_ERROR (JObj [("error", JStr message)]).

(** [NotificationViewSet.partial_update].  [is_read] is the truth value of
    [request.data['is_read']], [None] when the key is missing.  The
    [Http404] of [get_object] is not a [Notification.DoesNotExist]: the
    second handler takes it. *)
Definition partial_update_view (env : Env) (user : UUID)
    (query : NotificationQuery) (pk : UUID) (is_read : option bool)
  : M Response :=
  authenticated user (λ _,
    try_catch
      (notification ← get_object env user query pk;
       notification ←
         match is_read with
         | Some is_read =>
             if is_read && negb (Notification.is_read notification) then
               mark_as_read_instance env pk notification
             else if negb is_read && Notification.is_read notification then
               _ ← save_update_fields pk (Notification.set_read false None);
               mret (Notification.set_read false None notification)
             else mret notification
         | None => mret notification
         end;
       mret (mkResponse HTTP_200_OK (notification_data pk notification)))
      (λ e, match e with
            | DoesNotExist =>
                mret (mkResponse HTTP_404_NOT_FOUND
                        (JObj [("error", JStr "Notification not found")]))
            | _ => mret (failed "Failed to update notification")
            end)).

Definition partial_update (env : Env) (user : UUID) (query : NotificationQuery)
    (pk : UUID) (is_read : option bool) (db : Db) : Response * Db :=
  dispatch (partial_update_view env user query pk is_read) db.

(** [NotificationViewSet.destroy] *)
Definition destroy_view (env : Env) (user : UUID) (query : NotificationQuery)
    (pk : UUID) : M Response :=
  authenticated user (λ _,
    try_catch
      (notification ← get_object env user query pk;
       db ← get_db;
       _ ← put_db (with_notifications (delete pk (notifications db)) db);
       mret (mkResponse HTTP_204_NO_CONTENT
               (JObj [("message", JStr "Notification deleted")])))
      (λ e, match e with
            | DoesNotExist =>
                mret (mkResponse HTTP_404_NOT_FOUND
                        (JObj [("error", JStr "Notification not found")]))
            | _ => mret (failed "Failed to delete notification")
            end)).

Definition destroy (env : Env) (user : UUID) (query : NotificationQuery)
    (pk : UUID) (db : Db) : Response * Db :=
  dispatch (destroy_view env user query pk) db.

(** [NotificationMarkReadSerializer]: the [ListField] refuses a missing and
    an empty list, then [validate_notification_ids] refuses an id that is
    not a notification of the user. *)
Definition mark_read_is_valid (db : Db) (user : UUID)
    (notification_ids : option (list UUID)) : result (list UUID) :=
  match notification_ids with
  | None => Raise (ValidationError "notification_ids" "This field is required.")
  | Some [] => Raise (ValidationError "notification_ids" "This list may not be empty.")
  | Some value =>
      let existing_ids : gset UUID :=
        dom (filter (λ kv, bool_decide (kv.1 ∈ value)
                           && N.eqb (Notification.user kv.2) user = true)
               (notifications db)) in
      let invalid_ids : gset UUID := list_to_set value ∖ existing_ids in
      if decide (invalid_ids = ∅) then Ok value
      else Raise (ValidationError "notification_ids" "Invalid notification IDs")
  end.

(** The filter of [NotificationMarkReadSerializer.mark_as_read]. *)
Definition to_mark (user : UUID) (notification_ids : list UUID) (pk : UUID)
    (n : Notification.t) : bool :=
  bool_decide (pk ∈ notification_ids)
  && N.eqb (Notification.user n) user
  && negb (Notification.is_read n).

(** [NotificationMarkReadSerializer.mark_as_read]: the number of rows the
    [update] matched. *)
Definition mark_as_read (env : Env) (user : UUID) (notification_ids : list UUID)
  : M Z :=
  db ← get_db;
  let count := objects_count_pk (to_mark user notification_ids) (notifications db) in
  _ ← put_db (with_notifications
                (objects_update_pk (to_mark user notification_ids)
                   (Notification.set_read true (Some (now env)))
                   (notifications db)) db);
  mret count.

(** [NotificationViewSet.mark_read] *)
Definition mark_read_view (env : Env) (user : UUID)
    (notification_ids : option (list UUID)) : M Response :=
  authenticated user (λ _,
    try_catch
      (db ← get_db;
       match mark_read_is_valid db user notification_ids with
       | Ok validated =>
           count ← mark_as_read env user validated;
           mret (mkResponse HTTP_200_OK
                   (JObj [("message", JStr ("Marked " ++ pretty count
                                            ++ " notifications as read"));
                          ("count", JInt count)]))
       | Raise (ValidationError f m) =>
           mret (mkResponse HTTP_400_BAD_REQUEST (JObj [(f, JList [JStr m])]))
       | Raise e => raise e
       end)
      (λ _, mret (failed "Failed to mark notifications as read"))).

Definition mark_read (env : Env) (user : UUID)
    (notification_ids : option (list UUID)) (db : Db) : Response * Db :=
  dispatch (mark_read_view env user notification_ids) db.

(** [NotificationViewSet.mark_all_read] *)
Definition mark_all_read_view (env : Env) (user : UUID) : M Response :=
  authenticated user (λ _,
    db ← get_db;
    let unread n := N.eqb (Notification.user n) user && negb (Notification.is_read n) in
    let count := objects_count unread (notifications db) in
    _ ← put_db (with_notifications
                  (objects_update unread
                     (Notification.set_read true (Some (now env)))
                     (notifications db)) db);
    mret (mkResponse HTTP_200_OK
            (JObj [("message", JStr ("Marked " ++ pretty count
                                     ++ " notifications as read"));
                   ("count", JInt count)]))).

Definition mark_all_read (env : Env) (user : UUID) (db : Db) : Response * Db :=
  dispatch (mark_all_read_view env user) db.

(** [NotificationViewSet.delete_all_read] *)
Definition delete_all_read_view (user : UUID) : M Response :=
  authenticated user (λ _,
    db ← get_db;
    let read n := N.eqb (Notification.user n) user && Notification.is_read n in
    let count := objects_count read (notifications db) in
    _ ← put_db (with_notifications (objects_delete read (notifications db)) db);
    mret (mkResponse HTTP_200_OK
            (JObj [("message", JStr ("Deleted " ++ pretty count
                                     ++ " read notifications"));
                   ("count", JInt count)]))).

Definition delete_all_read (user : UUID) (db : Db) : Response * Db :=
  dispatch (delete_all_read_view user) db.

(** *** Preferences *)

(** The body of a preferences request; a key that is missing is [None]. *)
Record PreferenceData := mkPreferenceData {
  in_app_enabled : option bool;
  email_enabled : option bool;
  email_expiry_alerts : option bool;
  email_storage_alerts : option bool;
  email_security_alerts : option bool;
  push_enabled : option bool;
  push_expiry_alerts : option bool;
  push_storage_alerts : option bool;
  push_security_alerts : option bool;
  alert_30_days : option bool;
  alert_15_days : option bool;
  alert_7_days : option bool;
  alert_1_day : option bool;
  alert_on_expiry : option bool;
  storage_warning_threshold : option Z;
  storage_critical_threshold : option Z
}.

(** [validate_storage_warning_threshold] *)
Definition validate_storage_warning_threshold (value : Z) : result Z :=
  if negb ((50 <=? value) && (value <=? 100)) then
    Raise (ValidationError "storage_warning_threshold"
             "Storage warning threshold must be between 50 and 100")
  else Ok value.

(** [validate_storage_critical_threshold] *)
Definition validate_storage_critical_threshold (value : Z) : result Z :=
  if negb ((50 <=? value) && (value <=? 100)) then
    Raise (ValidationError "storage_critical_threshold"
             "Storage critical threshold must be between 50 and 100")
  else Ok value.

(** [NotificationPreferenceSerializer.validate]: [data] holds the keys of the
    request only. *)
Definition validate (data : PreferenceData) : result PreferenceData :=
  let warning := default 80 (storage_warning_threshold data) in
  let critical := default 95 (storage_critical_threshold data) in
  if critical <=? warning then
    Raise (ValidationError "non_field_errors"
             "Critical threshold must be higher than warning threshold")
  else Ok data.

(** [serializer.is_valid()] with [partial=True]: a field validator runs for
    a key that is given. *)
Definition preferences_is_valid (data : PreferenceData) : result PreferenceData :=
  _ ← match storage_warning_threshold data with
      | Some value => validate_storage_warning_threshold value
      | None => Ok 0
      end;
  _ ← match storage_critical_threshold data with
      | Some value => validate_storage_critical_threshold value
      | None => Ok 0
      end;
  validate data.

(** [serializer.save()] of a partial update: the given keys are written. *)
Definition preferences_save (instance : NotificationPreference.t)
    (data : PreferenceData) : NotificationPreference.t :=
  NotificationPreference.mk
    (default (NotificationPreference.in_app_enabled instance) (in_app_enabled data))
    (default (NotificationPreference.email_enabled instance) (email_enabled data))
    (default (NotificationPreference.email_expiry_alerts instance) (email_expiry_alerts data))
    (default (NotificationPreference.email_storage_alerts instance) (email_storage_alerts data))
    (default (NotificationPreference.email_security_alerts instance) (email_security_alerts data))
    (default (NotificationPreference.push_enabled instance) (push_enabled data))
    (default (NotificationPreference.push_expiry_alerts instance) (push_expiry_alerts data))
    (default (NotificationPreference.push_storage_alerts instance) (push_storage_alerts data))
    (default (NotificationPreference.push_security_alerts instance) (push_security_alerts data))
    (default (NotificationPreference.alert_30_days instance) (alert_30_days data))
    (default (NotificationPreference.alert_15_days instance) (alert_15_days data))
    (default (NotificationPreference.alert_7_days instance) (alert_7_days data))
    (default (NotificationPreference.alert_1_day instance) (alert_1_day data))
    (default (NotificationPreference.alert_on_expiry instance) (alert_on_expiry data))
    (default (NotificationPreference.storage_warning_threshold instance)
       (storage_warning_threshold data))
    (default (NotificationPreference.storage_critical_threshold instance)
       (storage_critical_threshold data)).

Definition preferences_data (p : NotificationPreference.t) : json :=
  JObj [("alert_7_days", JBool (NotificationPreference.alert_7_days p));
        ("storage_warning_threshold",
         JInt (NotificationPreference.storage_warning_threshold p));
        ("storage_critical_threshold",
         JInt (NotificationPreference.storage_critical_threshold p))].

(** [NotificationPreferenceViewSet.update] *)
Definition preferences_update_view (user : UUID) (data : PreferenceData)
  : M Response :=
  authenticated user (λ _,
    try_catch
      (instance ← Signals.preferences_of user;
       match preferences_is_valid data with
       | Ok validated =>
           let saved := preferences_save instance validated in
           db ← get_db;
           _ ← put_db (with_preferences (<[user := saved]> (preferences db)) db);
           mret (mkResponse HTTP_200_OK (preferences_data saved))
       | Raise (ValidationError f m) =>
           mret (mkResponse HTTP_400_BAD_REQUEST (JObj [(f, JList [JStr m])]))
       | Raise e => raise e
       end)
      (λ _, mret (failed "Failed to update preferences"))).

Definition preferences_update (user : UUID) (data : PreferenceData) (db : Db)
  : Response * Db :=
  dispatch (preferences_update_view user data) db.

(** ** notifications/tasks.py *)

(** [Notification.objects.filter(user=.., document=.., notification_type=..,
    created_at__date=today).exists()] *)
Definition alerted_today (env : Env) (db : Db) (user document : UUID) : bool :=
  objects_exists
    (λ n, N.eqb (Notification.user n) user
          && bool_decide (Notification.document n = Some document)
          && String.eqb (Notification.notification_type n) Notification.DOCUMENT_EXPIRY
          && (date_of (Notification.created_at n) =? date_of (now env)))
    (notifications db).

(** The first query of the loop: an unread [DOCUMENT_EXPIRED] notification of
    the document. *)
Definition expired_pending (db : Db) (user document : UUID) : bool :=
  objects_exists
    (λ n, N.eqb (Notification.user n) user
          && bool_decide (Notification.document n = Some document)
          && String.eqb (Notification.notification_type n) Notification.DOCUMENT_EXPIRED
          && negb (Notification.is_read n))
    (notifications db).

(** The chain of [if]/[elif] that sets [should_notify]. *)
Definition should_notify (env : Env) (db : Db) (prefs : NotificationPreference.t)
    (user document : UUID) (days_until_expiry : Z) : bool :=
  if days_until_expiry <? 0 then negb (expired_pending db user document)
  else if (days_until_expiry =? 0) && NotificationPreference.alert_on_expiry prefs
  then negb (alerted_today env db user document)
  else if (days_until_expiry =? 1) && NotificationPreference.alert_1_day prefs
  then negb (alerted_today env db user document)
  else if (days_until_expiry =? 7) && NotificationPreference.alert_7_days prefs
  then negb (alerted_today env db user document)
  else if (days_until_expiry =? 15) && NotificationPreference.alert_15_days prefs
  then negb (alerted_today env db user document)
  else if (days_until_expiry =? 30) && NotificationPreference.alert_30_days prefs
  then negb (alerted_today env db user document)
  else false.

(** The body of the [for] loop of [check_document_expiry] for one document;
    [created] is [notifications_created], which also numbers the keys drawn.
    The call of [create_expiry_alert] names [preferences], which the function
    does not take; the [except Exception] of the loop catches what it raises
    and goes to the next document. *)
Definition check_one_document (env : Env) (created : nat)
    (item : UUID * Document.t) : M nat :=
  let '(pk, document) := item in
  try_catch
    (prefs ← Signals.preferences_of (Document.user document);
     match decrypt_expiry_date (Document.encrypted_expiry_date document)
             (Document.user document) with
     | None => mret created
     | Some expiry_date =>
         let days_until_expiry := expiry_date - date_of (now env) in
         db ← get_db;
         if should_notify env db prefs (Document.user document) pk days_until_expiry
         then
           _ ← lift (call_with_keywords
                       NotificationCreator.create_expiry_alert_parameters []
                       ["document"; "user"; "preferences"; "days_until_expiry"]);
           _ ← NotificationCreator.create_expiry_alert env (uuid4 env created)
                 (Document.user document) pk days_until_expiry;
           mret (S created)
         else mret created
     end)
    (λ _, mret created).

(** A [for] loop whose body runs in [M]. *)
Fixpoint for_each {A} (body : nat → A → M nat) (acc : nat) (items : list A)
  : M nat :=
  match items with
  | [] => mret acc
  | item :: rest => acc' ← body acc item; for_each body acc' rest
  end.

(** [check_document_expiry]: the documents with [has_expiry=True]; the
    column [encrypted_expiry_date] is never [NULL]. *)
Definition check_document_expiry (env : Env) (db : Db) : Z * Db :=
  let documents_ :=
    map_to_list (filter (λ kv, Document.has_expiry kv.2 = true) (documents db)) in
  match for_each (check_one_document env) 0%nat documents_ db with
  | (Ok created, db') => (Z.of_nat created, db')
  | (Raise _, db') => (0, db')
  end.

(** The preference that gates the e-mail (or the push) of a notification. *)
Definition channel_enabled (enabled expiry storage security : bool)
    (n : Notification.t) : bool :=
  if enabled then
    let t := Notification.notification_type n in
    if String.eqb t Notification.DOCUMENT_EXPIRY || String.eqb t Notification.DOCUMENT_EXPIRED
    then expiry
    else if String.eqb t Notification.STORAGE_WARNING
            || String.eqb t Notification.STORAGE_CRITICAL
    then storage
    else if String.eqb t Notification.SECURITY_ALERT
            || String.eqb t Notification.NEW_DEVICE_LOGIN
    then security
    else enabled
  else false.

(** The body of the loop of [send_email_notifications]. *)
Definition email_one (env : Env) (sent : nat) (item : UUID * Notification.t)
  : M nat :=
  let '(pk, notification) := item in
  try_catch
    (prefs ← Signals.preferences_of (Notification.user notification);
     if channel_enabled (NotificationPreference.email_enabled prefs)
          (NotificationPreference.email_expiry_alerts prefs)
          (NotificationPreference.email_storage_alerts prefs)
          (NotificationPreference.email_security_alerts prefs) notification
     then
       _ ← mark_email_sent_instance env pk notification;
       mret (S sent)
     else mret sent)
    (λ _, mret sent).

(** [send_email_notifications] *)
Definition send_email_notifications (env : Env) (db : Db) : Z * Db :=
  let pending :=
    map_to_list (filter (λ kv, Notification.email_sent kv.2 = false
                               ∧ Notification.is_read kv.2 = false)
                   (notifications db)) in
  match for_each (email_one env) 0%nat pending db with
  | (Ok sent, db') => (Z.of_nat sent, db')
  | (Raise _, db') => (0, db')
  end.

(** The body of the loop of [send_push_notifications]. *)
Definition push_one (env : Env) (sent : nat) (item : UUID * Notification.t)
  : M nat :=
  let '(pk, notification) := item in
  try_catch
    (prefs ← Signals.preferences_of (Notification.user notification);
     if channel_enabled (NotificationPreference.push_enabled prefs)
          (NotificationPreference.push_expiry_alerts prefs)
          (NotificationPreference.push_storage_alerts prefs)
          (NotificationPreference.push_security_alerts prefs) notification
     then
       _ ← mark_push_sent_instance env pk notification;
       mret (S sent)
     else mret sent)
    (λ _, mret sent).

(** [send_push_notifications]: the notifications of the last 24 hours. *)
Definition send_push_notifications (env : Env) (db : Db) : Z * Db :=
  let pending :=
    map_to_list (filter (λ kv, Notification.push_sent kv.2 = false
                               ∧ Notification.is_read kv.2 = false
                               ∧ now env - 86400 ≤ Notification.created_at kv.2)
                   (notifications db)) in
  match for_each (push_one env) 0%nat pending db with
  | (Ok sent, db') => (Z.of_nat sent, db')
  | (Raise _, db') => (0, db')
  end.

End WithLib.
End Notifications.

(** ** Sample data *)

(** A stand-in for the library calls, to run the handlers on examples. *)
Definition sample_lib : Lib := {|
  sha256_hexdigest := λ s, "sha256:" ++ s;
  int_base16 := λ _, true;
  email_format := λ _, true;
  phone_regex := λ _, true;
  lower := λ s, s;
  strip := λ s, s;
  drop_separators := λ s, s;
  search_filter := λ _ _, true;
  RefreshToken_for_user := λ pk, ("access-" ++ pretty pk, "refresh-" ++ pretty pk);
  decrypt_expiry_date := λ s _,
    if String.eqb s "enc(2024-10-12)" then Some 20008 else None
|}.

(** Noon of day 20001, and keys 100, 101, ... for the rows to come. *)
Definition sample_env : Env :=
  mkEnv (20001 * 86400 + 43200) (λ i, N.of_nat (100 + i)) "tok-1" true.

Definition digest_a : string :=
  "aaaaaaaaaaaaaaaaaaaaaaaaaaaaaaaaaaaaaaaaaaaaaaaaaaaaaaaaaaaaaaaa".

Definition digest_b : string :=
  "bbbbbbbbbbbbbbbbbbbbbbbbbbbbbbbbbbbbbbbbbbbbbbbbbbbbbbbbbbbbbbbb".

Definition alice : User.t :=
  User.mk "0123456789abcdef0123456789abcd" "alice@example.com" "+911234567890"
    digest_a "" None "local" true None "FREE" 5000 None.

Definition bob : User.t :=
  User.mk "fedcba9876543210fedcba98765432" "bob@example.com" "+911234567891"
    digest_b "" None "local" false None "FREE" 0 None.

Definition empty_db : Db := mkDb ∅ ∅ ∅ ∅ ∅ ∅ ∅ ∅.

Definition sample_users : gmap UUID User.t := {[ 1%N := alice; 2%N := bob ]}.


Definition sample_db : Db := with_users sample_users empty_db.

(** ** Predicates of the statements *)

(** No two [Device] rows share a [device_id], whoever owns them. *)
Definition device_ids_unique (db : Db) : Prop :=
  ∀ pk1 pk2 d1 d2,
    devices db !! pk1 = Some d1 → devices db !! pk2 = Some d2 →
    Device.device_id d1 = Device.device_id d2 → pk1 = pk2.

(** [db'] differs from [db] in the notification tables at most. *)
Definition notification_frame (db db' : Db) : Prop :=
  users db' = users db ∧ devices db' = devices db
  ∧ categories db' = categories db ∧ folders db' = folders db
  ∧ documents db' = documents db ∧ versions db' = versions db.

(** The operations that write [Device] rows: the registration view, the two
    ORM calls of the Google login serializer, and the removal view. *)
Inductive DeviceOp :=
| OpRegister (env : Env) (request : Users.RegisterRequest)
| OpGetOrCreate (env : Env) (i : nat) (row : Device.t)
| OpCreate (env : Env) (i : nat) (row : Device.t)
| OpRemove (user pk : UUID).

Definition run_device_op `{Lib} (db : Db) (op : DeviceOp) : Db :=
  match op with
  | OpRegister env request => (Users.register env request db).2
  | OpGetOrCreate env i row => (Users.Device_objects_get_or_create env i row db).2
  | OpCreate env i row => (Users.Device_objects_create env i row db).2
  | OpRemove user pk => (Users.remove_device user pk db).2
  end.

(** The device row that [register] writes for validated data. *)
Definition first_device (env : Env) (validated_data : Users.RegisterData)
  : Device.t :=
  Device.mk (uuid4 env 0) (Users.val_device_id validated_data)
    (Users.val_device_name validated_data) "web" true.

(** The first device of [alice], and a registration that names the same
    [device_id] for another account. *)
Definition alice_laptop : Device.t := Device.mk 1 "device-0001" "Chrome on Mac" "web" true.

Definition db_with_device : Db := with_devices {[ 11%N := alice_laptop ]} sample_db.

Definition carol_registration : Users.RegisterRequest :=
  Users.mkRegisterRequest (Some "00112233445566778899aabbccddee")
    (Some "carol@example.com") (Some "+911234567899") (Some digest_b)
    (Some digest_a) (Some "device-0001") (Some "Firefox on Linux").

(** The quota of a user: [storage_limits.get(tier, storage_limits['FREE'])]. *)
Definition user_limit (user : User.t) : Z :=
  Vault.dict_get (User.subscription_tier user) Vault.storage_limits
    (Vault.dict_get "FREE" Vault.storage_limits 0).

(** [encrypted_file.size] of a request, 0 when it carries no file. *)
Definition uploaded_size (data : Vault.UploadRequest) : Z :=
  from_option UploadedFile.size 0 (Vault.encrypted_file data).

(** An upload of 1000 bytes without expiry tracking. *)
Definition sample_file : UploadedFile.t :=
  UploadedFile.mk "passport.pdf.enc" 1000 "application/octet-stream" "ciphertext" true.

Definition sample_upload : Vault.UploadRequest :=
  Vault.mkUploadRequest Absent Absent (Some "dGl0bGU=") None None
    (Some sample_file) (Some false) None None None.

(** The row a soft delete at [now env] leaves for [document]. *)
Definition soft_deleted (env : Env) (document : Document.t) : Document.t :=
  Document.mk (Document.user document) (Document.category document)
    (Document.folder document) (Document.encrypted_title document)
    (Document.encrypted_description document)
    (Document.encrypted_doc_type document) (Document.encrypted_file document)
    (Document.file_size document) (Document.file_extension document)
    (Document.mime_type document) (Document.file_hash document)
    (Document.has_expiry document) (Document.encrypted_issue_date document)
    (Document.encrypted_expiry_date document)
    (Document.notification_trigger_timestamp document)
    true (Some (now env)) (Document.created_at document) (now env).

Definition document_deleted : Response :=
  mkResponse HTTP_200_OK
    (JObj [("success", JBool true); ("message", JStr "Document deleted")]).

Definition document_not_found : Response :=
  mkResponse HTTP_404_NOT_FOUND (JObj [("error", JStr "Document not found")]).

(** A document of [alice] of 1200 bytes, and the same document soft-deleted. *)
Definition passport : Document.t :=
  Document.mk 1 None None "dGl0bGU=" "" "" (mkFilePath 1 7 "enc") 1200 "enc"
    "application/octet-stream" "hash" false "" "" None false None 1000 1000.

Definition passport_deleted : Document.t :=
  Document.mk 1 None None "dGl0bGU=" "" "" (mkFilePath 1 7 "enc") 1200 "enc"
    "application/octet-stream" "hash" false "" "" None true (Some 2000) 1000 2000.

Definition db_with_document : Db := with_documents {[ 21%N := passport ]} sample_db.

Definition db_with_deleted : Db :=
  with_documents {[ 21%N := passport_deleted ]} sample_db.

Definition no_query : Vault.DocumentQuery := Vault.mkDocumentQuery None Absent None.

(** [g] is below [root] in the folder tree: a subfolder, or a subfolder of
    a folder below [root]. *)
Inductive descendant (table : gmap UUID Folder.t) (root : UUID) : UUID → Prop :=
| descendant_child g row :
    table !! g = Some row → Folder.parent row = Some root →
    descendant table root g
| descendant_step h g row :
    descendant table root h →
    table !! g = Some row → Folder.parent row = Some h →
    descendant table root g.

(** The set [Folder.delete] removes. *)
Definition collected (db : Db) (pk : UUID) : gset UUID :=
  Vault.collect (size (folders db)) (folders db) {[pk]} {[pk]}.

(** [s] holds every subfolder of its members. *)
Definition closed (table : gmap UUID Folder.t) (s : gset UUID) : Prop :=
  ∀ g row p, table !! g = Some row → Folder.parent row = Some p → p ∈ s → g ∈ s.

(** Three nested folders of [alice], a folder of hers beside them, and two
    documents: one in the outer folder and one in the innermost. *)
Definition sample_folders : gmap UUID Folder.t :=
  {[ 31%N := Folder.mk 1 9 "QQ==" None "#3b82f6" "F";
     32%N := Folder.mk 1 9 "Qg==" (Some 31%N) "#3b82f6" "F";
     33%N := Folder.mk 1 9 "Qw==" (Some 32%N) "#3b82f6" "F";
     34%N := Folder.mk 1 9 "RA==" None "#3b82f6" "F" ]}.

Definition sample_documents : gmap UUID Document.t :=
  {[ 21%N := Document.set_folder (Some 31%N) passport;
     22%N := Document.set_folder (Some 33%N) passport ]}.

Definition db_with_folders : Db :=
  with_documents sample_documents (with_folders sample_folders sample_db).

Definition no_folder_query : Vault.FolderQuery := Vault.mkFolderQuery None Absent.

(** Four unread notifications of [alice]. *)
Definition unread_notification : Notification.t :=
  Notification.mk 1 Notification.SYSTEM Notification.MEDIUM "dGl0bGU=" "Ym9keQ=="
    None None false None false None false None None None 1000.

Definition sample_notifications : gmap UUID Notification.t :=
  {[ 41%N := unread_notification; 42%N := unread_notification;
     43%N := unread_notification; 44%N := unread_notification ]}.

Definition db_with_notifications : Db :=
  with_notifications sample_notifications sample_db.

(** The operations on notifications that exist: the five handlers of
    [NotificationViewSet] that write, and the two sending jobs. *)
Inductive NotificationOp :=
| OpPatch (env : Env) (user : UUID) (query : Notifications.NotificationQuery)
    (pk : UUID) (is_read : option bool)
| OpDelete (env : Env) (user : UUID) (query : Notifications.NotificationQuery)
    (pk : UUID)
| OpMarkRead (env : Env) (user : UUID) (notification_ids : option (list UUID))
| OpMarkAllRead (env : Env) (user : UUID)
| OpDeleteAllRead (user : UUID)
| OpSendEmail (env : Env)
| OpSendPush (env : Env).

Definition run_notification_op (db : Db) (op : NotificationOp) : Db :=
  match op with
  | OpPatch env user query pk is_read =>
      (Notifications.partial_update env user query pk is_read db).2
  | OpDelete env user query pk => (Notifications.destroy env user query pk db).2
  | OpMarkRead env user ids => (Notifications.mark_read env user ids db).2
  | OpMarkAllRead env user => (Notifications.mark_all_read env user db).2
  | OpDeleteAllRead user => (Notifications.delete_all_read user db).2
  | OpSendEmail env => (Notifications.send_email_notifications env db).2
  | OpSendPush env => (Notifications.send_push_notifications env db).2
  end.

(** The notification a [PATCH] with [is_read] false is sent for. *)
Definition marks_unread (op : NotificationOp) : option UUID :=
  match op with
  | OpPatch _ _ _ pk (Some false) => Some pk
  | _ => None
  end.

(** The read state as a one-way transition, over every sequence of
    operations. *)
Definition read_is_one_way : Prop :=
  ∀ ops db pk n n',
    notifications db !! pk = Some n →
    notifications (foldl run_notification_op db ops) !! pk = Some n' →
    Notification.is_read n = true → Notification.is_read n' = true.

(** [email_sent] and [push_sent] of [n'] are set where those of [n] are. *)
Definition sent_le (n n' : Notification.t) : Prop :=
  (Notification.email_sent n = true → Notification.email_sent n' = true)
  ∧ (Notification.push_sent n = true → Notification.push_sent n' = true).

(** A notification of [alice] that she has read. *)
Definition read_notification : Notification.t :=
  Notification.set_read true (Some 1500) unread_notification.

Definition db_with_read : Db :=
  with_notifications {[ 41%N := read_notification ]} sample_db.

Definition any_notification : Notifications.NotificationQuery :=
  Notifications.mkNotificationQuery false None None.

(** One step on the notification table: a row of [T'] is a row of [T] that
    has lost no sent flag, and has not gone back to unread unless it is the
    row [unread] names. *)
Definition table_step (unread : option UUID) (T T' : gmap UUID Notification.t)
  : Prop :=
  ∀ pk n', T' !! pk = Some n' →
    ∃ n, T !! pk = Some n ∧ sent_le n n'
         ∧ (unread ≠ Some pk →
            Notification.is_read n = true → Notification.is_read n' = true).

(** [critical > warning], the order of the two thresholds. *)
Definition thresholds_ordered (p : NotificationPreference.t) : Prop :=
  NotificationPreference.storage_warning_threshold p
  < NotificationPreference.storage_critical_threshold p.

Definition no_preference_data : Notifications.PreferenceData :=
  Notifications.mkPreferenceData None None None None None None None None None
    None None None None None None None.

(** A request that sets both thresholds, and one that sets the warning
    threshold only. *)
Definition set_both_thresholds (warning critical : Z)
  : Notifications.PreferenceData :=
  Notifications.mkPreferenceData None None None None None None None None None
    None None None None None (Some warning) (Some critical).

Definition set_warning_threshold (warning : Z) : Notifications.PreferenceData :=
  Notifications.mkPreferenceData None None None None None None None None None
    None None None None None (Some warning) None.

(** A document of [alice] that expires on day 20008, seven days after the
    day of [sample_env]; she has no preferences row and no notification. *)
Definition expiring_passport : Document.t :=
  Document.mk 1 None None "dGl0bGU=" "" "" (mkFilePath 1 7 "enc") 1200 "enc"
    "application/octet-stream" "hash" true "" "enc(2024-10-12)" None false None
    1000 1000.

Definition db_expiring : Db := with_documents {[ 21%N := expiring_passport ]} sample_db.

(** * Further handlers *)

(** [Model.objects.filter(...).first()]: the matching row of least primary
    key, the order of a queryset without [ordering]. *)
Definition objects_first {A} (P : A → bool) (table : gmap UUID A)
  : option (UUID * A) :=
  map_fold (λ pk row acc,
              if P row then
                match acc with
                | Some (pk', _) => if (pk <? pk')%N then Some (pk, row) else acc
                | None => Some (pk, row)
                end
              else acc) None table.

(** ** users: verification and quota *)

Module Accounts.
Section WithLib.
Context `{Lib}.

(** [limits] of [User.has_storage_space] *)
Definition limits : list (string * Z) :=
  [("FREE", 1073741824); ("PREMIUM", 26843545600);
   ("FAMILY", 107374182400); ("LIFETIME", 10737418240)].

(** [User.has_storage_space] *)
Definition has_storage_space (u : User.t) (file_size : Z) : bool :=
  let limit :=
    Vault.dict_get (User.subscription_tier u) limits
      (Vault.dict_get "FREE" limits 0) in
  User.storage_used u + file_size <=? limit.

(** The two columns [VerifyEmailSerializer.save] writes. *)
Definition set_verified (u : User.t) : User.t :=
  User.mk (User.username u) (User.email u) (User.mobile_number u)
    (User.password u) (User.recovery_key_hash u) (User.google_id u)
    (User.auth_provider u) true None (User.subscription_tier u)
    (User.storage_used u) (User.last_login_at u).

(** [VerifyEmailSerializer.validate_token] *)
Definition validate_token (db : Db) (value : string) : result (UUID * User.t) :=
  match objects_first
          (λ u, bool_decide (User.email_verification_token u = Some value))
          (users db) with
  | None => Raise (ValidationError "token" "Invalid or expired verification token")
  | Some (pk, user) =>
      if User.email_verified user then
        Raise (ValidationError "token" "Email already verified")
      else Ok (pk, user)
  end.

(** [users/views.py], [verify_email]; [token] is the token of the URL for a
    [GET] and [request.data.get('token')] for a [POST]. *)
Definition verify_email_view (token : option string) : M Response :=
  if Users.falsy token then
    mret (mkResponse HTTP_400_BAD_REQUEST
            (JObj [("error", JStr "Verification token is required")]))
  else
    try_catch
      (db ← get_db;
       match (value ← Users.CharField "token" None token; validate_token db value) with
       | Ok (pk, user) =>
           _ ← put_db (with_users (alter set_verified pk (users db)) db);
           mret (mkResponse HTTP_200_OK
                   (JObj [("success", JBool true);
                          ("message", JStr "Email verified successfully! You can now login.")]))
       | Raise (ValidationError _ message) =>
           mret (mkResponse HTTP_400_BAD_REQUEST (JObj [("error", JStr message)]))
       | Raise e => raise e
       end)
      (λ _, mret (mkResponse HTTP_500_INTERNAL_SERVER_ERROR
                    (JObj [("error", JStr "Email verification failed")]))).

Definition verify_email (token : option string) (db : Db) : Response * Db :=
  dispatch (verify_email_view token) db.

(** [ResendVerificationSerializer.validate_email], after the format check of
    the [EmailField]. *)
Definition resend_validate_email (db : Db) (value : string)
  : result (UUID * User.t) :=
  if negb (email_format value) then
    Raise (ValidationError "email" "Enter a valid email address.")
  else
    match objects_first (λ u, String.eqb (User.email u) value) (users db) with
    | None => Raise (ValidationError "email" "User not found")
    | Some (pk, user) =>
        if User.email_verified user then
          Raise (ValidationError "email" "Email already verified")
        else Ok (pk, user)
    end.

(** [users/views.py], [resend_verification]: the serializer,
    [generate_email_verification_token], and the mail, which writes no
    table and catches what [send_mail] raises; the settings are taken to
    name [FRONTEND_URL]. *)
Definition resend_verification_view (env : Env) (email : option string)
  : M Response :=
  try_catch
    (db ← get_db;
     match (value ← Users.CharField "email" None email;
            resend_validate_email db value) with
     | Ok (pk, user) =>
         _ ← put_db (with_users
                       (alter (User.set_email_verification_token
                                 (Some (token_urlsafe env))) pk (users db)) db);
         mret (mkResponse HTTP_200_OK
                 (JObj [("success", JBool true);
                        ("message", JStr "Verification email sent! Please check your inbox.")]))
     | Raise (ValidationError f message) =>
         mret (mkResponse HTTP_400_BAD_REQUEST
                 (JObj [("error", JObj [(f, JList [JStr message])])]))
     | Raise e => raise e
     end)
    (λ _, mret (mkResponse HTTP_500_INTERNAL_SERVER_ERROR
                  (JObj [("error", JStr "Failed to resend verification email")]))).

Definition resend_verification (env : Env) (email : option string) (db : Db)
  : Response * Db :=
  dispatch (resend_verification_view env email) db.

(** The user row [UserRegistrationSerializer.create] leaves for validated
    data. *)
Definition registered_user (env : Env) (validated_data : Users.RegisterData)
  : User.t :=
  User.set_email_verification_token (Some (token_urlsafe env))
    (Users.set_password (Users.val_password validated_data)
       (User.mk (Users.val_username validated_data)
          (Users.val_email validated_data)
          (Users.val_mobile_number validated_data) ""
          (Users.val_recovery_key_hash validated_data) None "local" false None
          "FREE" 0 None)).

End WithLib.
End Accounts.

(** ** vault: folders and moves *)

Module Folders.
Section WithLib.
Context `{Lib}.

(** The writable fields of [FolderSerializer] as [request.data] has them. *)
Record FolderData := mkFolderData {
  category : field UUID;
  encrypted_name : option string;
  parent : field UUID;
  color : option string;
  icon : option string
}.

(** The [category] field: a key of [DocumentCategory], never null, required
    unless the update is partial. *)
Definition category_field (db : Db) (partial : bool) (v : field UUID)
  : result (field UUID) :=
  match v with
  | Absent =>
      if partial then Ok Absent
      else Raise (ValidationError "category" "This field is required.")
  | Null => Raise (ValidationError "category" "This field may not be null.")
  | Given pk =>
      match categories db !! pk with
      | Some _ => Ok v
      | None => Raise (ValidationError "category" "Invalid pk - object does not exist.")
      end
  end.

(** [FolderSerializer.validate_encrypted_name] *)
Definition validate_encrypted_name (value : string) : result string :=
  if String.eqb value "" || String.eqb (strip value) "" then
    Raise (ValidationError "encrypted_name" "Folder name cannot be empty")
  else Ok value.

(** The [encrypted_name] field: the [CharField] of a [TextField] without
    [blank], then the validator of the serializer. *)
Definition encrypted_name_field (partial : bool) (v : option string)
  : result (option string) :=
  match v with
  | None =>
      if partial then Ok None
      else Raise (ValidationError "encrypted_name" "This field is required.")
  | Some _ =>
      value ← Users.CharField "encrypted_name" None v;
      value ← validate_encrypted_name value;
      Ok (Some value)
  end.

(** An optional [CharField] with [max_length]; the value is stripped. *)
Definition short_field (name : string) (max_length : nat) (v : option string)
  : result (option string) :=
  match v with
  | None => Ok None
  | Some _ => value ← Users.CharField name (Some max_length) v; Ok (Some value)
  end.

(** [FolderSerializer.validate]; [instance] is the key of the folder that is
    updated, [None] for a creation. *)
Definition validate (db : Db) (user : UUID) (instance : option UUID)
    (data : FolderData) : result FolderData :=
  match truthy (parent data) with
  | Some parent_pk =>
      match folders db !! parent_pk with
      | Some parent_row =>
          if negb (N.eqb (Folder.user parent_row) user) then
            Raise (ValidationError "parent" "Parent folder must belong to you")
          else if present (category data)
                  && negb (bool_decide (Some (Folder.category parent_row)
                                        = truthy (category data))) then
            Raise (ValidationError "parent" "Parent folder must be in same category")
          else if bool_decide (instance = Some parent_pk) then
            Raise (ValidationError "parent" "Folder cannot be its own parent")
          else Ok data
      | None => Ok data
      end
  | None => Ok data
  end.

(** [serializer.is_valid()]: the fields in the order of [Meta.fields], then
    [validate]; the first error stands for the report. *)
Definition is_valid (db : Db) (user : UUID) (instance : option UUID)
    (partial : bool) (data : FolderData) : result FolderData :=
  category_ ← category_field db partial (category data);
  encrypted_name_ ← encrypted_name_field partial (encrypted_name data);
  parent_ ← Vault.related_field "parent" (folders db) (parent data);
  color_ ← short_field "color" 7 (color data);
  icon_ ← short_field "icon" 10 (icon data);
  validate db user instance
    (mkFolderData category_ encrypted_name_ parent_ color_ icon_).

(** The keys of [folder.subfolders.all()]. *)
Definition subfolders (db : Db) (pk : UUID) : list UUID :=
  (map_to_list
     (filter (λ kv, Folder.parent kv.2 = Some pk) (folders db))).*1.

(** [Folder.document_count]: the documents of the folder that are not
    deleted, and the count of every subfolder.  The recursion of the
    property has no base but a folder without subfolders; [fuel] is the depth
    the interpreter allows, and [None] its [RecursionError]. *)
Fixpoint document_count (fuel : nat) (db : Db) (pk : UUID) : option Z :=
  match fuel with
  | O => None
  | S fuel' =>
      let count :=
        objects_count
          (λ d, bool_decide (Document.folder d = Some pk)
                && negb (Document.is_deleted d)) (documents db) in
      foldl (λ acc subfolder,
               count ← acc;
               below ← document_count fuel' db subfolder;
               Some (count + below))
        (Some count) (subfolders db pk)
  end.

(** What [serializer.data] shows of a folder; [document_count] is the value
    of the property. *)
Definition folder_data (pk : UUID) (f : Folder.t) (document_count : Z) : json :=
  JObj [("id", JStr (pretty pk));
        ("user", JStr (pretty (Folder.user f)));
        ("category", JStr (pretty (Folder.category f)));
        ("encrypted_name", JStr (Folder.encrypted_name f));
        ("parent", from_option (λ p, JStr (pretty p)) JNull (Folder.parent f));
        ("color", JStr (Folder.color f));
        ("icon", JStr (Folder.icon f));
        ("document_count", JInt document_count)].

Definition server_error : Response :=
  mkResponse HTTP_500_INTERNAL_SERVER_ERROR (JStr "Server Error (500)").

(** [Response(serializer.data, status=code)] for the row [f] of key [pk]:
    the representation reads the property [document_count] from the tables
    as they are after the write.  [depth] is the depth of recursion the
    interpreter allows; the [RecursionError] of the property leaves the
    view, and the answer is the 500 of the framework. *)
Definition representation (depth : nat) (code : Z) (pk : UUID) (f : Folder.t)
  : M Response :=
  db ← get_db;
  match document_count depth db pk with
  | Some count => mret (mkResponse code (folder_data pk f count))
  | None => mret server_error
  end.

(** [FolderViewSet.create] with [perform_create]: the row gets the user of
    the request, the defaults of the model for [color] and [icon], and the
    key [uuid4 env 0]. *)
Definition create_view (env : Env) (depth : nat) (user : UUID)
    (data : FolderData) : M Response :=
  authenticated user (λ _,
    db ← get_db;
    match is_valid db user None false data with
    | Ok validated =>
        match truthy (category validated), encrypted_name validated with
        | Some category_pk, Some name =>
            let row :=
              Folder.mk user category_pk name (truthy (parent validated))
                (default "#3b82f6" (color validated))
                (default "📁" (icon validated)) in
            table ← lift (insert_row (uuid4 env 0) row (folders db));
            _ ← put_db (with_folders table db);
            representation depth HTTP_201_CREATED (uuid4 env 0) row
        | _, _ => raise (IntegrityError "folders.category_id")
        end
    | Raise (ValidationError f m) =>
        mret (mkResponse HTTP_400_BAD_REQUEST (JObj [(f, JList [JStr m])]))
    | Raise e => raise e
    end).

Definition create (env : Env) (depth : nat) (user : UUID) (data : FolderData)
    (db : Db) : Response * Db :=
  dispatch (create_view env depth user data) db.

(** [serializer.save()] of an update: the given keys are written. *)
Definition updated (instance : Folder.t) (data : FolderData) : Folder.t :=
  Folder.mk (Folder.user instance)
    (default (Folder.category instance) (truthy (category data)))
    (default (Folder.encrypted_name instance) (encrypted_name data))
    (match parent data with
     | Absent => Folder.parent instance
     | Null => None
     | Given p => Some p
     end)
    (default (Folder.color instance) (color data))
    (default (Folder.icon instance) (icon data)).

(** [FolderViewSet.update] and [partial_update] with [perform_update]. *)
Definition update_view (depth : nat) (user : UUID) (query : Vault.FolderQuery)
    (pk : UUID) (partial : bool) (data : FolderData) : M Response :=
  authenticated user (λ _,
    db ← get_db;
    match folders db !! pk with
    | Some instance =>
        if Vault.folder_queryset user query instance then
          match is_valid db user (Some pk) partial data with
          | Ok validated =>
              let row := updated instance validated in
              _ ← put_db (with_folders (<[pk := row]> (folders db)) db);
              representation depth HTTP_200_OK pk row
          | Raise (ValidationError f m) =>
              mret (mkResponse HTTP_400_BAD_REQUEST (JObj [(f, JList [JStr m])]))
          | Raise e => raise e
          end
        else raise Http404
    | None => raise Http404
    end).

Definition update (depth : nat) (user : UUID) (query : Vault.FolderQuery)
    (pk : UUID) (partial : bool) (data : FolderData) (db : Db)
  : Response * Db :=
  dispatch (update_view depth user query pk partial data) db.


End WithLib.
End Folders.

(** [DocumentViewSet.move].  [document_ids] is the list of the body, [None]
    when the key is missing; [folder_id] is [None] when it is missing, null
    or empty. *)
Module Move.

Definition selected (user : UUID) (document_ids : list UUID) (pk : UUID)
    (d : Document.t) : bool :=
  bool_decide (pk ∈ document_ids)
  && N.eqb (Document.user d) user
  && negb (Document.is_deleted d).

Definition move_view (user : UUID) (document_ids : option (list UUID))
    (folder_id : option UUID) : M Response :=
  authenticated user (λ _,
    db ← get_db;
    match document_ids with
    | None | Some [] =>
        mret (mkResponse HTTP_400_BAD_REQUEST
                (JObj [("error", JStr "document_ids required")]))
    | Some ids =>
        if bool_decide
             (filter (λ kv, selected user ids kv.1 kv.2 = true) (documents db) = ∅)
        then
          mret (mkResponse HTTP_404_NOT_FOUND
                  (JObj [("error", JStr "No documents found")]))
        else
          let target :=
            match folder_id with
            | Some f =>
                match folders db !! f with
                | Some row => if N.eqb (Folder.user row) user then Ok (Some f)
                              else Raise DoesNotExist
                | None => Raise DoesNotExist
                end
            | None => Ok None
            end in
          match target with
          | Ok folder =>
              let moved :=
                objects_update_pk (selected user ids) (Document.set_folder folder)
                  (documents db) in
              _ ← put_db (with_documents moved db);
              mret (mkResponse HTTP_200_OK
                      (JObj [("status", JStr "success");
                             ("moved_count",
                              JInt (objects_count_pk (selected user ids) moved));
                             ("folder_id",
                              from_option (λ f, JStr (pretty f)) JNull folder)]))
          | Raise _ =>
              mret (mkResponse HTTP_404_NOT_FOUND
                      (JObj [("error", JStr "Folder not found")]))
          end
    end).

Definition move (user : UUID) (document_ids : option (list UUID))
    (folder_id : option UUID) (db : Db) : Response * Db :=
  dispatch (move_view user document_ids folder_id) db.

End Move.

(** ** Predicates of the further statements *)

(** [d] is not deleted and lies in one of the folders [X]. *)
Definition in_folders (X : gset UUID) (d : Document.t) : bool :=
  negb (Document.is_deleted d)
  && match Document.folder d with
     | Some g => bool_decide (g ∈ X)
     | None => false
     end.

(** The number of documents in the folders [X] that are not deleted. *)
Definition live_documents (db : Db) (X : gset UUID) : Z :=
  objects_count (in_folders X) (documents db).

(** ** notifications: counting and clean-up *)

Module Inbox.

(** [Notification.is_expired] *)
Definition is_expired (env : Env) (n : Notification.t) : bool :=
  match Notification.expires_at n with
  | Some expires_at => now env >? expires_at
  | None => false
  end.

(** [Notification.get_unread_count] *)
Definition get_unread_count (db : Db) (user : UUID) : Z :=
  objects_count
    (λ n, N.eqb (Notification.user n) user && negb (Notification.is_read n))
    (notifications db).

(** The filter of [Notification.delete_expired]: [expires_at__lt=now], which
    no row without [expires_at] matches. *)
Definition expires_at__lt (env : Env) (n : Notification.t) : bool :=
  match Notification.expires_at n with
  | Some expires_at => expires_at <? now env
  | None => false
  end.

(** [Notification.delete_expired] *)
Definition delete_expired (env : Env) : M Z :=
  db ← get_db;
  let count := objects_count (expires_at__lt env) (notifications db) in
  _ ← put_db (with_notifications
                (objects_delete (expires_at__lt env) (notifications db)) db);
  mret count.

(** [NotificationViewSet.unread_count] *)
Definition unread_count_view (env : Env) (user : UUID) : M Response :=
  authenticated user (λ _,
    try_catch
      (db ← get_db;
       let count :=
         objects_count
           (λ n, N.eqb (Notification.user n) user
                 && negb (Notification.is_read n)
                 && match Notification.expires_at n with
                    | None => true
                    | Some expires_at => now env <? expires_at
                    end)
           (notifications db) in
       mret (mkResponse HTTP_200_OK (JObj [("count", JInt count)])))
      (λ _, mret (Notifications.failed "Failed to get unread count"))).

Definition unread_count (env : Env) (user : UUID) (db : Db) : Response * Db :=
  dispatch (unread_count_view env user) db.

End Inbox.

(** ** Further sample data *)

(** [bob] owns folder 35; category 9 exists. *)
Definition folders_of_two : gmap UUID Folder.t :=
  <[35%N := Folder.mk 2 9 "Qg==" None "#3b82f6" "F"]> sample_folders.

Definition db_with_category : Db :=
  mkDb sample_users ∅ {[ 9%N := DocumentCategory.mk "Identity" "I" 1 ]}
    folders_of_two sample_documents ∅ ∅ ∅.

Definition only_parent (p : field UUID) : Folders.FolderData :=
  Folders.mkFolderData Absent None p None None.

Definition new_folder (p : field UUID) : Folders.FolderData :=
  Folders.mkFolderData (Given 9%N) (Some "Tg==") p None None.

(** [s] has no ['.']. *)
Definition no_dot (s : string) : Prop :=
  existsb (Ascii.eqb "."%char) (list_ascii_of_string s) = false.

(** A user who has not followed the link of the verification mail. *)
Definition dave : User.t :=
  User.mk "00112233445566778899aabbccddee" "dave@example.com" "+911234567892"
    digest_a "" None "local" false (Some "tok-9") "FREE" 0 None.

Definition db_with_dave : Db := with_users (<[3%N := dave]> sample_users) empty_db.

(** An upload of 2 GB. *)
Definition large_file : UploadedFile.t :=
  UploadedFile.mk "scan.pdf.enc" 2147483648 "application/octet-stream"
    "ciphertext" true.

Definition large_upload : Vault.UploadRequest :=
  Vault.mkUploadRequest Absent Absent (Some "dGl0bGU=") None None
    (Some large_file) (Some false) None None None.

(** The registration of [carol] again, from a device of her own. *)
Definition carol_retry : Users.RegisterRequest :=
  Users.mkRegisterRequest (Some "00112233445566778899aabbccddee")
    (Some "carol@example.com") (Some "+911234567899") (Some digest_b)
    (Some digest_a) (Some "device-0002") (Some "Firefox on Linux").

Definition carol_data : Users.RegisterData :=
  Users.mkRegisterData "00112233445566778899aabbccddee" "carol@example.com"
    "+911234567899" digest_b digest_a "device-0001" "Firefox on Linux".
(** * Properties *)

(** ** Queries on a table *)

Section Tables.
Context {A : Type}.
Implicit Types (P : A → bool) (table : gmap UUID A).

Lemma objects_get_missing P table :
  (∀ pk a, table !! pk = Some a → P a = false) →
  objects_get P table = Raise DoesNotExist.
Proof.
  intros Hno. unfold objects_get.
  assert (filter (λ kv : UUID * A, P kv.2 = true) table = ∅) as ->.
  { apply map_empty_filter. intros pk a Hpk Hp. simpl in Hp.
    rewrite (Hno _ _ Hpk) in Hp. discriminate. }
  by rewrite map_to_list_empty.
Qed.

Lemma objects_get_unique P table pk a :
  table !! pk = Some a → P a = true →
  (∀ pk' a', table !! pk' = Some a' → P a' = true → pk' = pk) →
  objects_get P table = Ok (pk, a).
Proof.
  intros Hpk Hp Huniq. unfold objects_get.
  assert (filter (λ kv : UUID * A, P kv.2 = true) table = {[pk := a]}) as ->.
  { apply map_eq. intros i. destruct (decide (i = pk)) as [->|Hne].
    - rewrite lookup_singleton_eq. by apply map_lookup_filter_Some.
    - rewrite lookup_singleton_ne by done.
      apply map_lookup_filter_None. right. intros a' Hi Hp'. simpl in Hp'.
      apply Hne. eauto. }
  by rewrite map_to_list_singleton.
Qed.

Lemma objects_exists_true P table pk a :
  table !! pk = Some a → P a = true → objects_exists P table = true.
Proof.
  intros Hpk Hp. unfold objects_exists. apply bool_decide_eq_true.
  intros Hempty.
  assert (filter (λ kv : UUID * A, P kv.2 = true) table !! pk = Some a) as Hin
    by by apply map_lookup_filter_Some.
  rewrite Hempty in Hin. by rewrite lookup_empty in Hin.
Qed.

Lemma objects_exists_false P table :
  objects_exists P table = false →
  ∀ pk a, table !! pk = Some a → P a = false.
Proof.
  intros Hex pk a Hpk. destruct (P a) eqn:Hp; [|done].
  by rewrite (objects_exists_true P table pk a) in Hex.
Qed.

End Tables.

(** ** users: login *)

Section Login.
Context `{Lib}.

Lemma check_password_direct (u : User.t) (raw_password : string) :
  Users.is_hex_digest raw_password = true →
  Users.check_password u raw_password = true ↔ User.password u = raw_password.
Proof.
  intros Hhex. unfold Users.check_password. rewrite Hhex. apply String.eqb_eq.
Qed.

Lemma falsy_nonempty (s : string) : s ≠ "" → Users.falsy (Some s) = false.
Proof. intros Hs. simpl. by apply String.eqb_neq. Qed.

Lemma login_with_credentials (env : Env) (db : Db) (username password : string) :
  username ≠ "" → password ≠ "" →
  Users.login env (Users.mkLoginRequest (Some username) (Some password)) db
  = match objects_get (λ u, String.eqb (User.username u) username) (users db) with
    | Ok (pk, user) =>
        if negb (Users.check_password user password)
        then (Users.invalid_credentials, db)
        else if negb (User.email_verified user)
        then (Users.email_not_verified, db)
        else
          (mkResponse HTTP_200_OK
             (JObj [("access", JStr (RefreshToken_for_user pk).1);
                    ("refresh", JStr (RefreshToken_for_user pk).2)]),
           with_users (alter (User.set_last_login_at (now env)) pk (users db)) db)
    | Raise DoesNotExist => (Users.invalid_credentials, db)
    | Raise e => dispatch (raise e) db
    end.
Proof.
  intros Hu Hp. unfold Users.login, dispatch, Users.login_view.
  cbn [Users.login_username Users.login_password].
  rewrite !falsy_nonempty by done. cbn [orb default].
  unfold try_catch, mbind, M_bind, get_db, lift.
  destruct (objects_get _ (users db)) as [[pk user]|e]; [|by destruct e].
  cbn.
  destruct (negb (Users.check_password user password)); [reflexivity|].
  destruct (negb (User.email_verified user)); reflexivity.
Qed.

(** C6.  A login request that carries a username and a password is answered
    from the stored hash alone: a password of 64 lower-case hex characters is
    compared with the stored one as it is; an unknown username and a password
    that does not match get the same 401 answer and change nothing; a
    matching pair of an unverified user gets a 403 whose message differs;
    a matching pair of a verified user gets 200 with the access and refresh
    tokens of that user. *)
Theorem login_outcomes (env : Env) (db : Db) (username password : string) :
  username ≠ "" → password ≠ "" →
  let request := Users.mkLoginRequest (Some username) (Some password) in
  (∀ u, Users.is_hex_digest password = true →
        (Users.check_password u password = true ↔ User.password u = password))
  ∧ ((∀ pk u, users db !! pk = Some u → User.username u ≠ username) →
     Users.login env request db = (Users.invalid_credentials, db))
  ∧ (∀ pk u,
       users db !! pk = Some u → User.username u = username →
       (∀ pk' u', users db !! pk' = Some u' → User.username u' = username → pk' = pk) →
       (Users.check_password u password = false →
        Users.login env request db = (Users.invalid_credentials, db))
       ∧ (Users.check_password u password = true → User.email_verified u = false →
          Users.login env request db = (Users.email_not_verified, db)
          ∧ status Users.email_not_verified = HTTP_403_FORBIDDEN
          ∧ data Users.email_not_verified ≠ data Users.invalid_credentials)
       ∧ (Users.check_password u password = true → User.email_verified u = true →
          ∃ db',
            Users.login env request db
            = (mkResponse HTTP_200_OK
                 (JObj [("access", JStr (RefreshToken_for_user pk).1);
                        ("refresh", JStr (RefreshToken_for_user pk).2)]), db')
            ∧ users db' !! pk = Some (User.set_last_login_at (now env) u))).
Proof.
  intros Hu Hp request. subst request.
  rewrite (login_with_credentials env db username password Hu Hp).
  split; [|split].
  - intros u Hhex. by apply check_password_direct.
  - intros Hnone. rewrite objects_get_missing; [done|].
    intros pk u Hpk. apply String.eqb_neq. eauto.
  - intros pk u Hpk Hname Huniq.
    rewrite (objects_get_unique _ _ pk u); [|done|by apply String.eqb_eq|].
    2:{ intros pk' u' Hpk' Hn'. apply String.eqb_eq in Hn'. eauto. }
    split; [|split].
    + by intros ->.
    + intros -> ->. by repeat split.
    + intros -> ->. eexists. split; [reflexivity|].
      cbn. by rewrite lookup_alter_eq, Hpk.
Qed.

End Login.

(** A witness for C6: the password of [bob] sent for [alice]. *)
Lemma login_outcomes_witness :
  User.username alice ≠ "" ∧ digest_b ≠ ""
  ∧ @Users.login sample_lib sample_env
      (Users.mkLoginRequest (Some (User.username alice)) (Some digest_b)) sample_db
    = (Users.invalid_credentials, sample_db).
Proof.
  assert (User.username alice ≠ "") as Hu by discriminate.
  assert (digest_b ≠ "") as Hp by discriminate.
  split; [exact Hu|split; [exact Hp|]].
  destruct (@login_outcomes sample_lib sample_env sample_db _ _ Hu Hp)
    as (_ & _ & Hcases).
  destruct (Hcases 1%N alice) as (Hwrong & _).
  - reflexivity.
  - reflexivity.
  - intros pk' u' Hpk' Hname. cbn in Hpk'.
    destruct (decide (pk' = 1%N)) as [->|Hne]; [reflexivity|].
    destruct (decide (pk' = 2%N)) as [->|Hne2].
    + vm_compute in Hpk'. injection Hpk' as <-. discriminate Hname.
    + unfold sample_users in Hpk'.
      rewrite lookup_insert_ne, lookup_singleton_ne in Hpk' by done.
      discriminate Hpk'.
  - apply Hwrong. reflexivity.
Defined.

(** ** Frames of the receivers *)

Lemma notification_frame_refl (db : Db) : notification_frame db db.
Proof. by repeat split. Qed.

Lemma notification_frame_trans (db1 db2 db3 : Db) :
  notification_frame db1 db2 → notification_frame db2 db3 →
  notification_frame db1 db3.
Proof.
  unfold notification_frame.
  intros (?&?&?&?&?&?) (?&?&?&?&?&?). repeat split; congruence.
Qed.

Lemma preferences_of_frame (user : UUID) (db : Db) :
  notification_frame db (Signals.preferences_of user db).2
  ∧ notifications (Signals.preferences_of user db).2 = notifications db
  ∧ ∃ prefs, (Signals.preferences_of user db).1 = Ok prefs.
Proof.
  unfold Signals.preferences_of, get_or_create_for_user.
  destruct (preferences db !! user); cbn; eauto using notification_frame_refl.
  split; [by repeat split|eauto].
Qed.

Lemma create_security_alert_frame env pk user message info db :
  notification_frame db
    (NotificationCreator.create_security_alert env pk user message info db).2.
Proof.
  unfold NotificationCreator.create_security_alert, insert_row.
  unfold mbind, M_bind, get_db, lift, put_db. cbn.
  destruct (notifications db !! pk); cbn; by repeat split.
Qed.

Lemma create_new_device_notification_frame env pk instance created db :
  notification_frame db
    (Signals.create_new_device_notification env pk instance created db).2
  ∧ (Signals.create_new_device_notification env pk instance created db).1 = Ok tt.
Proof.
  unfold Signals.create_new_device_notification.
  destruct created; [|split; [apply notification_frame_refl|done]].
  unfold mbind, M_bind.
  destruct (preferences_of_frame (Device.user instance) db) as (Hf & _ & prefs & Hp).
  destruct (Signals.preferences_of (Device.user instance) db) as [r db1].
  cbn in Hf, Hp. subst r.
  destruct (negb _ && negb _); [by split|].
  unfold try_catch, mbind, M_bind.
  pose proof (create_security_alert_frame env pk (Device.user instance)
    ("New device login: " ++ Device.device_name instance)
    (Some (Device.device_name instance)) db1) as Hs.
  destruct (NotificationCreator.create_security_alert _ _ _ _ _ db1) as [[?|?] db2];
    cbn in *; split; eauto using notification_frame_trans.
Qed.

(** ** users: devices *)

Section Devices.
Context `{Lib}.

Lemma Device_insert_cases (pk : UUID) (row : Device.t) (db : Db) :
  (Users.Device_insert pk row db
   = (Ok tt, with_devices (<[pk := row]> (devices db)) db)
   ∧ devices db !! pk = None
   ∧ ∀ pk' d, devices db !! pk' = Some d →
              Device.device_id d ≠ Device.device_id row)
  ∨ (∃ c, Users.Device_insert pk row db = (Raise (IntegrityError c), db)).
Proof.
  unfold Users.Device_insert, mbind, M_bind, get_db, raise, put_db. cbn.
  case_bool_decide as Hpk; [right; eauto|].
  destruct (objects_exists _ (devices db)) eqn:Hid; [right; eauto|].
  destruct (objects_exists _ (devices db)) eqn:Hpair in |- *; [right; eauto|].
  left. split; [done|]. split.
  - by apply eq_None_not_Some.
  - intros pk' d Hd Heq.
    pose proof (objects_exists_false _ _ Hid pk' d Hd) as Hno. cbn in Hno.
    apply String.eqb_neq in Hno. done.
Qed.

Lemma Device_insert_taken (pk pk' : UUID) (row d : Device.t) (db : Db) :
  devices db !! pk' = Some d → Device.device_id d = Device.device_id row →
  ∃ c, Users.Device_insert pk row db = (Raise (IntegrityError c), db).
Proof.
  intros Hd Heq.
  destruct (Device_insert_cases pk row db) as [(_ & _ & Hfresh)|?]; [|done].
  by destruct (Hfresh pk' d Hd).
Qed.

Lemma device_ids_unique_insert (pk : UUID) (row : Device.t) (db db' : Db) :
  device_ids_unique db →
  devices db' = <[pk := row]> (devices db) →
  (∀ pk' d, devices db !! pk' = Some d →
            Device.device_id d ≠ Device.device_id row) →
  device_ids_unique db'.
Proof.
  intros Huniq Hdev Hfresh pk1 pk2 d1 d2. rewrite Hdev.
  rewrite !lookup_insert_Some.
  intros [[<- <-]|[? H1]] [[<- <-]|[? H2]] Heq; try done.
  - by destruct (Hfresh _ _ H2).
  - by destruct (Hfresh _ _ H1).
  - eauto.
Qed.

Lemma device_ids_unique_frame (db db' : Db) :
  device_ids_unique db → devices db' = devices db → device_ids_unique db'.
Proof. unfold device_ids_unique. intros Huniq ->. done. Qed.

Lemma Device_objects_create_cases env i row db :
  (∃ db', Users.Device_objects_create env i row db = (Ok (uuid4 env i), db')
          ∧ devices db' = <[uuid4 env i := row]> (devices db)
          ∧ users db' = users db
          ∧ ∀ pk' d, devices db !! pk' = Some d →
                     Device.device_id d ≠ Device.device_id row)
  ∨ (∃ c, Users.Device_objects_create env i row db = (Raise (IntegrityError c), db)).
Proof.
  unfold Users.Device_objects_create, mbind, M_bind.
  destruct (Device_insert_cases (uuid4 env i) row db) as [(-> & _ & Hfresh)|[c ->]];
    [left|right; eauto].
  destruct (create_new_device_notification_frame env (uuid4 env (S i)) row true
              (with_devices (<[uuid4 env i:=row]> (devices db)) db))
    as ((Hu & Hd & _) & Hok).
  destruct (Signals.create_new_device_notification _ _ _ _ _) as [r db'].
  cbn in *. subst r. eexists. split; [done|]. by rewrite Hd, Hu.
Qed.

Lemma User_insert_cases (pk : UUID) (row : User.t) (db : Db) :
  Users.User_insert pk row db = (Ok tt, with_users (<[pk := row]> (users db)) db)
  ∨ (∃ c, Users.User_insert pk row db = (Raise (IntegrityError c), db)).
Proof.
  unfold Users.User_insert, mbind, M_bind, get_db, raise, put_db. cbn.
  repeat (case_match; [right; eauto|]). by left.
Qed.

Lemma register_cases (env : Env) (request : Users.RegisterRequest) (db : Db) :
  (∃ validated_data,
     Users.registration_is_valid db request = Ok validated_data
     ∧ status (Users.register env request db).1 = HTTP_201_CREATED
     ∧ devices (Users.register env request db).2
       = <[uuid4 env 1 := first_device env validated_data]> (devices db)
     ∧ ∀ pk' d, devices db !! pk' = Some d →
         Device.device_id d ≠ Users.val_device_id validated_data)
  ∨ (status (Users.register env request db).1 ≠ HTTP_201_CREATED
     ∧ devices (Users.register env request db).2 = devices db
     ∧ ∀ validated_data,
         Users.registration_is_valid db request = Ok validated_data →
         status (Users.register env request db).1 = HTTP_500_INTERNAL_SERVER_ERROR).
Proof.
  unfold Users.register, dispatch, Users.register_view, try_catch.
  unfold mbind, M_bind, get_db. cbv beta iota.
  destruct (Users.registration_is_valid db request) as [validated_data|e].
  2:{ right. destruct e; cbn; by repeat split. }
  unfold Users.registration_create, mbind, M_bind, get_db, put_db.
  destruct (User_insert_cases (uuid4 env 0)
              (Users.set_password (Users.val_password validated_data)
                 (User.mk (Users.val_username validated_data)
                    (Users.val_email validated_data)
                    (Users.val_mobile_number validated_data) ""
                    (Users.val_recovery_key_hash validated_data) None "local"
                    false None "FREE" 0 None)) db) as [->|[c ->]].
  2:{ right. cbn. by repeat split. }
  match goal with
  | |- context [Users.Device_objects_create env 1 ?row ?db1] =>
      destruct (Device_objects_create_cases env 1 row db1)
        as [(db' & -> & Hd & _ & Hfresh)|[c ->]]
  end.
  - left. exists validated_data. cbn. repeat split; [done|exact Hfresh].
  - right. cbn. by repeat split.
Qed.

Lemma CharField_value name max_length raw v :
  Users.CharField name max_length (Some raw) = Ok v → v = strip raw.
Proof.
  unfold Users.CharField.
  destruct (String.eqb (strip raw) ""); [discriminate|].
  destruct max_length as [m|]; [destruct (Nat.ltb m _)|]; congruence.
Qed.

Lemma registration_is_valid_device_id db request validated_data raw :
  Users.registration_is_valid db request = Ok validated_data →
  Users.reg_device_id request = Some raw →
  Users.val_device_id validated_data = strip raw.
Proof.
  unfold Users.registration_is_valid. intros Hvalid Hraw. rewrite Hraw in Hvalid.
  unfold mbind, result_bind, mret, result_ret in Hvalid.
  repeat match type of Hvalid with
         | match ?x with _ => _ end = _ =>
             destruct x eqn:?; try discriminate Hvalid
         end.
  injection Hvalid as <-. cbn. eauto using CharField_value.
Qed.

Lemma get_or_create_devices env i row db :
  devices (Users.Device_objects_get_or_create env i row db).2 = devices db
  ∨ (devices (Users.Device_objects_get_or_create env i row db).2
     = <[uuid4 env i := row]> (devices db)
     ∧ ∀ pk' d, devices db !! pk' = Some d →
                Device.device_id d ≠ Device.device_id row).
Proof.
  unfold Users.Device_objects_get_or_create, try_catch, atomic.
  unfold mbind, M_bind, get_db. cbv beta iota.
  destruct (objects_get _ (devices db)) as [[pk ?]|e] eqn:Hget; [by left|].
  destruct e; try by left.
  destruct (Device_objects_create_cases env i row db)
    as [(db' & -> & Hd & _ & Hfresh)|[c ->]].
  - right. by split.
  - left. cbn. by rewrite Hget.
Qed.

Lemma remove_device_devices user pk db :
  devices (Users.remove_device user pk db).2 = devices db
  ∨ devices (Users.remove_device user pk db).2 = delete pk (devices db).
Proof.
  unfold Users.remove_device, dispatch, Users.remove_device_view.
  unfold mbind, M_bind, get_db, put_db. cbv beta iota.
  destruct (devices db !! pk) as [device|]; [|by left].
  destruct (N.eqb (Device.user device) user); [by right|by left].
Qed.

Lemma device_ids_unique_delete pk db db' :
  device_ids_unique db → devices db' = delete pk (devices db) →
  device_ids_unique db'.
Proof.
  intros Huniq Hd pk1 pk2 d1 d2. rewrite Hd, !lookup_delete_Some.
  intros [_ H1] [_ H2]. eauto.
Qed.

Lemma run_device_op_unique (db : Db) (op : DeviceOp) :
  device_ids_unique db → device_ids_unique (run_device_op db op).
Proof.
  intros Huniq. destruct op as [env request|env i row|env i row|user pk]; cbn.
  - destruct (register_cases env request db)
      as [(validated_data & _ & _ & Hd & Hfresh)|(_ & Hd & _)].
    + eapply device_ids_unique_insert; [done|exact Hd|exact Hfresh].
    + by eapply device_ids_unique_frame.
  - destruct (get_or_create_devices env i row db) as [Hd|[Hd Hfresh]].
    + by eapply device_ids_unique_frame.
    + by eapply device_ids_unique_insert.
  - destruct (Device_objects_create_cases env i row db)
      as [(db' & -> & Hd & _ & Hfresh)|[c ->]].
    + by eapply device_ids_unique_insert.
    + done.
  - destruct (remove_device_devices user pk db) as [Hd|Hd].
    + by eapply device_ids_unique_frame.
    + by eapply device_ids_unique_delete.
Qed.

(** C10.  [device_id] is unique over the whole [Device] table: from a table
    where no two rows share a [device_id], no sequence of the operations that
    write devices reaches a table where two do; and a registration whose
    [device_id] is the one of a row on record, of any user, is not answered
    with 201 and adds no device.  When its fields are valid the failure is
    the [IntegrityError] of the insert, answered with 500. *)
Theorem device_id_globally_unique (ops : list DeviceOp) (env : Env)
    (request : Users.RegisterRequest) (db : Db) :
  device_ids_unique db →
  device_ids_unique (foldl run_device_op db ops)
  ∧ ∀ pk d raw,
      devices db !! pk = Some d →
      Users.reg_device_id request = Some raw →
      Device.device_id d = strip raw →
      status (Users.register env request db).1 ≠ HTTP_201_CREATED
      ∧ devices (Users.register env request db).2 = devices db
      ∧ ∀ validated_data,
          Users.registration_is_valid db request = Ok validated_data →
          status (Users.register env request db).1 = HTTP_500_INTERNAL_SERVER_ERROR.
Proof.
  intros Huniq. split.
  - revert db Huniq. induction ops as [|op ops IH]; intros db Huniq; [done|].
    cbn. apply IH. by apply run_device_op_unique.
  - intros pk d raw Hd Hraw Hid.
    destruct (register_cases env request db)
      as [(validated_data & Hvalid & _ & _ & Hfresh)|Hfail]; [|exact Hfail].
    destruct (Hfresh pk d Hd).
    rewrite Hid. symmetry. by eapply registration_is_valid_device_id.
Qed.

End Devices.

(** A witness for C10: a third account registers with
    the [device_id] of the laptop of [alice]. *)
Lemma device_id_globally_unique_witness :
  device_ids_unique db_with_device
  ∧ status (@Users.register sample_lib sample_env carol_registration db_with_device).1
    = HTTP_500_INTERNAL_SERVER_ERROR
  ∧ devices (@Users.register sample_lib sample_env carol_registration db_with_device).2
    = devices db_with_device.
Proof.
  assert (device_ids_unique db_with_device) as Huniq.
  { intros pk1 pk2 d1 d2 H1 H2 _. cbn in H1, H2.
    apply lookup_singleton_Some in H1 as [<- _].
    by apply lookup_singleton_Some in H2 as [<- _]. }
  split; [exact Huniq|].
  destruct (@device_id_globally_unique sample_lib [] sample_env
              carol_registration db_with_device Huniq) as [_ Htaken].
  destruct (Htaken 11%N alice_laptop "device-0001") as (_ & Hdev & H500);
    [reflexivity..|].
  split; [|exact Hdev]. eapply H500. vm_compute. reflexivity.
Defined.

(** The registration of the witness is answered with 500, and yet the user
    row it wrote before the device insert is there: [register] has no
    transaction around its writes. *)
Example register_taken_device_keeps_user :
  users db_with_device !! 100%N = None
  ∧ User.email
      <$> users (@Users.register sample_lib sample_env carol_registration
                   db_with_device).2 !! 100%N
    = Some "carol@example.com".
Proof. split; reflexivity. Qed.

(** ** vault: upload *)

Lemma create_expiry_notifications_frame env pk instance created db :
  notification_frame db
    (Signals.create_expiry_notifications env pk instance created db).2
  ∧ notifications (Signals.create_expiry_notifications env pk instance created db).2
    = notifications db
  ∧ (Signals.create_expiry_notifications env pk instance created db).1 = Ok tt.
Proof.
  unfold Signals.create_expiry_notifications.
  destruct (negb _ || _); [by repeat split|].
  destruct created; [|by repeat split].
  unfold mbind, M_bind.
  destruct (preferences_of_frame (Document.user instance) db)
    as (Hf & Hn & prefs & Hp).
  destruct (Signals.preferences_of (Document.user instance) db) as [r db1].
  cbn in Hf, Hn, Hp. subst r. cbn. auto.
Qed.

Lemma monitor_storage_after_upload_frame user created db :
  Signals.monitor_storage_after_upload user created db = (Ok tt, db).
Proof. by destruct created. Qed.

Lemma check_expiry_date_change_frame pk instance db :
  notification_frame db (Signals.check_expiry_date_change pk instance db).2
  ∧ (Signals.check_expiry_date_change pk instance db).1 = Ok tt
  ∧ (documents db !! pk = None →
     Signals.check_expiry_date_change pk instance db = (Ok tt, db)).
Proof.
  unfold Signals.check_expiry_date_change, mbind, M_bind, get_db, put_db.
  cbv beta iota.
  destruct (documents db !! pk) as [old|]; [|by repeat split].
  destruct (negb _); by repeat split.
Qed.

Section Upload.
Context `{Lib}.

Lemma Document_objects_create_cases env pk row db :
  (∃ db', Vault.Document_objects_create env pk row db = (Ok tt, db')
          ∧ storage_ok env = true
          ∧ documents db !! pk = None
          ∧ documents db' = <[pk := row]> (documents db)
          ∧ users db' = users db ∧ versions db' = versions db)
  ∨ (∃ e db', Vault.Document_objects_create env pk row db = (Raise e, db')).
Proof.
  unfold Vault.Document_objects_create.
  unfold mbind, M_bind, get_db, lift, insert_row, put_db. cbv beta iota.
  destruct (check_expiry_date_change_frame pk row db)
    as ((_&_&_&_&Hd0&_) & Hok & Hsame).
  destruct (documents db !! pk) as [old|] eqn:Hpk.
  - right. destruct (Signals.check_expiry_date_change pk row db) as [r db1].
    cbn in Hok, Hd0. subst r.
    destruct (negb (storage_ok env)); [by eauto|].
    rewrite Hd0, Hpk. by eauto.
  - rewrite Hsame by done.
    destruct (storage_ok env); cbn [negb]; [|right; by eauto].
    rewrite Hpk. cbv beta iota.
    destruct (create_expiry_notifications_frame env pk row true
                (with_documents (<[pk:=row]> (documents db)) db))
      as ((Hu & _ & _ & _ & Hd & Hv) & _ & Hr).
    destruct (Signals.create_expiry_notifications _ _ _ _ _) as [r db1].
    cbn in Hu, Hd, Hv, Hr. subst r.
    rewrite monitor_storage_after_upload_frame.
    left. exists db1. by repeat split.
Qed.

Lemma DocumentVersion_objects_create_cases env pk row db :
  (Vault.DocumentVersion_objects_create env pk row db
   = (Ok tt, with_versions (<[pk := row]> (versions db)) db))
  ∨ (∃ e, Vault.DocumentVersion_objects_create env pk row db = (Raise e, db)).
Proof.
  unfold Vault.DocumentVersion_objects_create.
  unfold mbind, M_bind, get_db, lift, insert_row, put_db, raise. cbv beta iota.
  destruct (negb (storage_ok env)); [right; by eauto|].
  destruct (objects_exists _ (versions db)); [right; by eauto|].
  destruct (versions db !! pk); [right; by eauto|]. by left.
Qed.

Lemma create_over_quota env user_pk user data file db :
  Vault.encrypted_file data = Some file →
  user_limit user < User.storage_used user + UploadedFile.size file →
  ∃ m, Vault.create env user_pk user data db = (Raise (ValidationError "file" m), db).
Proof.
  intros Hfile Hover. unfold Vault.create. rewrite Hfile.
  fold (user_limit user).
  destruct (Z.ltb_spec (user_limit user) (User.storage_used user + UploadedFile.size file));
    [by eauto|lia].
Qed.

Lemma create_cases env user_pk user data db :
  (∃ file db' document version,
     Vault.create env user_pk user data db = (Ok (uuid4 env 0, document), db')
     ∧ Vault.encrypted_file data = Some file
     ∧ User.storage_used user + UploadedFile.size file ≤ user_limit user
     ∧ documents db !! uuid4 env 0 = None
     ∧ documents db' = <[uuid4 env 0 := document]> (documents db)
     ∧ versions db' = <[uuid4 env 2 := version]> (versions db)
     ∧ DocumentVersion.document version = uuid4 env 0
     ∧ DocumentVersion.version_number version = 1
     ∧ users db'
       = alter (User.set_storage_used
                  (User.storage_used user + UploadedFile.size file))
           user_pk (users db))
  ∨ (∃ f m, Vault.create env user_pk user data db = (Raise (ValidationError f m), db)).
Proof.
  unfold Vault.create.
  destruct (Vault.encrypted_file data) as [file|]; [|right; by eauto].
  fold (user_limit user).
  destruct (Z.ltb_spec (user_limit user) (User.storage_used user + UploadedFile.size file));
    [right; by eauto|].
  destruct (negb (UploadedFile.readable file)); [right; by eauto|].
  unfold try_catch, atomic, mbind, M_bind, get_db, put_db. cbv beta iota.
  match goal with
  | |- context [Vault.Document_objects_create env ?pk ?row db] =>
      destruct (Document_objects_create_cases env pk row db)
        as [(db1 & -> & _ & Hnew & Hd & Hu & Hv)|(e & db1 & ->)]
  end; [|right; by eauto].
  match goal with
  | |- context [Vault.DocumentVersion_objects_create env ?pk ?row db1] =>
      destruct (DocumentVersion_objects_create_cases env pk row db1)
        as [->|(e & ->)]
  end; [|right; by eauto].
  left. do 4 eexists. split; [reflexivity|]. cbn.
  rewrite Hd, Hu, Hv. by repeat split.
Qed.

Lemma related_field_cases {A} fname (table : gmap UUID A) v :
  Vault.related_field fname table v = Ok v
  ∨ ∃ m, Vault.related_field fname table v = Raise (ValidationError fname m).
Proof.
  unfold Vault.related_field. destruct v as [| |pk]; [by left..|].
  destruct (table !! pk); [by left|right; by eauto].
Qed.

Lemma file_field_cases v :
  (∃ file, v = Some file ∧ Vault.file_field v = Ok file)
  ∨ ∃ m, Vault.file_field v = Raise (ValidationError "encrypted_file" m).
Proof.
  unfold Vault.file_field. destruct v as [file|]; [|right; by eauto].
  repeat (case_match; [right; by eauto|]). left. by eauto.
Qed.

Lemma validate_cases db user data :
  Vault.validate db user data = Ok data
  ∨ ∃ m, Vault.validate db user data = Raise (ValidationError "folder" m).
Proof.
  unfold Vault.validate.
  destruct (truthy (Vault.folder data)) as [folder_pk|]; [|by left].
  destruct (folders db !! folder_pk) as [row|]; [|by left].
  repeat (case_match; [right; by eauto|]). by left.
Qed.

Lemma is_valid_cases db user data :
  (Vault.is_valid db user data = Ok data
   ∧ ∃ file, Vault.encrypted_file data = Some file)
  ∨ ∃ f m, Vault.is_valid db user data = Raise (ValidationError f m).
Proof.
  unfold Vault.is_valid, mbind, result_bind.
  destruct (related_field_cases "category" (categories db) (Vault.category data))
    as [->|[m ->]]; [|right; by eauto].
  destruct (related_field_cases "folder" (folders db) (Vault.folder data))
    as [->|[m ->]]; [|right; by eauto].
  destruct (file_field_cases (Vault.encrypted_file data))
    as [(file & Hfile & ->)|[m ->]]; [|right; by eauto].
  destruct (validate_cases db user data) as [->|[m ->]]; [|right; by eauto].
  left. by eauto.
Qed.

(** What an upload does, in two cases: it is answered with 201 and has
    written the document, its first version and the counter, or it is
    answered with 400 and has written nothing. *)
Lemma upload_cases env user_pk user data db :
  users db !! user_pk = Some user →
  (∃ file document version,
     status (Vault.DocumentViewSet_create env user_pk data db).1 = HTTP_201_CREATED
     ∧ Vault.encrypted_file data = Some file
     ∧ User.storage_used user + UploadedFile.size file ≤ user_limit user
     ∧ documents db !! uuid4 env 0 = None
     ∧ documents (Vault.DocumentViewSet_create env user_pk data db).2
       = <[uuid4 env 0 := document]> (documents db)
     ∧ versions (Vault.DocumentViewSet_create env user_pk data db).2
       = <[uuid4 env 2 := version]> (versions db)
     ∧ DocumentVersion.document version = uuid4 env 0
     ∧ DocumentVersion.version_number version = 1
     ∧ users (Vault.DocumentViewSet_create env user_pk data db).2
       = alter (User.set_storage_used
                  (User.storage_used user + UploadedFile.size file))
           user_pk (users db))
  ∨ (status (Vault.DocumentViewSet_create env user_pk data db).1 = HTTP_400_BAD_REQUEST
     ∧ (Vault.DocumentViewSet_create env user_pk data db).2 = db).
Proof.
  intros Huser.
  unfold Vault.DocumentViewSet_create, dispatch, Vault.DocumentViewSet_create_view.
  unfold authenticated, mbind, M_bind, get_db. cbv beta iota. rewrite Huser.
  destruct (is_valid_cases db user_pk data) as [[-> _]|(f & m & ->)];
    [|right; by split].
  destruct (create_cases env user_pk user data db)
    as [(file & db' & document & version & -> & Hrest)|(f & m & ->)];
    [|right; by split].
  left. exists file, document, version. cbn. by split.
Qed.

(** C1.  For an upload of an authenticated user, the answer is 201 exactly
    when afterwards the counter of the user is the old one plus the size of
    the file and a document that was not there has a [DocumentVersion] with
    [version_number] 1; and an upload whose size would take the counter over
    the limit of the tier is answered with 400 and leaves every table as it
    was. *)
Theorem upload_storage_accounting env user_pk user data db :
  users db !! user_pk = Some user →
  let response := (Vault.DocumentViewSet_create env user_pk data db).1 in
  let db' := (Vault.DocumentViewSet_create env user_pk data db).2 in
  (status response = HTTP_201_CREATED
   ↔ User.storage_used <$> users db' !! user_pk
       = Some (User.storage_used user + uploaded_size data)
     ∧ ∃ pk v version,
         documents db !! pk = None ∧ is_Some (documents db' !! pk)
         ∧ versions db' !! v = Some version
         ∧ DocumentVersion.document version = pk
         ∧ DocumentVersion.version_number version = 1)
  ∧ (user_limit user < User.storage_used user + uploaded_size data →
     status response = HTTP_400_BAD_REQUEST ∧ db' = db).
Proof.
  intros Huser response db'. subst response db'.
  destruct (upload_cases env user_pk user data db Huser)
    as [(file & document & version & -> & Hfile & Hfit & Hnew & Hd & Hv
         & Hvd & Hvn & Hu)|[-> ->]].
  - unfold uploaded_size. rewrite Hfile. cbn [from_option].
    split; [split; [intros _|done]|lia].
    split.
    + by rewrite Hu, lookup_alter_eq, Huser.
    + exists (uuid4 env 0), (uuid4 env 2), version.
      rewrite Hd, Hv, !lookup_insert_eq. by eauto.
  - split; [split; [done|]|done].
    intros (_ & pk & v & version & Hnone & [d Hsome] & _). congruence.
Qed.

End Upload.

(** A witness for C1: [alice] uploads 1000 bytes. *)
Lemma upload_storage_accounting_witness :
  users sample_db !! 1%N = Some alice
  ∧ User.storage_used
      <$> users (@Vault.DocumentViewSet_create sample_lib sample_env 1%N
                   sample_upload sample_db).2 !! 1%N
    = Some 6000.
Proof.
  assert (users sample_db !! 1%N = Some alice) as Huser by reflexivity.
  split; [exact Huser|].
  destruct (@upload_storage_accounting sample_lib sample_env 1%N alice
              sample_upload sample_db Huser) as [[Hcreated _] _].
  destruct Hcreated as [Hcounter _]; [reflexivity|exact Hcounter].
Defined.

(** ** vault: soft delete *)

Section SoftDelete.
Context `{Lib}.

Lemma destroy_found env user_pk user query pk document db :
  users db !! user_pk = Some user →
  documents db !! pk = Some document →
  Vault.get_queryset user_pk query document = true →
  Vault.DocumentViewSet_destroy env user_pk query pk db
  = (document_deleted,
     with_users
       (alter (User.set_storage_used
                 (User.storage_used user - Document.file_size document))
          user_pk (users db))
       (with_documents (<[pk := soft_deleted env document]> (documents db)) db)).
Proof.
  intros Huser Hdoc Hq.
  assert (Document.user document = user_pk) as Howner.
  { unfold Vault.get_queryset in Hq. rewrite !andb_true_iff in Hq.
    destruct Hq as [[[[Ho _] _] _] _]. by apply N.eqb_eq in Ho. }
  subst user_pk.
  unfold Vault.DocumentViewSet_destroy, dispatch, Vault.DocumentViewSet_destroy_view.
  unfold authenticated, try_catch, Vault.get_object, Vault.perform_destroy.
  unfold Vault.Document_save, Signals.check_expiry_date_change.
  unfold Signals.create_expiry_notifications, Signals.monitor_storage_after_upload.
  unfold mbind, M_bind, get_db, put_db, mret, M_ret. cbv beta iota.
  rewrite Huser, Hdoc, Hq. cbn. rewrite Huser, Hdoc. cbn.
  rewrite String.eqb_refl. cbn.
  by destruct (negb (Document.has_expiry document)
               || String.eqb (Document.encrypted_expiry_date document) "").
Qed.

Lemma destroy_missing env user_pk user query pk db :
  users db !! user_pk = Some user →
  (∀ document, documents db !! pk = Some document →
               Vault.get_queryset user_pk query document = false) →
  Vault.DocumentViewSet_destroy env user_pk query pk db = (document_not_found, db).
Proof.
  intros Huser Hno.
  unfold Vault.DocumentViewSet_destroy, dispatch, Vault.DocumentViewSet_destroy_view.
  unfold authenticated, try_catch, Vault.get_object.
  unfold mbind, M_bind, get_db. cbv beta iota. rewrite Huser.
  destruct (documents db !! pk) as [document|] eqn:Hdoc; [|done].
  by rewrite (Hno document).
Qed.

Lemma destroy_unauthenticated env user_pk query pk db :
  users db !! user_pk = None →
  Vault.DocumentViewSet_destroy env user_pk query pk db = (not_authenticated, db).
Proof.
  intros Huser.
  unfold Vault.DocumentViewSet_destroy, dispatch, Vault.DocumentViewSet_destroy_view.
  unfold authenticated, mbind, M_bind, get_db. cbv beta iota. by rewrite Huser.
Qed.

(** C4.  A [DELETE /documents/{id}] that is answered with 200 was sent by a
    user for a document of theirs that was not deleted; afterwards the row is
    still there, with [is_deleted] set and [deleted_at] the time of the
    request, no document row is gone, and the counter of the owner is the old
    one minus the [file_size] of the document. *)
Theorem soft_delete_accounting env user_pk query pk db :
  let response := (Vault.DocumentViewSet_destroy env user_pk query pk db).1 in
  let db' := (Vault.DocumentViewSet_destroy env user_pk query pk db).2 in
  status response = HTTP_200_OK →
  ∃ user document document',
    users db !! user_pk = Some user
    ∧ documents db !! pk = Some document
    ∧ Document.user document = user_pk
    ∧ Document.is_deleted document = false
    ∧ documents db' !! pk = Some document'
    ∧ Document.is_deleted document' = true
    ∧ Document.deleted_at document' = Some (now env)
    ∧ dom (documents db') = dom (documents db)
    ∧ User.storage_used <$> users db' !! Document.user document
      = Some (User.storage_used user - Document.file_size document).
Proof.
  intros response db'. subst response db'.
  destruct (users db !! user_pk) as [user|] eqn:Huser.
  2:{ by rewrite destroy_unauthenticated. }
  destruct (documents db !! pk) as [document|] eqn:Hdoc.
  2:{ rewrite (destroy_missing env user_pk user); [done..|]. congruence. }
  destruct (Vault.get_queryset user_pk query document) eqn:Hq.
  2:{ rewrite (destroy_missing env user_pk user); [done..|]. congruence. }
  rewrite (destroy_found env user_pk user query pk document db Huser Hdoc Hq).
  intros _.
  unfold Vault.get_queryset in Hq. rewrite !andb_true_iff in Hq.
  destruct Hq as [[[[Ho Hnd] _] _] _].
  apply N.eqb_eq in Ho. apply negb_true_iff in Hnd.
  exists user, document, (soft_deleted env document). cbn.
  rewrite lookup_insert_eq, Ho, lookup_alter_eq, Huser.
  repeat split; try done.
  by apply dom_insert_lookup_L.
Qed.

Lemma destroy_deleted env user_pk user query pk document db :
  users db !! user_pk = Some user →
  documents db !! pk = Some document →
  Document.is_deleted document = true →
  Vault.DocumentViewSet_destroy env user_pk query pk db = (document_not_found, db).
Proof.
  intros Huser Hdoc Hdel. apply (destroy_missing env user_pk user); [done|].
  intros d Hd. rewrite Hdoc in Hd. injection Hd as <-.
  unfold Vault.get_queryset. rewrite Hdel. cbn. by rewrite andb_false_r.
Qed.

(** C9.  A [DELETE] by an authenticated user for a document that is already
    soft-deleted is answered with 404 and changes no table; in particular,
    after a delete that was answered with 200, a second one, whatever its
    query string and time, is answered with 404 and leaves the counter where
    the first one put it. *)
Theorem delete_deleted_is_404 env user_pk user query pk document db :
  users db !! user_pk = Some user →
  documents db !! pk = Some document →
  Document.is_deleted document = true →
  Vault.DocumentViewSet_destroy env user_pk query pk db = (document_not_found, db)
  ∧ ∀ env0 query0 db0,
      status (Vault.DocumentViewSet_destroy env0 user_pk query0 pk db0).1
      = HTTP_200_OK →
      Vault.DocumentViewSet_destroy env user_pk query pk
        (Vault.DocumentViewSet_destroy env0 user_pk query0 pk db0).2
      = (document_not_found,
         (Vault.DocumentViewSet_destroy env0 user_pk query0 pk db0).2).
Proof.
  intros Huser Hdoc Hdel. split; [by eapply destroy_deleted|].
  clear. intros env0 query0 db0.
  destruct (users db0 !! user_pk) as [user|] eqn:Huser.
  2:{ by rewrite destroy_unauthenticated. }
  destruct (documents db0 !! pk) as [document|] eqn:Hdoc.
  2:{ rewrite (destroy_missing env0 user_pk user); [done..|]. congruence. }
  destruct (Vault.get_queryset user_pk query0 document) eqn:Hq.
  2:{ rewrite (destroy_missing env0 user_pk user); [done..|]. congruence. }
  rewrite (destroy_found env0 user_pk user query0 pk document db0 Huser Hdoc Hq).
  intros _. cbn [snd].
  eapply (destroy_deleted env user_pk _ query pk (soft_deleted env0 document)).
  - cbn. by rewrite lookup_alter_eq, Huser.
  - cbn. by rewrite lookup_insert_eq.
  - done.
Qed.

End SoftDelete.

(** A witness for C4: [alice] deletes her document of
    1200 bytes and her counter goes from 5000 to 3800. *)
Lemma soft_delete_accounting_witness :
  status (@Vault.DocumentViewSet_destroy sample_lib sample_env 1%N no_query 21%N
            db_with_document).1 = HTTP_200_OK
  ∧ User.storage_used
      <$> users (@Vault.DocumentViewSet_destroy sample_lib sample_env 1%N no_query
                   21%N db_with_document).2 !! 1%N
    = Some 3800.
Proof.
  assert (status (@Vault.DocumentViewSet_destroy sample_lib sample_env 1%N no_query
                    21%N db_with_document).1 = HTTP_200_OK) as Hok by reflexivity.
  split; [exact Hok|].
  destruct (@soft_delete_accounting sample_lib sample_env 1%N no_query 21%N
              db_with_document Hok)
    as (user & document & document' & Hu & Hd & Ho & _ & _ & _ & _ & _ & Hs).
  injection Hu as <-. injection Hd as <-. exact Hs.
Defined.

(** A witness for C9 on the deleted document. *)
Lemma delete_deleted_is_404_witness :
  users db_with_deleted !! 1%N = Some alice
  ∧ documents db_with_deleted !! 21%N = Some passport_deleted
  ∧ Document.is_deleted passport_deleted = true
  ∧ @Vault.DocumentViewSet_destroy sample_lib sample_env 1%N no_query 21%N
      db_with_deleted = (document_not_found, db_with_deleted).
Proof.
  split; [reflexivity|split; [reflexivity|split; [reflexivity|]]].
  exact (proj1 (@delete_deleted_is_404 sample_lib sample_env 1%N alice no_query
                  21%N passport_deleted db_with_deleted eq_refl eq_refl eq_refl)).
Defined.

(** ** vault: folder deletion *)

Section Collector.
Implicit Types (table : gmap UUID Folder.t) (seen new_objs : gset UUID).

Lemma elem_of_related_objects table new_objs g :
  g ∈ Vault.related_objects table new_objs
  ↔ ∃ row p, table !! g = Some row ∧ Folder.parent row = Some p ∧ p ∈ new_objs.
Proof.
  unfold Vault.related_objects. rewrite elem_of_dom. unfold is_Some.
  setoid_rewrite map_lookup_filter_Some. cbn. split.
  - intros (row & Hrow & Hp). exists row.
    destruct (Folder.parent row) as [p|]; [|discriminate].
    exists p. apply bool_decide_eq_true in Hp. done.
  - intros (row & p & Hrow & Hpar & Hp). exists row. split; [done|].
    rewrite Hpar. by apply bool_decide_eq_true.
Qed.

Lemma related_objects_dom table new_objs :
  Vault.related_objects table new_objs ⊆ dom table.
Proof.
  intros g (row & p & Hrow & _)%elem_of_related_objects. by eapply elem_of_dom_2.
Qed.

(** The collector returns a set that holds what it has seen and every
    subfolder of its members, as long as the fuel covers the rows it has
    not seen. *)
Lemma collect_closed fuel table seen new_objs :
  new_objs ⊆ seen →
  (∀ g row p, table !! g = Some row → Folder.parent row = Some p →
              p ∈ seen → p ∉ new_objs → g ∈ seen) →
(size (dom table ∖ seen) ≤ fuel)%nat →
  seen ⊆ Vault.collect fuel table seen new_objs
  ∧ closed table (Vault.collect fuel table seen new_objs).
Proof.
  revert seen new_objs.
  induction fuel as [|fuel IH]; intros seen new_objs Hnew Hinv Hsize; cbn.
  - split; [done|]. intros g row p Hrow _ _.
    assert (size (dom table ∖ seen) = 0%nat) as Hzero by lia.
    apply size_empty_iff in Hzero. apply elem_of_dom_2 in Hrow.
    destruct (decide (g ∈ seen)); [done|]. set_solver.
  - case_decide as Hsub.
    + split; [done|]. intros g row p Hrow Hpar Hp.
      destruct (decide (p ∈ new_objs)) as [Hin|Hout]; [|by eauto].
      assert (g ∈ Vault.related_objects table new_objs) as Hg
        by (apply elem_of_related_objects; eauto).
      destruct (decide (g ∈ seen)); [done|]. set_solver.
    + destruct (IH (seen ∪ (Vault.related_objects table new_objs ∖ seen))
                  (Vault.related_objects table new_objs ∖ seen)) as [Hincl Hclosed].
      * set_solver.
      * intros g row p Hrow Hpar Hp Hout.
        assert (p ∈ seen) as Hseen by set_solver.
        destruct (decide (p ∈ new_objs)) as [Hin|Hnin].
        -- assert (g ∈ Vault.related_objects table new_objs) as Hg
             by (apply elem_of_related_objects; eauto).
           destruct (decide (g ∈ seen)); set_solver.
        -- apply elem_of_union_l. eauto.
      * apply set_choose_L in Hsub as [x Hx].
        assert (x ∈ dom table) as Hdom.
        { apply (related_objects_dom table new_objs). set_solver. }
        assert (dom table ∖ (seen ∪ (Vault.related_objects table new_objs ∖ seen))
                ⊂ dom table ∖ seen) as Hlt.
        { split; [set_solver|]. intros Hsubset. specialize (Hsubset x). set_solver. }
        apply subset_size in Hlt. lia.
      * split; [set_solver|done].
Qed.

Lemma closed_descendant table s root g :
  closed table s → root ∈ s → descendant table root g → g ∈ s.
Proof.
  intros Hclosed Hroot Hdesc.
  induction Hdesc as [g row Hrow Hpar|h g row _ IH Hrow Hpar]; by eauto.
Qed.

(** What [Folder.delete] collects: the folder and everything below it. *)
Lemma collect_complete table root g :
  g = root ∨ descendant table root g →
  g ∈ Vault.collect (size table) table {[root]} {[root]}.
Proof.
  destruct (collect_closed (size table) table {[root]} {[root]})
    as [Hincl Hclosed].
  - done.
  - intros g' row p _ _ Hp Hnp. done.
  - rewrite <- size_dom. apply subseteq_size. set_solver.
  - intros [->|Hdesc].
    + apply Hincl. set_solver.
    + eapply closed_descendant; [done| |done]. apply Hincl. set_solver.
Qed.

(** And nothing else. *)
Lemma collect_sound fuel table root seen new_objs g :
  (∀ x, x ∈ seen → x = root ∨ descendant table root x) →
  new_objs ⊆ seen →
  g ∈ Vault.collect fuel table seen new_objs →
  g = root ∨ descendant table root g.
Proof.
  revert seen new_objs.
  induction fuel as [|fuel IH]; intros seen new_objs Hseen Hnew; cbn; [by eauto|].
  case_decide as Hsub; [by eauto|].
  apply IH; [|set_solver].
  intros x [Hx|Hx]%elem_of_union; [by eauto|]. right.
  apply elem_of_difference in Hx as [Hx _].
  apply elem_of_related_objects in Hx as (row & p & Hrow & Hpar & Hp).
  destruct (Hseen p) as [->|Hdesc]; [set_solver| |].
  - by eapply descendant_child.
  - by eapply descendant_step.
Qed.

End Collector.

Section FolderDelete.
Context `{Lib}.

Lemma folder_destroy_cases user_pk query pk db :
  (status (Vault.FolderViewSet_destroy user_pk query pk db).1 = HTTP_204_NO_CONTENT
   ∧ is_Some (folders db !! pk)
   ∧ documents (Vault.FolderViewSet_destroy user_pk query pk db).2
     = objects_update
         (λ d, match Document.folder d with
               | Some f => bool_decide (f ∈ collected db pk)
               | None => false
               end)
         (Document.set_folder None) (documents db)
   ∧ folders (Vault.FolderViewSet_destroy user_pk query pk db).2
     = filter (λ kv, kv.1 ∉ collected db pk) (folders db))
  ∨ (status (Vault.FolderViewSet_destroy user_pk query pk db).1 ≠ HTTP_204_NO_CONTENT
     ∧ (Vault.FolderViewSet_destroy user_pk query pk db).2 = db).
Proof.
  unfold Vault.FolderViewSet_destroy, dispatch, Vault.FolderViewSet_destroy_view.
  unfold authenticated, Vault.folder_perform_destroy, Vault.Folder_delete.
  unfold mbind, M_bind, get_db, put_db. cbv beta iota.
  destruct (users db !! user_pk); [|right; by split].
  destruct (folders db !! pk) as [f|] eqn:Hf; [|right; by split].
  destruct (Vault.folder_queryset user_pk query f); [|right; by split].
  left. cbn. by repeat split.
Qed.

(** C5.  A folder deletion that is answered with 204 removes no document
    row; every document that was in the folder has [folder = None]
    afterwards and is otherwise as it was; the folder is gone, and so is
    every folder below it, at any depth. *)
Theorem folder_delete_cascade user_pk query pk db :
  let db' := (Vault.FolderViewSet_destroy user_pk query pk db).2 in
  status (Vault.FolderViewSet_destroy user_pk query pk db).1 = HTTP_204_NO_CONTENT →
  dom (documents db') = dom (documents db)
  ∧ (∀ d document,
       documents db !! d = Some document → Document.folder document = Some pk →
       documents db' !! d = Some (Document.set_folder None document))
  ∧ folders db' !! pk = None
  ∧ ∀ g, descendant (folders db) pk g → folders db' !! g = None.
Proof.
  intros db'. subst db'.
  destruct (folder_destroy_cases user_pk query pk db)
    as [(_ & _ & -> & ->)|[Hne _]]; [intros _|done].
  unfold objects_update. repeat split.
  - by rewrite dom_fmap_L.
  - intros d document Hd Hfolder. rewrite lookup_fmap, Hd. cbn.
    rewrite Hfolder, bool_decide_eq_true_2; [done|].
    apply collect_complete. by left.
  - apply map_lookup_filter_None. right. intros row _ Hout. cbn in Hout.
    apply Hout, collect_complete. by left.
  - intros g Hdesc. apply map_lookup_filter_None. right.
    intros row _ Hout. cbn in Hout. apply Hout, collect_complete. by right.
Qed.

(** The deletion spares what is not below the folder: the other folders
    stay, and a document in none of the removed folders keeps its folder. *)
Lemma folder_delete_spares user_pk query pk db g row :
  status (Vault.FolderViewSet_destroy user_pk query pk db).1 = HTTP_204_NO_CONTENT →
  folders db !! g = Some row → g ≠ pk → ¬ descendant (folders db) pk g →
  folders (Vault.FolderViewSet_destroy user_pk query pk db).2 !! g = Some row.
Proof.
  destruct (folder_destroy_cases user_pk query pk db)
    as [(_ & _ & _ & ->)|[Hne _]]; [intros _|done].
  intros Hg Hneq Hnot. apply map_lookup_filter_Some. split; [done|]. cbn.
  intros Hin. eapply collect_sound in Hin as [?|?]; [done|done| |done].
  intros x ->%elem_of_singleton. by left.
Qed.

End FolderDelete.

(** A witness for C5: deleting the outer folder removes
    the innermost one, two levels down. *)
Lemma folder_delete_cascade_witness :
  status (@Vault.FolderViewSet_destroy 1%N no_folder_query 31%N db_with_folders).1
  = HTTP_204_NO_CONTENT
  ∧ folders (@Vault.FolderViewSet_destroy 1%N no_folder_query 31%N
               db_with_folders).2 !! 33%N = None.
Proof.
  assert (status (@Vault.FolderViewSet_destroy 1%N no_folder_query 31%N
                    db_with_folders).1 = HTTP_204_NO_CONTENT) as Hok by reflexivity.
  split; [exact Hok|].
  destruct (folder_delete_cascade 1%N no_folder_query 31%N db_with_folders Hok)
    as (_ & _ & _ & Hbelow).
  apply Hbelow.
  eapply (descendant_step _ _ 32%N); [|reflexivity|reflexivity].
  eapply descendant_child; reflexivity.
Defined.

(** The example in full: both documents lose their folder, the three nested
    folders go, the fourth stays. *)
Example folder_delete_example :
  let db' := (Vault.FolderViewSet_destroy 1%N no_folder_query 31%N db_with_folders).2 in
  Document.folder <$> documents db' !! 21%N = Some None
  ∧ Document.folder <$> documents db' !! 22%N = Some None
  ∧ dom (folders db') = {[ 34%N ]}.
Proof. vm_compute. repeat split. Qed.

(** ** notifications: mark_read *)

Section MarkRead.
Context `{Lib}.

Lemma lookup_objects_update_pk {A} (P : UUID → A → bool) (f : A → A)
    (table : gmap UUID A) (pk : UUID) :
  objects_update_pk P f table !! pk
  = (λ row, if P pk row then f row else row) <$> table !! pk.
Proof.
  unfold objects_update_pk. rewrite map_lookup_imap.
  by destruct (table !! pk).
Qed.

(** The rows the update matches are the listed ones, when every listed id is
    an unread notification of the user. *)
Lemma to_mark_dom user ids (table : gmap UUID Notification.t) :
  (∀ pk, pk ∈ ids →
         ∃ n, table !! pk = Some n ∧ Notification.user n = user
              ∧ Notification.is_read n = false) →
  dom (filter (λ kv, Notifications.to_mark user ids kv.1 kv.2 = true) table)
  = list_to_set ids.
Proof.
  intros Hlisted. apply set_eq. intros pk.
  rewrite elem_of_dom, elem_of_list_to_set. unfold is_Some.
  setoid_rewrite map_lookup_filter_Some. cbn. unfold Notifications.to_mark. split.
  - intros (n & _ & Hm). rewrite !andb_true_iff in Hm.
    destruct Hm as [[Hin _] _]. by apply bool_decide_eq_true in Hin.
  - intros Hin. destruct (Hlisted pk Hin) as (n & Hn & Hu & Hr).
    exists n. split; [done|]. rewrite Hu, Hr, N.eqb_refl, bool_decide_eq_true_2; done.
Qed.

Lemma mark_read_is_valid_listed db user ids :
  ids ≠ [] →
  (∀ pk, pk ∈ ids →
         ∃ n, notifications db !! pk = Some n ∧ Notification.user n = user) →
  Notifications.mark_read_is_valid db user (Some ids) = Ok ids.
Proof.
  intros Hne Hlisted. unfold Notifications.mark_read_is_valid.
  destruct ids as [|pk0 ids']; [done|].
  rewrite decide_True; [done|].
  apply set_eq. intros pk. split; [|set_solver].
  intros [Hin Hout]%elem_of_difference. destruct Hout.
  apply elem_of_list_to_set in Hin.
  destruct (Hlisted pk Hin) as (n & Hn & Hu).
  apply elem_of_dom. exists n. apply map_lookup_filter_Some. split; [done|]. cbn.
  rewrite Hu, N.eqb_refl, bool_decide_eq_true_2; done.
Qed.

(** C8.  A [mark_read] request of an authenticated user that lists unread
    notifications of that user is answered with 200 and a count that is the
    number of notifications listed (the length of the list when no id is
    repeated); afterwards every listed notification is read with [read_at]
    the time of the request and is otherwise as it was, every notification
    that is not listed is as it was, and no other table has changed. *)
Theorem mark_read_marks_listed env user ids db :
  is_Some (users db !! user) →
  ids ≠ [] →
  (∀ pk, pk ∈ ids →
         ∃ n, notifications db !! pk = Some n ∧ Notification.user n = user
              ∧ Notification.is_read n = false) →
  let response := (Notifications.mark_read env user (Some ids) db).1 in
  let db' := (Notifications.mark_read env user (Some ids) db).2 in
  let count := Z.of_nat (size (list_to_set ids : gset UUID)) in
  response
  = mkResponse HTTP_200_OK
      (JObj [("message", JStr ("Marked " ++ pretty count ++ " notifications as read"));
             ("count", JInt count)])
  ∧ (NoDup ids → count = Z.of_nat (length ids))
  ∧ (∀ pk n, pk ∈ ids → notifications db !! pk = Some n →
       notifications db' !! pk
       = Some (Notification.set_read true (Some (now env)) n))
  ∧ (∀ pk, pk ∉ ids → notifications db' !! pk = notifications db !! pk)
  ∧ db' = with_notifications (notifications db') db.
Proof.
  intros [u Huser] Hne Hlisted response db' count. subst response db' count.
  unfold Notifications.mark_read, dispatch, Notifications.mark_read_view.
  unfold authenticated, try_catch, Notifications.mark_as_read.
  unfold mbind, M_bind, get_db, put_db. cbv beta iota. rewrite Huser.
  rewrite mark_read_is_valid_listed; [|done|].
  2:{ intros pk Hin. destruct (Hlisted pk Hin) as (n & ? & ? & _). eauto. }
  cbn. unfold objects_count_pk.
  rewrite <- size_dom, (to_mark_dom user ids) by done.
  split; [done|]. split; [|split; [|split]].
  - intros Hnodup. by rewrite size_list_to_set.
  - intros pk n Hin Hn. rewrite lookup_objects_update_pk, Hn. cbn.
    destruct (Hlisted pk Hin) as (n' & Hn' & Hu & Hr).
    rewrite Hn in Hn'. injection Hn' as <-.
    unfold Notifications.to_mark.
    rewrite Hu, Hr, N.eqb_refl, bool_decide_eq_true_2; done.
  - intros pk Hout. rewrite lookup_objects_update_pk.
    destruct (notifications db !! pk) as [n|]; [|done]. cbn.
    unfold Notifications.to_mark. rewrite bool_decide_eq_false_2; done.
  - done.
Qed.

End MarkRead.

(** A witness for C8: three of the four notifications
    are listed, the count is 3 and the fourth stays unread. *)
Lemma mark_read_marks_listed_witness :
  is_Some (users db_with_notifications !! 1%N)
  ∧ [41%N; 42%N; 43%N] ≠ []
  ∧ data (@Notifications.mark_read sample_env 1%N (Some [41%N; 42%N; 43%N])
            db_with_notifications).1
    = JObj [("message", JStr "Marked 3 notifications as read"); ("count", JInt 3)]
  ∧ notifications (@Notifications.mark_read sample_env 1%N (Some [41%N; 42%N; 43%N])
                     db_with_notifications).2 !! 44%N
    = Some unread_notification.
Proof.
  assert (is_Some (users db_with_notifications !! 1%N)) as Huser
    by (exists alice; reflexivity).
  assert ([41%N; 42%N; 43%N] ≠ []) as Hne by discriminate.
  assert (∀ pk, pk ∈ [41%N; 42%N; 43%N] →
            ∃ n, notifications db_with_notifications !! pk = Some n
                 ∧ Notification.user n = 1%N ∧ Notification.is_read n = false)
    as Hlisted.
  { intros pk Hin. exists unread_notification.
    repeat (apply elem_of_cons in Hin as [->|Hin]; [by repeat split|]).
    by apply elem_of_nil in Hin. }
  destruct (mark_read_marks_listed sample_env 1%N [41%N; 42%N; 43%N]
              db_with_notifications Huser Hne Hlisted)
    as (Hresponse & _ & _ & Hother & _).
  split; [exact Huser|split; [exact Hne|split]].
  - rewrite Hresponse. reflexivity.
  - rewrite Hother; [reflexivity|].
    intros Hin. repeat (apply elem_of_cons in Hin as [Heq|Hin]; [discriminate Heq|]).
    by apply elem_of_nil in Hin.
Defined.

(** ** notifications: the flags of a notification *)

Section Flags.
Implicit Types (T : gmap UUID Notification.t) (unread : option UUID).

Lemma sent_le_refl n : sent_le n n.
Proof. by split. Qed.

Lemma table_step_refl unread T : table_step unread T T.
Proof. intros pk n' Hn'. exists n'. by repeat split. Qed.

Lemma table_step_trans unread T1 T2 T3 :
  table_step unread T1 T2 → table_step unread T2 T3 → table_step unread T1 T3.
Proof.
  intros H12 H23 pk n3 H3.
  destruct (H23 pk n3 H3) as (n2 & H2 & [He2 Hp2] & Hr2).
  destruct (H12 pk n2 H2) as (n1 & H1 & [He1 Hp1] & Hr1).
  exists n1. repeat split; auto.
Qed.

(** A write that keeps the sent flags that are set, and keeps [is_read] set
    except on the row [unread] names. *)
Lemma table_step_alter unread T pk write :
  (∀ n, sent_le n (write n)) →
  (unread ≠ Some pk →
   ∀ n, Notification.is_read n = true → Notification.is_read (write n) = true) →
  table_step unread T (alter write pk T).
Proof.
  intros Hsent Hread pk' n' Hn'.
  destruct (decide (pk' = pk)) as [->|Hne].
  - rewrite lookup_alter_eq in Hn'.
    destruct (T !! pk) as [n|]; [|discriminate]. injection Hn' as <-.
    exists n. repeat split; try apply Hsent. auto.
  - rewrite lookup_alter_ne in Hn' by done. exists n'. by repeat split.
Qed.

Lemma table_step_update unread T (P : Notification.t → bool) write :
  (∀ n, sent_le n (write n)) →
  (∀ n, Notification.is_read n = true → Notification.is_read (write n) = true) →
  table_step unread T (objects_update P write T).
Proof.
  intros Hsent Hread pk n' Hn'. unfold objects_update in Hn'.
  rewrite lookup_fmap in Hn'. destruct (T !! pk) as [n|]; [|discriminate].
  injection Hn' as <-. exists n. split; [done|].
  destruct (P n); [|by repeat split].
  repeat split; try apply Hsent. auto.
Qed.

Lemma table_step_update_pk unread T (P : UUID → Notification.t → bool) write :
  (∀ n, sent_le n (write n)) →
  (∀ n, Notification.is_read n = true → Notification.is_read (write n) = true) →
  table_step unread T (objects_update_pk P write T).
Proof.
  intros Hsent Hread pk n' Hn'. unfold objects_update_pk in Hn'.
  rewrite map_lookup_imap in Hn'. destruct (T !! pk) as [n|]; [|discriminate].
  injection Hn' as <-. exists n. split; [done|].
  destruct (P pk n); [|by repeat split].
  repeat split; try apply Hsent. auto.
Qed.

Lemma table_step_delete unread T pk : table_step unread T (delete pk T).
Proof.
  intros pk' n' [_ Hn']%lookup_delete_Some. exists n'. by repeat split.
Qed.

Lemma table_step_objects_delete unread T (P : Notification.t → bool) :
  table_step unread T (objects_delete P T).
Proof.
  intros pk n' [Hn' _]%map_lookup_filter_Some. exists n'. by repeat split.
Qed.

Lemma set_read_sent r at_ n : sent_le n (Notification.set_read r at_ n).
Proof. by split. Qed.

Lemma set_email_sent at_ n : sent_le n (Notification.set_email true at_ n).
Proof. by split. Qed.

Lemma set_push_sent at_ n : sent_le n (Notification.set_push true at_ n).
Proof. by split. Qed.

End Flags.

Section NotificationOps.

Lemma for_each_step {A} (body : nat → A → M nat) items acc db :
  (∀ acc item db,
     table_step None (notifications db) (notifications (body acc item db).2)) →
  table_step None (notifications db)
    (notifications (Notifications.for_each body acc items db).2).
Proof.
  intros Hbody. revert acc db.
  induction items as [|item rest IH]; intros acc db; cbn;
    [apply table_step_refl|].
  unfold mbind, M_bind. specialize (Hbody acc item db).
  destruct (body acc item db) as [[acc'|e] db1]; cbn in *; [|done].
  eapply table_step_trans; [exact Hbody|apply IH].
Qed.

Lemma save_update_fields_step unread pk write db :
  (∀ n, sent_le n (write n)) →
  (unread ≠ Some pk →
   ∀ n, Notification.is_read n = true → Notification.is_read (write n) = true) →
  table_step unread (notifications db)
    (notifications (Notifications.save_update_fields pk write db).2).
Proof. intros. cbn. by apply table_step_alter. Qed.

Lemma email_one_step env sent item db :
  table_step None (notifications db)
    (notifications (Notifications.email_one env sent item db).2).
Proof.
  destruct item as [pk n]. unfold Notifications.email_one, try_catch.
  unfold mbind, M_bind.
  destruct (preferences_of_frame (Notification.user n) db) as (_ & Hn & prefs & Hp).
  destruct (Signals.preferences_of (Notification.user n) db) as [r db1].
  cbn in Hn, Hp. subst r. rewrite <- Hn.
  destruct (Notifications.channel_enabled _ _ _ _ n); [|apply table_step_refl].
  unfold Notifications.mark_email_sent_instance.
  destruct (negb (Notification.email_sent n)); [|apply table_step_refl].
  cbn. apply table_step_alter; [apply set_email_sent|done].
Qed.

Lemma push_one_step env sent item db :
  table_step None (notifications db)
    (notifications (Notifications.push_one env sent item db).2).
Proof.
  destruct item as [pk n]. unfold Notifications.push_one, try_catch.
  unfold mbind, M_bind.
  destruct (preferences_of_frame (Notification.user n) db) as (_ & Hn & prefs & Hp).
  destruct (Signals.preferences_of (Notification.user n) db) as [r db1].
  cbn in Hn, Hp. subst r. rewrite <- Hn.
  destruct (Notifications.channel_enabled _ _ _ _ n); [|apply table_step_refl].
  unfold Notifications.mark_push_sent_instance.
  destruct (negb (Notification.push_sent n)); [|apply table_step_refl].
  cbn. apply table_step_alter; [apply set_push_sent|done].
Qed.

Lemma partial_update_step env user query pk is_read db :
  table_step (marks_unread (OpPatch env user query pk is_read))
    (notifications db)
    (notifications (Notifications.partial_update env user query pk is_read db).2).
Proof.
  unfold Notifications.partial_update, dispatch, Notifications.partial_update_view.
  unfold authenticated, try_catch, Notifications.get_object.
  unfold mbind, M_bind, get_db. cbv beta iota.
  destruct (users db !! user); [|apply table_step_refl].
  destruct (notifications db !! pk) as [n|]; [|apply table_step_refl].
  destruct (Notifications.get_queryset env user query n); [|apply table_step_refl].
  destruct is_read as [[|]|]; cbn [marks_unread];
    unfold Notifications.mark_as_read_instance; cbn;
    destruct (Notification.is_read n); cbn;
    first [apply table_step_refl
          |apply table_step_alter; [apply set_read_sent|done]].
Qed.

(** Every operation is a step; only a [PATCH] with [is_read] false names a
    row that may go back to unread. *)
Lemma run_notification_op_step db op :
  table_step (marks_unread op) (notifications db)
    (notifications (run_notification_op db op)).
Proof.
  destruct op as [env user query pk is_read|env user query pk|env user ids
                 |env user|user|env|env].
  - apply partial_update_step.
  - cbn [marks_unread run_notification_op].
    unfold Notifications.destroy, dispatch, Notifications.destroy_view.
    unfold authenticated, try_catch, Notifications.get_object.
    unfold mbind, M_bind, get_db, put_db. cbv beta iota.
    destruct (users db !! user); [|apply table_step_refl].
    destruct (notifications db !! pk) as [n|]; [|apply table_step_refl].
    destruct (Notifications.get_queryset env user query n); [|apply table_step_refl].
    cbn. apply table_step_delete.
  - cbn [marks_unread run_notification_op].
    unfold Notifications.mark_read, dispatch, Notifications.mark_read_view.
    unfold authenticated, try_catch, Notifications.mark_as_read.
    unfold mbind, M_bind, get_db, put_db. cbv beta iota.
    destruct (users db !! user); [|apply table_step_refl].
    destruct (Notifications.mark_read_is_valid db user ids) as [validated|e].
    + cbn. apply table_step_update_pk; [apply set_read_sent|done].
    + destruct e; apply table_step_refl.
  - cbn [marks_unread run_notification_op].
    unfold Notifications.mark_all_read, dispatch, Notifications.mark_all_read_view.
    unfold authenticated, mbind, M_bind, get_db, put_db. cbv beta iota.
    destruct (users db !! user); [|apply table_step_refl].
    cbn. apply table_step_update; [apply set_read_sent|done].
  - cbn [marks_unread run_notification_op].
    unfold Notifications.delete_all_read, dispatch, Notifications.delete_all_read_view.
    unfold authenticated, mbind, M_bind, get_db, put_db. cbv beta iota.
    destruct (users db !! user); [|apply table_step_refl].
    cbn. apply table_step_objects_delete.
  - cbn [marks_unread run_notification_op].
    unfold Notifications.send_email_notifications.
    match goal with
    | |- context [Notifications.for_each ?body ?acc ?items db] =>
        pose proof (for_each_step body items acc db (email_one_step env)) as Hloop;
        destruct (Notifications.for_each body acc items db) as [[sent|e] db1]
    end; exact Hloop.
  - cbn [marks_unread run_notification_op].
    unfold Notifications.send_push_notifications.
    match goal with
    | |- context [Notifications.for_each ?body ?acc ?items db] =>
        pose proof (for_each_step body items acc db (push_one_step env)) as Hloop;
        destruct (Notifications.for_each body acc items db) as [[sent|e] db1]
    end; exact Hloop.
Qed.

(** C7, as the code has it.  Over every sequence of operations on
    notifications, a notification that is still there has [email_sent] and
    [push_sent] set if they were set before; and it is still read if it was
    read before, provided no [PATCH] with [is_read] false was sent for it. *)
Theorem notification_flags_monotone ops db pk n n' :
  notifications db !! pk = Some n →
  notifications (foldl run_notification_op db ops) !! pk = Some n' →
  (Notification.email_sent n = true → Notification.email_sent n' = true)
  ∧ (Notification.push_sent n = true → Notification.push_sent n' = true)
  ∧ ((∀ op, op ∈ ops → marks_unread op ≠ Some pk) →
     Notification.is_read n = true → Notification.is_read n' = true).
Proof.
  revert db n.
  induction ops as [|op ops IH]; intros db n Hn Hn'; cbn in Hn'.
  - rewrite Hn in Hn'. injection Hn' as <-. by repeat split.
  - pose proof (run_notification_op_step db op) as Hstep.
    destruct (notifications (run_notification_op db op) !! pk) as [n1|] eqn:H1.
    + destruct (Hstep pk n1 H1) as (n0 & H0 & [He Hp] & Hr).
      rewrite Hn in H0. injection H0 as <-.
      destruct (IH _ n1 H1 Hn') as (He' & Hp' & Hr').
      repeat split; [by auto..|].
      intros Hno Hread. apply Hr'.
      * intros op' Hin. apply Hno, elem_of_cons. by right.
      * apply Hr; [|done]. apply Hno, elem_of_cons. by left.
    + exfalso. clear -H1 Hn'. revert H1 Hn'.
      generalize (run_notification_op db op). clear db.
      induction ops as [|op' ops IH]; intros db H1 Hn'; cbn in Hn'; [congruence|].
      apply (IH (run_notification_op db op')); [|done].
      destruct (notifications (run_notification_op db op') !! pk) as [n1|] eqn:Hx;
        [|done].
      destruct (run_notification_op_step db op' pk n1 Hx) as (n0 & H0 & _).
      congruence.
Qed.

End NotificationOps.

(** C7, as it is written, does not hold: a [PATCH] with [is_read] false
    takes a read notification back to unread. *)
Lemma read_is_not_one_way : ¬ read_is_one_way.
Proof.
  intros Hone_way.
  specialize (Hone_way [OpPatch sample_env 1%N any_notification 41%N (Some false)]
                db_with_read 41%N read_notification
                (Notification.set_read false None read_notification)
                eq_refl eq_refl eq_refl).
  discriminate Hone_way.
Qed.

(** A witness for C7: a read notification stays
    read through the e-mail job and [mark_all_read]. *)
Lemma notification_flags_monotone_witness :
  notifications db_with_read !! 41%N = Some read_notification
  ∧ notifications
      (foldl run_notification_op db_with_read
         [OpSendEmail sample_env; OpMarkAllRead sample_env 1%N]) !! 41%N
    = Some read_notification
  ∧ Notification.is_read read_notification = true.
Proof.
  assert (notifications
            (foldl run_notification_op db_with_read
               [OpSendEmail sample_env; OpMarkAllRead sample_env 1%N]) !! 41%N
          = Some read_notification) as Hafter by (vm_compute; reflexivity).
  split; [reflexivity|split; [exact Hafter|]].
  destruct (notification_flags_monotone
              [OpSendEmail sample_env; OpMarkAllRead sample_env 1%N]
              db_with_read 41%N read_notification read_notification
              eq_refl Hafter) as (_ & _ & Hread).
  apply Hread; [|reflexivity].
  intros op Hin.
  repeat (apply elem_of_cons in Hin as [->|Hin]; [discriminate|]).
  by apply elem_of_nil in Hin.
Defined.

(** ** notifications: preferences *)

(** What [validate] does ensure: a request that gives both thresholds and is
    accepted stores them in order. *)
Lemma preferences_full_update_ordered instance data warning critical :
  Notifications.storage_warning_threshold data = Some warning →
  Notifications.storage_critical_threshold data = Some critical →
  Notifications.preferences_is_valid data = Ok data →
  thresholds_ordered (Notifications.preferences_save instance data)
  ∧ 50 ≤ warning ≤ 100 ∧ 50 ≤ critical ≤ 100.
Proof.
  unfold Notifications.preferences_is_valid, Notifications.validate.
  unfold Notifications.validate_storage_warning_threshold.
  unfold Notifications.validate_storage_critical_threshold.
  unfold thresholds_ordered, Notifications.preferences_save.
  intros -> ->. cbn.
  destruct (50 <=? warning) eqn:?, (warning <=? 100) eqn:?; try discriminate.
  destruct (50 <=? critical) eqn:?, (critical <=? 100) eqn:?; try discriminate.
  cbn. destruct (critical <=? warning) eqn:?; [discriminate|]. lia.
Qed.

(** C3, on the code.  From the tables where [alice] has no preferences yet,
    a request that sets the thresholds to 60 and 70 is accepted; a second
    request that gives the warning threshold 75 alone is validated against
    the constant 95 in place of the stored 70, is answered with 200, and
    stores the warning threshold 75 above the critical threshold 70. *)
Theorem partial_update_breaks_threshold_order :
  let first := Notifications.preferences_update 1%N (set_both_thresholds 60 70) sample_db in
  let second := Notifications.preferences_update 1%N (set_warning_threshold 75) first.2 in
  status first.1 = HTTP_200_OK
  ∧ status second.1 = HTTP_200_OK
  ∧ (∃ stored, preferences second.2 !! 1%N = Some stored
               ∧ NotificationPreference.storage_warning_threshold stored = 75
               ∧ NotificationPreference.storage_critical_threshold stored = 70
               ∧ ¬ thresholds_ordered stored).
Proof.
  cbn zeta. split; [reflexivity|split; [reflexivity|]].
  eexists. split; [vm_compute; reflexivity|].
  split; [reflexivity|split; [reflexivity|]].
  unfold thresholds_ordered. cbn. lia.
Qed.

(** The same defect the other way round: with 60 and 70 stored, the critical
    threshold 75 alone is refused, against the constant 80. *)
Example partial_update_refuses_valid_critical :
  let first := Notifications.preferences_update 1%N (set_both_thresholds 60 70) sample_db in
  status (Notifications.preferences_update 1%N
            (Notifications.mkPreferenceData None None None None None None None None
               None None None None None None None (Some 75)) first.2).1
  = HTTP_400_BAD_REQUEST.
Proof. reflexivity. Qed.

(** ** notifications: the expiry scan *)

Section ExpiryScan.
Context `{Lib}.

(** The call the scan makes does not bind: [create_expiry_alert] has no
    parameter [preferences]. *)
Lemma scan_call_raises :
  call_with_keywords NotificationCreator.create_expiry_alert_parameters []
    ["document"; "user"; "preferences"; "days_until_expiry"]
  = Raise (TypeError "unexpected or missing keyword argument").
Proof. reflexivity. Qed.

Lemma check_one_document_creates_nothing env created item db :
  (Notifications.check_one_document env created item db).1 = Ok created
  ∧ notifications (Notifications.check_one_document env created item db).2
    = notifications db.
Proof.
  destruct item as [pk document]. unfold Notifications.check_one_document, try_catch.
  unfold mbind, M_bind, get_db, lift.
  destruct (preferences_of_frame (Document.user document) db)
    as (_ & Hn & prefs & Hp).
  destruct (Signals.preferences_of (Document.user document) db) as [r db1].
  cbn in Hn, Hp. subst r. rewrite <- Hn.
  destruct (decrypt_expiry_date _ _) as [expiry_date|]; [|done].
  destruct (Notifications.should_notify _ _ _ _ _ _); [|done].
  by rewrite scan_call_raises.
Qed.

Lemma for_each_check_creates_nothing env items created db :
  (Notifications.for_each (Notifications.check_one_document env) created items db).1
  = Ok created
  ∧ notifications
      (Notifications.for_each (Notifications.check_one_document env) created items db).2
    = notifications db.
Proof.
  revert db. induction items as [|item rest IH]; intros db; cbn; [done|].
  unfold mbind, M_bind.
  destruct (check_one_document_creates_nothing env created item db) as [Hr Hn].
  destruct (Notifications.check_one_document env created item db) as [r db1].
  cbn in Hr, Hn. subst r. rewrite <- Hn. apply IH.
Qed.

(** Whatever the documents, the preferences and the dates, a run of the
    scan returns 0 and leaves the notification table as it was. *)
Lemma check_document_expiry_creates_nothing env db :
  (Notifications.check_document_expiry env db).1 = 0
  ∧ notifications (Notifications.check_document_expiry env db).2 = notifications db.
Proof.
  unfold Notifications.check_document_expiry.
  match goal with
  | |- context [Notifications.for_each _ ?acc ?items db] =>
      destruct (for_each_check_creates_nothing env items acc db) as [Hr Hn];
      destruct (Notifications.for_each (Notifications.check_one_document env)
                  acc items db) as [r db1]
  end.
  cbn in Hr, Hn. by subst r.
Qed.

(** The second obstacle: called with the arguments it does take,
    [create_expiry_alert] writes the type [EXPIRY_ALERT], which the query of
    the scan for [DOCUMENT_EXPIRY] does not see. *)
Lemma created_alert_is_not_seen env pk user document days db :
  notifications db !! pk = None →
  Notifications.alerted_today env db user document = false →
  Notifications.alerted_today env
    (NotificationCreator.create_expiry_alert env pk user document days db).2
    user document = false.
Proof.
  intros Hfresh Hnone.
  unfold NotificationCreator.create_expiry_alert.
  assert (∀ title body priority,
    Notifications.alerted_today env
      (with_notifications
         (<[pk := Notification.mk user "EXPIRY_ALERT" priority title body
                    (Some document) None false None false None false None None
                    None (now env)]> (notifications db)) db) user document = false)
    as Hgen.
  { intros title body priority. apply not_true_is_false. intros Htrue.
    unfold Notifications.alerted_today, objects_exists in Htrue.
    apply bool_decide_eq_true in Htrue.
    unfold Notifications.alerted_today, objects_exists in Hnone.
    apply bool_decide_eq_false in Hnone. apply Hnone. intros Hempty.
    apply Htrue. apply map_empty_filter. intros i n Hi. cbn in Hi.
    apply lookup_insert_Some in Hi as [[<- <-]|[_ Hi]].
    - cbn. by rewrite andb_false_r.
    - apply map_empty_filter_1 in Hempty. exact (Hempty i n Hi). }
  unfold mbind, M_bind, get_db, lift, insert_row, put_db.
  destruct (0 <? days); [|destruct (days =? 0)]; cbn; rewrite Hfresh; cbn;
    apply Hgen.
Qed.

End ExpiryScan.

(** C2, on the code.  [alice] has a document with expiry tracking that
    expires in 7 days, default preferences ([alert_7_days] is on) and no
    notification.  The scan decides to notify, and then creates nothing: it
    returns 0 and the notification table is still empty. *)
Theorem expiry_scan_creates_no_alert :
  Notifications.should_notify sample_env db_expiring
    NotificationPreference.defaults 1%N 21%N 7 = true
  ∧ NotificationPreference.alert_7_days NotificationPreference.defaults = true
  ∧ @decrypt_expiry_date sample_lib
      (Document.encrypted_expiry_date expiring_passport) 1%N
    = Some (date_of (now sample_env) + 7)
  ∧ (@Notifications.check_document_expiry sample_lib sample_env db_expiring).1 = 0
  ∧ notifications (@Notifications.check_document_expiry sample_lib sample_env db_expiring).2
    = ∅.
Proof.
  split; [reflexivity|split; [reflexivity|split; [reflexivity|]]].
  exact (@check_document_expiry_creates_nothing sample_lib sample_env db_expiring).
Qed.

(** * Further properties *)

(** ** The first row of a query *)

Section First.
Context {A : Type}.
Implicit Types (P : A → bool) (table : gmap UUID A).

Lemma objects_first_spec P table :
  match objects_first P table with
  | None => ∀ pk a, table !! pk = Some a → P a = false
  | Some (pk, a) =>
      table !! pk = Some a ∧ P a = true
      ∧ ∀ pk' a', table !! pk' = Some a' → P a' = true → (pk ≤ pk')%N
  end.
Proof.
  unfold objects_first.
  apply (map_fold_weak_ind (λ acc table,
    match acc with
    | None => ∀ pk a, table !! pk = Some a → P a = false
    | Some (pk, a) =>
        table !! pk = Some a ∧ P a = true
        ∧ ∀ pk' a', table !! pk' = Some a' → P a' = true → (pk ≤ pk')%N
    end)).
  - intros pk a Hpk. by rewrite lookup_empty in Hpk.
  - intros i x m acc Hi IH. destruct (P x) eqn:Hx.
    + destruct acc as [[pk a]|].
      * destruct IH as (Hpk & Hp & Hmin).
        destruct (N.ltb_spec i pk) as [Hlt|Hge].
        -- split; [by rewrite lookup_insert_eq|]. split; [done|].
           intros pk' a' [[<- <-]|[_ Hpk']]%lookup_insert_Some Hp'; [lia|].
           specialize (Hmin pk' a' Hpk' Hp'). lia.
        -- split.
           { rewrite lookup_insert_ne; [done|]. intros ->. congruence. }
           split; [done|].
           intros pk' a' [[<- <-]|[_ Hpk']]%lookup_insert_Some Hp'; [done|].
           eauto.
      * split; [by rewrite lookup_insert_eq|]. split; [done|].
        intros pk' a' [[<- <-]|[_ Hpk']]%lookup_insert_Some Hp'; [lia|].
        rewrite (IH pk' a' Hpk') in Hp'. discriminate.
    + destruct acc as [[pk a]|].
      * destruct IH as (Hpk & Hp & Hmin). split.
        { rewrite lookup_insert_ne; [done|]. intros ->. congruence. }
        split; [done|].
        intros pk' a' [[<- <-]|[_ Hpk']]%lookup_insert_Some Hp'; [congruence|].
        eauto.
      * intros pk a [[<- <-]|[_ Hpk]]%lookup_insert_Some; eauto.
Qed.

Lemma objects_first_unique P table pk a :
  table !! pk = Some a → P a = true →
  (∀ pk' a', table !! pk' = Some a' → P a' = true → pk' = pk) →
  objects_first P table = Some (pk, a).
Proof.
  intros Hpk Hp Huniq. pose proof (objects_first_spec P table) as Hspec.
  destruct (objects_first P table) as [[pk0 a0]|].
  - destruct Hspec as (H0 & Hp0 & _).
    assert (pk0 = pk) as -> by eauto. congruence.
  - rewrite (Hspec pk a Hpk) in Hp. discriminate.
Qed.

Lemma objects_first_none P table :
  (∀ pk a, table !! pk = Some a → P a = false) → objects_first P table = None.
Proof.
  intros Hno. pose proof (objects_first_spec P table) as Hspec.
  destruct (objects_first P table) as [[pk0 a0]|]; [|done].
  destruct Hspec as (H0 & Hp0 & _). rewrite (Hno _ _ H0) in Hp0. discriminate.
Qed.

End First.

(** ** users: passwords *)

Section Passwords.
Context `{Lib}.

(** X1.  The password a user sets is the password that checks: whatever
    string [set_password] is given, [check_password] accepts the same string
    afterwards; and when the stored and the submitted strings are both
    digests of 64 lower-case hex characters, no other digest is accepted. *)
Theorem set_password_then_check (u : User.t) (raw other : string) :
  Users.is_hex_digest raw = true → Users.is_hex_digest other = true →
  Users.check_password (Users.set_password raw u) raw = true
  ∧ (Users.check_password (Users.set_password raw u) other = true ↔ other = raw).
Proof.
  intros Hraw Hother. unfold Users.check_password, Users.set_password. cbn.
  rewrite Hraw, Hother. split; [apply String.eqb_refl|].
  rewrite String.eqb_eq. split; congruence.
Qed.

(** The same for a string that is no digest: both methods hash it. *)
Lemma set_password_then_check_any (u : User.t) (raw : string) :
  Users.check_password (Users.set_password raw u) raw = true.
Proof.
  unfold Users.check_password, Users.set_password. cbn.
  destruct (Users.is_hex_digest raw); apply String.eqb_refl.
Qed.

End Passwords.

(** A witness for X1: the digest of [alice] against the one of [bob]. *)
Lemma set_password_then_check_witness :
  Users.is_hex_digest digest_a = true ∧ Users.is_hex_digest digest_b = true
  ∧ @Users.check_password sample_lib
      (@Users.set_password sample_lib digest_a bob) digest_b = false.
Proof.
  split; [reflexivity|split; [reflexivity|]].
  destruct (@set_password_then_check sample_lib bob digest_a digest_b eq_refl eq_refl)
    as [_ [Honly _]].
  destruct (@Users.check_password sample_lib
              (@Users.set_password sample_lib digest_a bob) digest_b);
    [|reflexivity].
  discriminate (Honly eq_refl).
Defined.

(** ** users: registration, verification, login *)

Section Registration.
Context `{Lib}.

Lemma CharField_raises name max_length v e :
  Users.CharField name max_length v = Raise e → ∃ m, e = ValidationError name m.
Proof.
  unfold Users.CharField. destruct v as [raw|]; [|intros [= <-]; eauto].
  destruct (String.eqb (strip raw) ""); [intros [= <-]; eauto|].
  destruct max_length as [m|]; [destruct (Nat.ltb m _)|];
    intros [= <-] || (intros; discriminate); eauto.
Qed.

Lemma validate_username_cases db value :
  (Users.validate_username db value = Ok value
   ∧ String.length value = 30%nat
   ∧ objects_exists (λ u, String.eqb (User.username u) value) (users db) = false)
  ∨ ∃ m, Users.validate_username db value = Raise (ValidationError "username" m).
Proof.
  unfold Users.validate_username.
  destruct (Nat.eqb_spec (String.length value) 30); cbn [negb]; [|right; by eauto].
  destruct (int_base16 value); cbn [negb]; [|right; by eauto].
  destruct (objects_exists _ (users db)); [right; by eauto|by left].
Qed.

Lemma validate_email_cases db value :
  (Users.validate_email db value = Ok (strip (lower value))
   ∧ objects_exists (λ u, String.eqb (User.email u) (strip (lower value))) (users db)
     = false)
  ∨ ∃ m, Users.validate_email db value = Raise (ValidationError "email" m).
Proof.
  unfold Users.validate_email.
  destruct (objects_exists _ (users db)); [right; by eauto|by left].
Qed.

Lemma validate_mobile_number_cases db value :
  (Users.validate_mobile_number db value = Ok (drop_separators value)
   ∧ objects_exists (λ u, String.eqb (User.mobile_number u) (drop_separators value))
       (users db) = false)
  ∨ ∃ m, Users.validate_mobile_number db value
         = Raise (ValidationError "mobile_number" m).
Proof.
  unfold Users.validate_mobile_number.
  destruct (phone_regex _); cbn [negb]; [|right; by eauto].
  destruct (objects_exists _ (users db)); [right; by eauto|by left].
Qed.

Lemma validate_password_cases value :
  (Users.validate_password value = Ok value ∧ String.length value = 64%nat)
  ∨ ∃ m, Users.validate_password value = Raise (ValidationError "password" m).
Proof.
  unfold Users.validate_password.
  destruct (Nat.eqb_spec (String.length value) 64); cbn [negb];
    [by left|right; by eauto].
Qed.

(** What validated registration data is: the stripped fields of the request,
    a username of 30 characters and a password of 64, and a username, an
    e-mail address and a mobile number that no user has. *)
Lemma registration_is_valid_cases db request :
  (∃ validated_data raw_username raw_email raw_mobile raw_password,
     Users.registration_is_valid db request = Ok validated_data
     ∧ Users.reg_username request = Some raw_username
     ∧ Users.reg_email request = Some raw_email
     ∧ Users.reg_mobile_number request = Some raw_mobile
     ∧ Users.reg_password request = Some raw_password
     ∧ Users.val_username validated_data = strip raw_username
     ∧ Users.val_email validated_data = strip (lower (strip raw_email))
     ∧ Users.val_mobile_number validated_data = drop_separators (strip raw_mobile)
     ∧ Users.val_password validated_data = strip raw_password
     ∧ String.length (Users.val_username validated_data) = 30%nat
     ∧ String.length (Users.val_password validated_data) = 64%nat
     ∧ objects_exists
         (λ u, String.eqb (User.username u) (Users.val_username validated_data))
         (users db) = false
     ∧ objects_exists
         (λ u, String.eqb (User.email u) (Users.val_email validated_data))
         (users db) = false
     ∧ objects_exists
         (λ u, String.eqb (User.mobile_number u)
                 (Users.val_mobile_number validated_data))
         (users db) = false)
  ∨ ∃ f m, Users.registration_is_valid db request = Raise (ValidationError f m).
Proof.
  unfold Users.registration_is_valid, mbind, result_bind, mret, result_ret.
  destruct (Users.CharField "username" _ (Users.reg_username request))
    as [username|e] eqn:Hu.
  2:{ right. apply CharField_raises in Hu as [m ->]. eauto. }
  destruct (Users.reg_username request) as [raw_username|] eqn:Hru;
    [|discriminate Hu].
  apply CharField_value in Hu as ->.
  destruct (validate_username_cases db (strip raw_username))
    as [(-> & Hlen & Hfree)|[m ->]]; [|right; by eauto].
  destruct (Users.CharField "email" _ (Users.reg_email request))
    as [email|e] eqn:He.
  2:{ right. apply CharField_raises in He as [m ->]. eauto. }
  destruct (Users.reg_email request) as [raw_email|] eqn:Hre; [|discriminate He].
  apply CharField_value in He as ->.
  destruct (email_format (strip raw_email)); [|right; by eauto].
  destruct (validate_email_cases db (strip raw_email))
    as [(-> & Hefree)|[m ->]]; [|right; by eauto].
  destruct (Users.CharField "mobile_number" _ (Users.reg_mobile_number request))
    as [mobile|e] eqn:Hm.
  2:{ right. apply CharField_raises in Hm as [m ->]. eauto. }
  destruct (Users.reg_mobile_number request) as [raw_mobile|] eqn:Hrm;
    [|discriminate Hm].
  apply CharField_value in Hm as ->.
  destruct (validate_mobile_number_cases db (strip raw_mobile))
    as [(-> & Hmfree)|[m ->]]; [|right; by eauto].
  destruct (Users.CharField "password" _ (Users.reg_password request))
    as [password|e] eqn:Hp.
  2:{ right. apply CharField_raises in Hp as [m ->]. eauto. }
  destruct (Users.reg_password request) as [raw_password|] eqn:Hrp;
    [|discriminate Hp].
  apply CharField_value in Hp as ->.
  destruct (validate_password_cases (strip raw_password))
    as [(-> & Hplen)|[m ->]]; [|right; by eauto].
  destruct (Users.CharField "recovery_key_hash" _ _) as [recovery|e] eqn:Hr.
  2:{ right. apply CharField_raises in Hr as [m ->]. eauto. }
  destruct (Users.CharField "device_id" _ _) as [device_id|e] eqn:Hd.
  2:{ right. apply CharField_raises in Hd as [m ->]. eauto. }
  destruct (Users.CharField "device_name" _ _) as [device_name|e] eqn:Hn.
  2:{ right. apply CharField_raises in Hn as [m ->]. eauto. }
  left. eexists _, raw_username, raw_email, raw_mobile, raw_password.
  cbn. by repeat split.
Qed.

End Registration.

Section RegistrationFlow.
Context `{Lib}.

Lemma register_invalid env request db f m :
  Users.registration_is_valid db request = Raise (ValidationError f m) →
  Users.register env request db
  = (mkResponse HTTP_400_BAD_REQUEST
       (JObj [("success", JBool false); ("errors", JObj [(f, JList [JStr m])])]),
     db).
Proof.
  intros Hinvalid.
  unfold Users.register, dispatch, Users.register_view, try_catch.
  unfold mbind, M_bind, get_db. cbv beta iota. by rewrite Hinvalid.
Qed.

Lemma registration_duplicate_invalid request db pk u :
  users db !! pk = Some u →
  (∃ raw, Users.reg_username request = Some raw ∧ User.username u = strip raw)
  ∨ (∃ raw, Users.reg_email request = Some raw
            ∧ User.email u = strip (lower (strip raw)))
  ∨ (∃ raw, Users.reg_mobile_number request = Some raw
            ∧ User.mobile_number u = drop_separators (strip raw)) →
  ∃ f m, Users.registration_is_valid db request = Raise (ValidationError f m).
Proof.
  intros Hu Hdup.
  destruct (registration_is_valid_cases db request)
    as [(data & ru & re & rm & rp & _ & Hru & Hre & Hrm & _ & Hvu & Hve & Hvm
         & _ & _ & _ & Hfu & Hfe & Hfm)|(f & m & Hinvalid)]; [|by eauto].
  exfalso. destruct Hdup as [(raw & Hraw & Heq)|[(raw & Hraw & Heq)|(raw & Hraw & Heq)]].
  - rewrite Hru in Hraw. injection Hraw as <-.
    pose proof (objects_exists_false _ _ Hfu pk u Hu) as Hno. cbn in Hno.
    apply String.eqb_neq in Hno. congruence.
  - rewrite Hre in Hraw. injection Hraw as <-.
    pose proof (objects_exists_false _ _ Hfe pk u Hu) as Hno. cbn in Hno.
    apply String.eqb_neq in Hno. congruence.
  - rewrite Hrm in Hraw. injection Hraw as <-.
    pose proof (objects_exists_false _ _ Hfm pk u Hu) as Hno. cbn in Hno.
    apply String.eqb_neq in Hno. congruence.
Qed.

(** X2.  A registration that names the username, the e-mail address or the
    mobile number of a user on record, each after the clean-up its validator
    applies, is answered with 400 and writes nothing. *)
Theorem register_duplicate_rejected env request db pk u :
  users db !! pk = Some u →
  (∃ raw, Users.reg_username request = Some raw ∧ User.username u = strip raw)
  ∨ (∃ raw, Users.reg_email request = Some raw
            ∧ User.email u = strip (lower (strip raw)))
  ∨ (∃ raw, Users.reg_mobile_number request = Some raw
            ∧ User.mobile_number u = drop_separators (strip raw)) →
  status (Users.register env request db).1 = HTTP_400_BAD_REQUEST
  ∧ (Users.register env request db).2 = db.
Proof.
  intros Hu Hdup.
  destruct (registration_duplicate_invalid request db pk u Hu Hdup)
    as (f & m & Hinvalid).
  by rewrite (register_invalid env request db f m Hinvalid).
Qed.

Lemma User_insert_fresh (pk : UUID) (row : User.t) (db : Db) :
  users db !! pk = None →
  objects_exists (λ u, String.eqb (User.username u) (User.username row))
    (users db) = false →
  objects_exists (λ u, String.eqb (User.email u) (User.email row))
    (users db) = false →
  objects_exists (λ u, String.eqb (User.mobile_number u) (User.mobile_number row))
    (users db) = false →
  Users.User_insert pk row db = (Ok tt, with_users (<[pk := row]> (users db)) db).
Proof.
  intros Hnew Hu He Hm.
  unfold Users.User_insert, mbind, M_bind, get_db, raise, put_db.
  cbv beta iota. rewrite Hnew, Hu, He, Hm.
  rewrite bool_decide_eq_false_2; [done|]. by intros [? ?].
Qed.

(** X27.  [register] has no transaction around its writes.  A registration
    that passes the validation and names a [device_id] on record is
    answered 500; the devices are as they were, yet the user row with its
    token is on record, so that a second registration with the same
    username is answered 400, whatever device it names. *)
Theorem register_keeps_user_without_device env env' request request' db
    validated_data pk d :
  Users.registration_is_valid db request = Ok validated_data →
  users db !! uuid4 env 0 = None →
  devices db !! pk = Some d →
  Device.device_id d = Users.val_device_id validated_data →
  Users.reg_username request' = Users.reg_username request →
  let after := Users.register env request db in
  status after.1 = HTTP_500_INTERNAL_SERVER_ERROR
  ∧ users after.2
    = <[uuid4 env 0 := Accounts.registered_user env validated_data]> (users db)
  ∧ devices after.2 = devices db
  ∧ status (Users.register env' request' after.2).1 = HTTP_400_BAD_REQUEST
  ∧ (Users.register env' request' after.2).2 = after.2.
Proof.
  intros Hvalid Hnew Hd Hid Hsame after.
  destruct (registration_is_valid_cases db request)
    as [(data & ru & re & rm & rp & Hvalid' & Hru & _ & _ & _ & Hvu & _ & _
         & _ & _ & _ & Hfu & Hfe & Hfm)|(f & m & Hinvalid)]; [|congruence].
  rewrite Hvalid in Hvalid'. injection Hvalid' as <-.
  assert (after
          = (mkResponse HTTP_500_INTERNAL_SERVER_ERROR
               (JObj [("success", JBool false);
                      ("error", JStr "An error occurred during registration")]),
             with_users
               (<[uuid4 env 0 := Accounts.registered_user env validated_data]>
                  (users db)) db)) as Hafter.
  { subst after.
    unfold Users.register, dispatch, Users.register_view, try_catch.
    unfold mbind at 1, M_bind at 1, get_db. cbv beta iota. rewrite Hvalid.
    unfold Users.registration_create, mbind, M_bind, get_db, put_db.
    match goal with
    | |- context [Users.User_insert ?p ?row db] =>
        rewrite (User_insert_fresh p row db Hnew Hfu Hfe Hfm)
    end.
    match goal with
    | |- context [Users.Device_objects_create env 1 ?row ?db1] =>
        destruct (Device_objects_create_cases env 1 row db1)
          as [(db' & _ & _ & _ & Hfresh)|[c ->]]
    end.
    - by destruct (Hfresh pk d Hd).
    - cbn. unfold Accounts.registered_user. by rewrite insert_insert_eq. }
  rewrite Hafter. cbn [fst snd status users devices with_users].
  split; [done|]. split; [done|]. split; [done|].
  match goal with
  | |- context [Users.register env' request' ?db1] =>
      destruct (registration_duplicate_invalid request' db1 (uuid4 env 0)
                  (Accounts.registered_user env validated_data))
        as (f & m & Hinvalid)
  end.
  - cbn. by rewrite lookup_insert_eq.
  - left. exists ru. split; [congruence|]. by rewrite <- Hvu.
  - by rewrite (register_invalid env' request' _ f m Hinvalid).
Qed.

(** What a registration answered with 201 has written. *)
Lemma register_created env request db :
  status (Users.register env request db).1 = HTTP_201_CREATED →
  ∃ validated_data,
    Users.registration_is_valid db request = Ok validated_data
    ∧ users db !! uuid4 env 0 = None
    ∧ users (Users.register env request db).2
      = <[uuid4 env 0 := Accounts.registered_user env validated_data]> (users db)
    ∧ devices (Users.register env request db).2
      = <[uuid4 env 1 := first_device env validated_data]> (devices db)
    ∧ documents (Users.register env request db).2 = documents db
    ∧ folders (Users.register env request db).2 = folders db.
Proof.
  intros Hstatus.
  destruct (Users.register env request db) as [response db'] eqn:Hreg.
  cbn [fst snd] in *. revert Hreg Hstatus.
  unfold Users.register, dispatch, Users.register_view, try_catch.
  unfold mbind, M_bind, get_db. cbv beta iota.
  destruct (Users.registration_is_valid db request) as [validated_data|e].
  2:{ destruct e; cbn; intros [= <- <-]; discriminate. }
  unfold Users.registration_create, mbind, M_bind, get_db, put_db.
  unfold Users.User_insert.
  unfold mbind, M_bind, get_db, put_db, raise. cbv beta iota.
  case_bool_decide as Hpk; [cbn; intros [= <- <-]; discriminate|].
  repeat (destruct (objects_exists _ (users db));
          [cbn; intros [= <- <-]; discriminate|]).
  cbv beta iota.
  match goal with
  | |- context [Users.Device_objects_create env 1 ?row ?db1] =>
      unfold Users.Device_objects_create, mbind, M_bind;
      destruct (Device_insert_cases (uuid4 env 1) row db1) as [(-> & _)|[c ->]];
      [|cbn; intros [= <- <-]; discriminate];
      pose proof (create_new_device_notification_frame env (uuid4 env 2) row true
        (with_devices (<[uuid4 env 1:=row]> (devices db1)) db1))
        as ((Hu & Hd & _ & Hf & Hdoc & _) & Hok);
      destruct (Signals.create_new_device_notification env (uuid4 env 2) row true
        (with_devices (<[uuid4 env 1:=row]> (devices db1)) db1)) as [r db2]
  end.
  cbn in Hu, Hd, Hf, Hdoc, Hok. subst r. cbn. intros [= <- <-] _.
  exists validated_data. rewrite Hu, Hd, Hf, Hdoc.
  split; [done|]. split; [by apply eq_None_not_Some|].
  split; [|done].
  unfold Accounts.registered_user. by rewrite insert_insert_eq.
Qed.

End RegistrationFlow.

(** A witness for X2: the registration of [carol] carries the username
    [dave] is on record with. *)
Lemma register_duplicate_rejected_witness :
  status (@Users.register sample_lib sample_env carol_registration
            db_with_dave).1 = HTTP_400_BAD_REQUEST
  ∧ (@Users.register sample_lib sample_env carol_registration db_with_dave).2
    = db_with_dave.
Proof.
  apply (@register_duplicate_rejected sample_lib sample_env carol_registration
           db_with_dave 3 dave); [vm_compute; reflexivity|].
  left. exists "00112233445566778899aabbccddee". split; reflexivity.
Defined.

(** A witness for X27: [carol] registers from the device of [alice], then
    from her own. *)
Lemma register_keeps_user_without_device_witness :
  @Users.registration_is_valid sample_lib db_with_device carol_registration
  = Ok carol_data
  ∧ status (@Users.register sample_lib sample_env carol_registration
              db_with_device).1 = HTTP_500_INTERNAL_SERVER_ERROR
  ∧ status (@Users.register sample_lib sample_env carol_retry
              (@Users.register sample_lib sample_env carol_registration
                 db_with_device).2).1 = HTTP_400_BAD_REQUEST.
Proof.
  assert (@Users.registration_is_valid sample_lib db_with_device
            carol_registration = Ok carol_data) as Hvalid
    by (vm_compute; reflexivity).
  split; [exact Hvalid|].
  destruct (@register_keeps_user_without_device sample_lib sample_env sample_env
              carol_registration carol_retry db_with_device carol_data 11
              alice_laptop Hvalid eq_refl eq_refl eq_refl eq_refl)
    as (H500 & _ & _ & H400 & _).
  split; [exact H500|exact H400].
Defined.

Section Verification.
Context `{Lib}.

Lemma CharField_unbounded name raw :
  strip raw ≠ "" → Users.CharField name None (Some raw) = Ok (strip raw).
Proof.
  intros Hne. unfold Users.CharField.
  by destruct (String.eqb_spec (strip raw) "").
Qed.

Lemma verify_email_found token db pk u :
  token ≠ "" → strip token ≠ "" →
  users db !! pk = Some u →
  User.email_verification_token u = Some (strip token) →
  (∀ pk' u', users db !! pk' = Some u' →
             User.email_verification_token u' = Some (strip token) → pk' = pk) →
  User.email_verified u = false →
  Accounts.verify_email (Some token) db
  = (mkResponse HTTP_200_OK
       (JObj [("success", JBool true);
              ("message", JStr "Email verified successfully! You can now login.")]),
     with_users (<[pk := Accounts.set_verified u]> (users db)) db).
Proof.
  intros Ht Hs Hu Htok Huniq Hunverified.
  unfold Accounts.verify_email, dispatch, Accounts.verify_email_view.
  rewrite falsy_nonempty by done.
  unfold try_catch, mbind at 1, M_bind at 1, get_db. cbv beta iota.
  rewrite CharField_unbounded by done. cbn [mbind result_bind].
  unfold Accounts.validate_token.
  rewrite (objects_first_unique _ _ pk u); [|done|by apply bool_decide_eq_true|].
  2:{ intros pk' u' Hu' Hm. apply bool_decide_eq_true in Hm. eauto. }
  rewrite Hunverified. cbn.
  do 2 f_equal. apply map_eq. intros i.
  destruct (decide (i = pk)) as [->|Hne].
  - by rewrite lookup_alter_eq, lookup_insert_eq, Hu.
  - by rewrite lookup_alter_ne, lookup_insert_ne.
Qed.

Lemma verify_email_unknown token db :
  token ≠ "" →
  (∀ pk u, users db !! pk = Some u →
           User.email_verification_token u ≠ Some (strip token)) →
  ∃ m, Accounts.verify_email (Some token) db
       = (mkResponse HTTP_400_BAD_REQUEST (JObj [("error", JStr m)]), db).
Proof.
  intros Ht Hnone.
  unfold Accounts.verify_email, dispatch, Accounts.verify_email_view.
  rewrite falsy_nonempty by done.
  unfold try_catch, mbind at 1, M_bind at 1, get_db. cbv beta iota.
  destruct (Users.CharField "token" None (Some token)) as [value|e] eqn:Hc.
  - apply CharField_value in Hc as ->. cbn [mbind result_bind].
    unfold Accounts.validate_token. rewrite objects_first_none; [by eauto|].
    intros pk u Hu. apply bool_decide_eq_false. eauto.
  - apply CharField_raises in Hc as [m ->]. by eauto.
Qed.

(** X3.  A verification token works once.  When one unverified user holds
    the token, [verify_email] is answered with 200, sets [email_verified]
    of that user, clears the token and changes no other row; the same token
    sent again is answered with 400 and changes nothing. *)
Theorem verify_email_once token db pk u :
  token ≠ "" → strip token ≠ "" →
  users db !! pk = Some u →
  User.email_verification_token u = Some (strip token) →
  (∀ pk' u', users db !! pk' = Some u' →
             User.email_verification_token u' = Some (strip token) → pk' = pk) →
  User.email_verified u = false →
  let db' := (Accounts.verify_email (Some token) db).2 in
  status (Accounts.verify_email (Some token) db).1 = HTTP_200_OK
  ∧ db' = with_users (<[pk := Accounts.set_verified u]> (users db)) db
  ∧ User.email_verified (Accounts.set_verified u) = true
  ∧ User.email_verification_token (Accounts.set_verified u) = None
  ∧ User.password (Accounts.set_verified u) = User.password u
  ∧ status (Accounts.verify_email (Some token) db').1 = HTTP_400_BAD_REQUEST
  ∧ (Accounts.verify_email (Some token) db').2 = db'.
Proof.
  intros Ht Hs Hu Htok Huniq Hunverified db'. subst db'.
  rewrite (verify_email_found token db pk u) by done.
  cbn [fst snd]. do 5 (split; [done|]).
  match goal with
  | |- context [Accounts.verify_email (Some token) ?db1] =>
      destruct (verify_email_unknown token db1 Ht) as [m ->]; [|done]
  end.
  intros pk' u' Hu'. cbn in Hu'.
  apply lookup_insert_Some in Hu' as [[<- <-]|[Hne Hu']]; [done|].
  intros Htok'. destruct Hne. symmetry. eauto.
Qed.

End Verification.

(** A witness for X3: [dave] follows the link of his mail twice. *)
Lemma verify_email_once_witness :
  let db' := (@Accounts.verify_email sample_lib (Some "tok-9") db_with_dave).2 in
  status (@Accounts.verify_email sample_lib (Some "tok-9") db_with_dave).1
  = HTTP_200_OK
  ∧ db' = with_users (<[3%N := Accounts.set_verified dave]> (users db_with_dave))
            db_with_dave
  ∧ User.email_verified (Accounts.set_verified dave) = true
  ∧ User.email_verification_token (Accounts.set_verified dave) = None
  ∧ User.password (Accounts.set_verified dave) = User.password dave
  ∧ status (@Accounts.verify_email sample_lib (Some "tok-9") db').1
    = HTTP_400_BAD_REQUEST
  ∧ (@Accounts.verify_email sample_lib (Some "tok-9") db').2 = db'.
Proof.
  apply (@verify_email_once sample_lib "tok-9" db_with_dave 3 dave);
    [discriminate|discriminate|vm_compute; reflexivity|reflexivity| |reflexivity].
  intros pk' u' Hrow Htoken.
  change (users db_with_dave) with (<[3%N := dave]> sample_users) in Hrow.
  apply lookup_insert_Some in Hrow as [[<- _]|[_ Hrow]]; [done|].
  unfold sample_users in Hrow.
  apply lookup_insert_Some in Hrow as [[_ <-]|[_ Hrow]]; [discriminate|].
  apply lookup_singleton_Some in Hrow as [_ <-]. discriminate.
Defined.

Section Flow.
Context `{Lib}.

Lemma length_nonempty (s : string) (n : nat) :
  String.length s = S n → s ≠ "".
Proof. by intros Hlen ->. Qed.

(** The row of a freshly registered user is the one its username finds. *)
Lemma objects_get_registered (table : gmap UUID User.t) pk u :
  objects_exists (λ u', String.eqb (User.username u') (User.username u)) table
  = false →
  objects_get (λ u', String.eqb (User.username u') (User.username u))
    (<[pk := u]> table) = Ok (pk, u).
Proof.
  intros Hfree. apply objects_get_unique.
  - by rewrite lookup_insert_eq.
  - apply String.eqb_refl.
  - intros pk' u' [[<- _]|[_ Hu']]%lookup_insert_Some Hname; [done|].
    by rewrite (objects_exists_false _ _ Hfree pk' u' Hu') in Hname.
Qed.

(** X4.  Registration does not log in.  After a registration answered with
    201, a login with the username and the password it stored finds the
    account and is answered with the 403 of an unverified address, leaving
    the tables as the registration left them. *)
Theorem register_then_login_forbidden env env0 request db :
  status (Users.register env request db).1 = HTTP_201_CREATED →
  ∃ validated_data,
    Users.registration_is_valid db request = Ok validated_data
    ∧ Users.login env0
        (Users.mkLoginRequest (Some (Users.val_username validated_data))
           (Some (Users.val_password validated_data)))
        (Users.register env request db).2
      = (Users.email_not_verified, (Users.register env request db).2).
Proof.
  intros Hcreated.
  destruct (register_created env request db Hcreated)
    as (data & Hvalid & Hnew & Husers & _).
  exists data. split; [done|].
  destruct (registration_is_valid_cases db request)
    as [(data' & ? & ? & ? & ? & Hvalid' & _ & _ & _ & _ & _ & _ & _ & _
         & Hlu & Hlp & Hfu & _)|(f & m & Hinvalid)]; [|congruence].
  rewrite Hvalid in Hvalid'. injection Hvalid' as <-.
  rewrite login_with_credentials by (eapply length_nonempty; eassumption).
  rewrite Husers.
  rewrite (objects_get_registered (users db) (uuid4 env 0)
             (Accounts.registered_user env data) Hfu).
  change (Users.check_password (Accounts.registered_user env data)
            (Users.val_password data))
    with (Users.check_password
            (Users.set_password (Users.val_password data)
               (User.mk (Users.val_username data) (Users.val_email data)
                  (Users.val_mobile_number data) ""
                  (Users.val_recovery_key_hash data) None "local" false None
                  "FREE" 0 None))
            (Users.val_password data)).
  by rewrite set_password_then_check_any.
Qed.

(** X5.  Verification opens the account.  After a registration answered
    with 201 whose token no other user holds, [verify_email] with that token
    is answered with 200, and the login that was refused before is answered
    with 200 and the token pair of the new user. *)
Theorem verify_email_enables_login env env0 request db :
  status (Users.register env request db).1 = HTTP_201_CREATED →
  token_urlsafe env ≠ "" → strip (token_urlsafe env) = token_urlsafe env →
  (∀ pk u, users db !! pk = Some u →
           User.email_verification_token u ≠ Some (token_urlsafe env)) →
  ∃ validated_data,
    Users.registration_is_valid db request = Ok validated_data
    ∧ status (Accounts.verify_email (Some (token_urlsafe env))
                (Users.register env request db).2).1 = HTTP_200_OK
    ∧ (Users.login env0
         (Users.mkLoginRequest (Some (Users.val_username validated_data))
            (Some (Users.val_password validated_data)))
         (Accounts.verify_email (Some (token_urlsafe env))
            (Users.register env request db).2).2).1
      = mkResponse HTTP_200_OK
          (JObj [("access", JStr (RefreshToken_for_user (uuid4 env 0)).1);
                 ("refresh", JStr (RefreshToken_for_user (uuid4 env 0)).2)]).
Proof.
  intros Hcreated Htoken Hstrip Hfresh.
  destruct (register_created env request db Hcreated)
    as (data & Hvalid & Hnew & Husers & _).
  exists data. split; [done|].
  destruct (registration_is_valid_cases db request)
    as [(data' & ? & ? & ? & ? & Hvalid' & _ & _ & _ & _ & _ & _ & _ & _
         & Hlu & Hlp & Hfu & _)|(f & m & Hinvalid)]; [|congruence].
  rewrite Hvalid in Hvalid'. injection Hvalid' as <-.
  rewrite (verify_email_found (token_urlsafe env) _ (uuid4 env 0)
             (Accounts.registered_user env data)).
  - split; [done|]. cbn [fst snd].
    rewrite login_with_credentials by (eapply length_nonempty; eassumption).
    cbn [users with_users]. rewrite Husers, insert_insert_eq.
    rewrite (objects_get_registered (users db) (uuid4 env 0)
               (Accounts.set_verified (Accounts.registered_user env data)) Hfu).
    change (Users.check_password
              (Accounts.set_verified (Accounts.registered_user env data))
              (Users.val_password data))
      with (Users.check_password
              (Users.set_password (Users.val_password data)
                 (User.mk (Users.val_username data) (Users.val_email data)
                    (Users.val_mobile_number data) ""
                    (Users.val_recovery_key_hash data) None "local" false None
                    "FREE" 0 None))
              (Users.val_password data)).
    by rewrite set_password_then_check_any.
  - done.
  - by rewrite Hstrip.
  - by rewrite Husers, lookup_insert_eq.
  - by rewrite Hstrip.
  - intros pk' u'. rewrite Husers, Hstrip.
    intros [[<- _]|[_ Hu']]%lookup_insert_Some Htok; [done|].
    by destruct (Hfresh pk' u' Hu').
  - done.
Qed.

End Flow.

(** A witness for X4: the registration of [carol] on the sample tables. *)
Lemma register_then_login_forbidden_witness :
  status (@Users.register sample_lib sample_env carol_registration sample_db).1
  = HTTP_201_CREATED
  ∧ status (@Users.login sample_lib sample_env
              (Users.mkLoginRequest (Some "00112233445566778899aabbccddee")
                 (Some digest_b))
              (@Users.register sample_lib sample_env carol_registration sample_db).2).1
    = HTTP_403_FORBIDDEN.
Proof.
  assert (status (@Users.register sample_lib sample_env carol_registration
                    sample_db).1 = HTTP_201_CREATED) as Hcreated by reflexivity.
  split; [exact Hcreated|].
  destruct (@register_then_login_forbidden sample_lib sample_env sample_env
              carol_registration sample_db Hcreated) as (data & Hvalid & Hlogin).
  vm_compute in Hvalid. injection Hvalid as <-.
  exact (f_equal (λ r : Response * Db, status r.1) Hlogin).
Defined.

(** A witness for X5: the same registration, verified with its token. *)
Lemma verify_email_enables_login_witness :
  status (@Users.register sample_lib sample_env carol_registration sample_db).1
  = HTTP_201_CREATED
  ∧ token_urlsafe sample_env ≠ ""
  ∧ status (@Users.login sample_lib sample_env
              (Users.mkLoginRequest (Some "00112233445566778899aabbccddee")
                 (Some digest_b))
              (@Accounts.verify_email sample_lib (Some (token_urlsafe sample_env))
                 (@Users.register sample_lib sample_env carol_registration
                    sample_db).2).2).1
    = HTTP_200_OK.
Proof.
  assert (status (@Users.register sample_lib sample_env carol_registration
                    sample_db).1 = HTTP_201_CREATED) as Hcreated by reflexivity.
  assert (token_urlsafe sample_env ≠ "") as Htoken by discriminate.
  split; [exact Hcreated|split; [exact Htoken|]].
  destruct (@verify_email_enables_login sample_lib sample_env sample_env
              carol_registration sample_db Hcreated Htoken eq_refl)
    as (data & Hvalid & _ & Hlogin).
  - intros pk u Hu Htok. cbn in Hu.
    unfold sample_users in Hu.
    apply lookup_insert_Some in Hu as [[_ <-]|[_ Hu]]; [discriminate Htok|].
    apply lookup_singleton_Some in Hu as [_ <-]. discriminate Htok.
  - vm_compute in Hvalid. injection Hvalid as <-.
    exact (f_equal status Hlogin).
Defined.

(** ** vault: the folder serializer *)

Section FolderSerializer.
Context `{Lib}.

Lemma category_field_cases db partial v :
  (Folders.category_field db partial v = Ok v
   ∧ (v = Absent ∧ partial = true
      ∨ ∃ pk, v = Given pk ∧ is_Some (categories db !! pk)))
  ∨ ∃ m, Folders.category_field db partial v = Raise (ValidationError "category" m).
Proof.
  unfold Folders.category_field. destruct v as [| |pk].
  - destruct partial; [left; by eauto|right; by eauto].
  - right. by eauto.
  - destruct (categories db !! pk) eqn:Hc; [left|right; by eauto].
    split; [done|]. right. exists pk. by rewrite Hc.
Qed.

Lemma encrypted_name_field_cases partial v :
  (∃ v', Folders.encrypted_name_field partial v = Ok v'
         ∧ (v = None ∧ v' = None ∧ partial = true
            ∨ ∃ raw, v = Some raw ∧ v' = Some (strip raw) ∧ strip raw ≠ ""))
  ∨ ∃ m, Folders.encrypted_name_field partial v
         = Raise (ValidationError "encrypted_name" m).
Proof.
  unfold Folders.encrypted_name_field. destruct v as [raw|].
  - unfold mbind, result_bind.
    destruct (Users.CharField "encrypted_name" None (Some raw)) as [value|e] eqn:Hc.
    + apply CharField_value in Hc as ->. unfold Folders.validate_encrypted_name.
      destruct (String.eqb_spec (strip raw) ""); cbn [orb]; [right; by eauto|].
      destruct (String.eqb (strip (strip raw)) ""); [right; by eauto|].
      left. eexists. split; [done|]. right. by eauto.
    + right. apply CharField_raises in Hc as [m ->]. by eauto.
  - destruct partial; [left|right; by eauto]. eexists. split; [done|]. by left.
Qed.

Lemma short_field_cases name max_length v :
  (∃ v', Folders.short_field name max_length v = Ok v')
  ∨ ∃ m, Folders.short_field name max_length v = Raise (ValidationError name m).
Proof.
  unfold Folders.short_field. destruct v as [raw|]; [|left; by eauto].
  unfold mbind, result_bind.
  destruct (Users.CharField name (Some max_length) (Some raw)) as [value|e] eqn:Hc.
  - left. by eauto.
  - right. apply CharField_raises in Hc as [m ->]. by eauto.
Qed.

(** What the folder serializer accepts: when [is_valid] returns, the parent
    it was given is a folder of the user, in the category of the request if
    the request names one, and is not the folder that is updated. *)
Lemma folder_is_valid_cases db user instance partial data :
  (∃ validated,
     Folders.is_valid db user instance partial data = Ok validated
     ∧ Folders.category validated = Folders.category data
     ∧ Folders.parent validated = Folders.parent data
     ∧ (partial = false →
        ∃ c name, Folders.category validated = Given c
                  ∧ Folders.encrypted_name validated = Some name)
     ∧ ∀ p, Folders.parent data = Given p →
         ∃ row, folders db !! p = Some row ∧ Folder.user row = user
                ∧ instance ≠ Some p
                ∧ ∀ c, Folders.category data = Given c → Folder.category row = c)
  ∨ ∃ f m, Folders.is_valid db user instance partial data
           = Raise (ValidationError f m).
Proof.
  unfold Folders.is_valid, mbind, result_bind.
  destruct (category_field_cases db partial (Folders.category data))
    as [(-> & Hcat)|[m ->]]; [|right; by eauto].
  destruct (encrypted_name_field_cases partial (Folders.encrypted_name data))
    as [(name & -> & Hname)|[m ->]]; [|right; by eauto].
  destruct (related_field_cases "parent" (folders db) (Folders.parent data))
    as [Hparent|[m ->]]; [|right; by eauto].
  rewrite Hparent.
  destruct (short_field_cases "color" 7 (Folders.color data))
    as [(color & ->)|[m ->]]; [|right; by eauto].
  destruct (short_field_cases "icon" 10 (Folders.icon data))
    as [(icon & ->)|[m ->]]; [|right; by eauto].
  unfold Folders.validate. cbn [Folders.parent Folders.category].
  assert (partial = false →
          ∃ c0 name0, Folders.category data = Given c0 ∧ name = Some name0)
    as Hfull.
  { intros ->. destruct Hcat as [[_ ?]|(c0 & Hc0 & _)]; [done|].
    destruct Hname as [(_ & _ & ?)|(raw & _ & -> & _)]; [done|]. by eauto. }
  destruct (Folders.parent data) as [| |p] eqn:Hp; cbn [truthy].
  - left. eexists. split; [done|]. repeat split; [|done].
    intros Hpartial. destruct (Hfull Hpartial) as (c0 & n0 & ? & ?). eauto.
  - left. eexists. split; [done|]. repeat split; [|done].
    intros Hpartial. destruct (Hfull Hpartial) as (c0 & n0 & ? & ?). eauto.
  - unfold Vault.related_field in Hparent.
    destruct (folders db !! p) as [row|] eqn:Hrow; [|discriminate Hparent].
    destruct (N.eqb_spec (Folder.user row) user) as [Huser|]; cbn [negb];
      [|right; by eauto].
    destruct (present (Folders.category data)
              && negb (bool_decide (Some (Folder.category row)
                                    = truthy (Folders.category data)))) eqn:Hc;
      [right; by eauto|].
    destruct (bool_decide (instance = Some p)) eqn:Hself; [right; by eauto|].
    apply bool_decide_eq_false in Hself.
    left. eexists. split; [done|]. repeat split.
    + intros Hpartial. destruct (Hfull Hpartial) as (c0 & n0 & ? & ?). eauto.
    + intros p' [= <-]. exists row. repeat split; [done..|].
      intros c Hgiven. rewrite Hgiven in Hc. cbn in Hc.
      apply negb_false_iff, bool_decide_eq_true in Hc. congruence.
Qed.

End FolderSerializer.

(** ** vault: the recursive count of a folder *)

Section DocumentCount.
Context `{Lib}.
Implicit Types (db : Db) (table : gmap UUID Folder.t).

Lemma elem_of_subfolders db pk c :
  c ∈ Folders.subfolders db pk
  ↔ ∃ row, folders db !! c = Some row ∧ Folder.parent row = Some pk.
Proof.
  unfold Folders.subfolders. rewrite list_elem_of_fmap. split.
  - intros ([c' row] & -> & Hin). apply elem_of_map_to_list in Hin.
    apply map_lookup_filter_Some in Hin as [Hrow Hp]. by eauto.
  - intros (row & Hrow & Hp). exists (c, row). split; [done|].
    apply elem_of_map_to_list. by apply map_lookup_filter_Some.
Qed.

Lemma foldl_count_None (f : UUID → option Z) l acc :
  foldl (λ acc subfolder,
           count ← acc; below ← f subfolder; Some (count + below)) acc l = None
  ↔ acc = None ∨ ∃ c, c ∈ l ∧ f c = None.
Proof.
  revert acc. induction l as [|x l IH]; intros acc; cbn.
  - split; [by left|]. intros [?|(c & Hin & _)]; [done|].
    by apply elem_of_nil in Hin.
  - rewrite IH. split.
    + intros [Hacc|(c & Hin & Hc)].
      * destruct acc as [a|]; [|by left]. cbn in Hacc.
        destruct (f x) eqn:Hx; [discriminate|].
        right. exists x. split; [apply elem_of_cons; by left|done].
      * right. exists c. split; [apply elem_of_cons; by right|done].
    + intros [->|(c & Hin & Hc)]; [by left|].
      apply elem_of_cons in Hin as [->|Hin].
      * left. rewrite Hc. by destruct acc.
      * right. by eauto.
Qed.

Lemma document_count_None fuel db pk :
  Folders.document_count (S fuel) db pk = None
  ↔ ∃ c, c ∈ Folders.subfolders db pk ∧ Folders.document_count fuel db c = None.
Proof.
  cbn [Folders.document_count]. rewrite foldl_count_None.
  split; [intros [?|?]; [discriminate|done]|by right].
Qed.

Lemma descendant_first table root g :
  descendant table root g →
  (∃ row, table !! g = Some row ∧ Folder.parent row = Some root)
  ∨ ∃ c crow, table !! c = Some crow ∧ Folder.parent crow = Some root
              ∧ descendant table c g.
Proof.
  induction 1 as [g row Hrow Hp|h g row _ IH Hrow Hp]; [left; by eauto|].
  right. destruct IH as [(hrow & Hh & Hhp)|(c & crow & Hc & Hcp & Hch)].
  - exists h, hrow. repeat split; [done..|]. by eapply descendant_child.
  - exists c, crow. repeat split; [done..|]. by eapply descendant_step.
Qed.

Lemma descendant_trans table a b c :
  descendant table a b → descendant table b c → descendant table a c.
Proof.
  intros Hab Hbc. induction Hbc as [g row Hrow Hp|h g row _ IH Hrow Hp].
  - by eapply descendant_step.
  - by eapply descendant_step.
Qed.

(** A folder on a parent cycle has a subfolder on a parent cycle. *)
Lemma cycle_subfolder table g :
  descendant table g g →
  ∃ c row, table !! c = Some row ∧ Folder.parent row = Some g
           ∧ descendant table c c.
Proof.
  intros Hcycle.
  destruct (descendant_first table g g Hcycle)
    as [(row & Hrow & Hp)|(c & crow & Hc & Hcp & Hcg)].
  - by eauto.
  - exists c, crow. repeat split; [done..|]. by eapply descendant_step.
Qed.

Lemma document_count_cycle fuel db g :
  descendant (folders db) g g → Folders.document_count fuel db g = None.
Proof.
  revert g. induction fuel as [|fuel IH]; intros g Hcycle; [done|].
  apply document_count_None.
  destruct (cycle_subfolder _ g Hcycle) as (c & row & Hrow & Hp & Hc).
  exists c. split; [apply elem_of_subfolders; by eauto|by apply IH].
Qed.

Lemma document_count_below db pk g :
  descendant (folders db) pk g →
  (∀ fuel, Folders.document_count fuel db g = None) →
  ∀ fuel, Folders.document_count fuel db pk = None.
Proof.
  induction 1 as [g row Hrow Hp|h g row _ IH Hrow Hp]; intros Hg.
  - intros [|fuel]; [done|]. apply document_count_None.
    exists g. split; [apply elem_of_subfolders; by eauto|done].
  - apply IH. intros [|fuel]; [done|]. apply document_count_None.
    exists g. split; [apply elem_of_subfolders; by eauto|done].
Qed.

Lemma elem_of_collected db pk g :
  g ∈ collected db pk ↔ g = pk ∨ descendant (folders db) pk g.
Proof.
  split; [|apply collect_complete].
  intros Hin. eapply collect_sound; [|done|exact Hin].
  intros x ->%elem_of_singleton. by left.
Qed.

Lemma collected_size db pk : (size (collected db pk) ≤ S (size (folders db)))%nat.
Proof.
  transitivity (size ({[pk]} ∪ dom (folders db) : gset UUID)).
  - apply subseteq_size. intros g [->|Hd]%elem_of_collected; [set_solver|].
    apply elem_of_union_r.
    destruct Hd as [? ? Hrow _|? ? ? _ Hrow _]; by eapply elem_of_dom_2.
  - rewrite size_union_alt, size_singleton, <- size_dom.
    apply le_n_S, subseteq_size. set_solver.
Qed.

Lemma document_count_acyclic fuel db pk :
  (∀ g, g = pk ∨ descendant (folders db) pk g → ¬ descendant (folders db) g g) →
  (size (collected db pk) ≤ fuel)%nat →
  is_Some (Folders.document_count fuel db pk).
Proof.
  revert pk. induction fuel as [|fuel IH]; intros pk Hacyclic Hsize.
  - assert (pk ∈ collected db pk) as Hin by (apply elem_of_collected; by left).
    assert (size (collected db pk) ≠ 0%nat); [|lia].
    apply size_non_empty_iff. set_solver.
  - destruct (Folders.document_count (S fuel) db pk) eqn:Hcount; [by eauto|].
    apply document_count_None in Hcount as (c & Hc & Hnone).
    apply elem_of_subfolders in Hc as (row & Hrow & Hp).
    assert (descendant (folders db) pk c) as Hpc by by eapply descendant_child.
    destruct (IH c) as [z Hz]; [| |congruence].
    + intros g [->|Hg]; apply Hacyclic; [by right|].
      right. by eapply descendant_trans.
    + assert (collected db c ⊂ collected db pk) as Hlt.
      { split.
        - intros g [->|Hg]%elem_of_collected; apply elem_of_collected; right;
            [done|by eapply descendant_trans].
        - intros Hsub.
          assert (pk ∈ collected db c) as Hin
            by (apply Hsub, elem_of_collected; by left).
          apply elem_of_collected in Hin as [->|Hcp].
          + by apply (Hacyclic c); [left|].
          + apply (Hacyclic pk); [by left|]. by eapply descendant_trans. }
      apply subset_size in Hlt. lia.
Qed.

Lemma live_documents_singleton db pk :
  objects_count
    (λ d, bool_decide (Document.folder d = Some pk)
          && negb (Document.is_deleted d)) (documents db)
  = live_documents db {[pk]}.
Proof.
  unfold live_documents, objects_count. do 2 f_equal.
  apply map_filter_ext. intros i d _. cbn. unfold in_folders.
  destruct (Document.is_deleted d); cbn; [by rewrite andb_false_r|].
  rewrite andb_true_r. destruct (Document.folder d) as [g|]; cbn.
  - rewrite !bool_decide_eq_true. set_solver.
  - by rewrite bool_decide_eq_true.
Qed.

Lemma live_documents_union db (X Y : gset UUID) :
  X ## Y →
  live_documents db (X ∪ Y) = live_documents db X + live_documents db Y.
Proof.
  intros Hdisjoint. unfold live_documents, objects_count.
  rewrite <- Nat2Z.inj_add, <- !size_dom, <- size_union.
  - do 2 f_equal. apply set_eq. intros i.
    rewrite elem_of_union, !elem_of_dom. unfold is_Some.
    setoid_rewrite map_lookup_filter_Some. cbn. unfold in_folders. split.
    + intros (d & Hd & Hin). apply andb_true_iff in Hin as [Hlive Hin].
      destruct (Document.folder d) as [g|] eqn:Hg; [|done].
      apply bool_decide_eq_true in Hin. apply elem_of_union in Hin as [Hin|Hin].
      * left. exists d. split; [done|].
        by rewrite Hlive, Hg, bool_decide_eq_true_2.
      * right. exists d. split; [done|].
        by rewrite Hlive, Hg, bool_decide_eq_true_2.
    + intros [(d & Hd & Hin)|(d & Hd & Hin)]; exists d; (split; [done|]);
        apply andb_true_iff in Hin as [Hlive Hin];
        destruct (Document.folder d) as [g|]; try done;
        apply bool_decide_eq_true in Hin;
        rewrite Hlive, bool_decide_eq_true_2; set_solver.
  - intros i. rewrite !elem_of_dom. unfold is_Some.
    setoid_rewrite map_lookup_filter_Some. cbn. unfold in_folders.
    intros (d & Hd & Hin) (d' & Hd' & Hin').
    rewrite Hd in Hd'. injection Hd' as <-.
    apply andb_true_iff in Hin as [_ Hin].
    apply andb_true_iff in Hin' as [_ Hin'].
    destruct (Document.folder d) as [g|]; [|done].
    apply bool_decide_eq_true in Hin, Hin'. set_solver.
Qed.

Lemma descendant_last table a g row :
  descendant table a g → table !! g = Some row →
  ∃ p, Folder.parent row = Some p ∧ (a = p ∨ descendant table a p).
Proof.
  intros Hag Hrow.
  destruct Hag as [g row' Hrow' Hp|h g row' Hah Hrow' Hp];
    rewrite Hrow in Hrow'; injection Hrow' as <-; by eauto.
Qed.

(** Every folder has one parent: its ancestors form a chain. *)
Lemma descendant_chain table a b g :
  descendant table a g → descendant table b g →
  a = b ∨ descendant table a b ∨ descendant table b a.
Proof.
  intros Hag. revert b.
  induction Hag as [g row Hrow Hp|h g row Hah IH Hrow Hp]; intros b Hbg.
  - destruct (descendant_last table b g row Hbg Hrow) as (p & Hp' & Hcases).
    rewrite Hp in Hp'. injection Hp' as <-.
    destruct Hcases as [->|Hba]; auto.
  - destruct (descendant_last table b g row Hbg Hrow) as (p & Hp' & Hcases).
    rewrite Hp in Hp'. injection Hp' as <-.
    destruct Hcases as [->|Hbh]; auto.
Qed.

Lemma sibling_below table pk a c row_a row_c :
  table !! a = Some row_a → Folder.parent row_a = Some pk →
  table !! c = Some row_c → Folder.parent row_c = Some pk →
  descendant table a c → descendant table pk pk.
Proof.
  intros Ha Hpa Hc Hpc Hac.
  destruct (descendant_last table a c row_c Hac Hc) as (p & Hp & Hcases).
  rewrite Hpc in Hp. injection Hp as <-.
  destruct Hcases as [->|Hapk].
  - by eapply descendant_child.
  - eapply descendant_trans; [|exact Hapk]. by eapply descendant_child.
Qed.

Lemma collected_subfolders db pk :
  collected db pk
  = {[pk]} ∪ ⋃ (collected db <$> Folders.subfolders db pk).
Proof.
  apply set_eq. intros g.
  rewrite elem_of_union, elem_of_singleton, elem_of_union_list, elem_of_collected.
  split.
  - intros [->|Hg]; [by left|]. right.
    destruct (descendant_first _ pk g Hg)
      as [(row & Hrow & Hp)|(c & crow & Hc & Hcp & Hcg)].
    + exists (collected db g). split.
      * apply list_elem_of_fmap. exists g. split; [done|].
        apply elem_of_subfolders. by eauto.
      * apply elem_of_collected. by left.
    + exists (collected db c). split.
      * apply list_elem_of_fmap. exists c. split; [done|].
        apply elem_of_subfolders. by eauto.
      * apply elem_of_collected. by right.
  - intros [->|(X & HX & Hg)]; [by left|]. right.
    apply list_elem_of_fmap in HX as (c & -> & Hc).
    apply elem_of_subfolders in Hc as (row & Hrow & Hp).
    apply elem_of_collected in Hg as [->|Hcg].
    + by eapply descendant_child.
    + eapply descendant_trans; [|exact Hcg]. by eapply descendant_child.
Qed.

Lemma subfolders_NoDup db pk : NoDup (Folders.subfolders db pk).
Proof. unfold Folders.subfolders. apply NoDup_fst_map_to_list. Qed.

Lemma foldl_count_Some db (f : UUID → option Z) l (X : gset UUID) :
  NoDup l →
  (∀ c, c ∈ l → f c = Some (live_documents db (collected db c))) →
  (∀ c, c ∈ l → X ## collected db c) →
  (∀ c c', c ∈ l → c' ∈ l → c ≠ c' → collected db c ## collected db c') →
  foldl (λ acc subfolder,
           count ← acc; below ← f subfolder; Some (count + below))
    (Some (live_documents db X)) l
  = Some (live_documents db (X ∪ ⋃ (collected db <$> l))).
Proof.
  revert X. induction l as [|c l IH]; intros X Hnodup Hf HX Hpair.
  - cbn. do 2 f_equal. set_solver.
  - apply NoDup_cons in Hnodup as [Hc Hnodup]. cbn [foldl].
    rewrite (Hf c) by (apply elem_of_cons; by left). cbn [mbind option_bind].
    rewrite <- live_documents_union by (apply HX, elem_of_cons; by left).
    rewrite IH.
    + do 2 f_equal. cbn. set_solver.
    + done.
    + intros c' Hc'. apply Hf, elem_of_cons. by right.
    + intros c' Hc'. apply disjoint_union_l. split.
      * apply HX, elem_of_cons. by right.
      * apply Hpair; [apply elem_of_cons; by left|apply elem_of_cons; by right|].
        intros ->. done.
    + intros c1 c2 H1 H2. apply Hpair; apply elem_of_cons; by right.
Qed.

Lemma document_count_Some_acyclic fuel db pk z :
  Folders.document_count fuel db pk = Some z →
  ∀ g, g = pk ∨ descendant (folders db) pk g → ¬ descendant (folders db) g g.
Proof.
  intros Hz g Hg Hcycle.
  assert (∀ fuel, Folders.document_count fuel db pk = None) as Hnone.
  { destruct Hg as [->|Hg].
    - intros fuel'. by apply document_count_cycle.
    - apply (document_count_below db pk g Hg).
      intros fuel'. by apply document_count_cycle. }
  rewrite Hnone in Hz. discriminate.
Qed.

(** X6.  [Folder.document_count] returns exactly on the folders whose
    subtree has no parent cycle: if no folder at or below the start is below
    itself, the recursion returns within a depth of the number of folders
    plus one; if one is, it returns at no depth. *)
Theorem document_count_returns_iff db pk :
  (∃ fuel, is_Some (Folders.document_count fuel db pk))
  ↔ (∀ g, g = pk ∨ descendant (folders db) pk g →
          ¬ descendant (folders db) g g).
Proof.
  split.
  - intros [fuel [z Hz]]. by eapply document_count_Some_acyclic.
  - intros Hacyclic. exists (S (size (folders db))).
    apply document_count_acyclic; [done|apply collected_size].
Qed.

(** X29.  What [Folder.document_count] returns is the number of documents,
    not deleted, of the folder and of every folder below it. *)
Theorem document_count_counts_subtree fuel db pk z :
  Folders.document_count fuel db pk = Some z →
  z = live_documents db (collected db pk).
Proof.
  revert pk z. induction fuel as [|fuel IH]; intros pk z Hz; [done|].
  pose proof (document_count_Some_acyclic _ _ _ _ Hz) as Hacyclic.
  assert (∀ c, c ∈ Folders.subfolders db pk →
               Folders.document_count fuel db c
               = Some (live_documents db (collected db c))) as Hchildren.
  { intros c Hc.
    destruct (Folders.document_count fuel db c) as [zc|] eqn:Hzc.
    - by rewrite (IH c zc Hzc).
    - assert (Folders.document_count (S fuel) db pk = None) as Hnone
        by (apply document_count_None; eauto).
      congruence. }
  cbn [Folders.document_count] in Hz.
  rewrite live_documents_singleton, (foldl_count_Some db) in Hz.
  - injection Hz as <-. by rewrite <- collected_subfolders.
  - apply subfolders_NoDup.
  - exact Hchildren.
  - intros c Hc g ->%elem_of_singleton Hin.
    apply elem_of_subfolders in Hc as (row & Hrow & Hp).
    apply (Hacyclic pk); [by left|].
    apply elem_of_collected in Hin as [->|Hcpk].
    + by eapply descendant_child.
    + eapply descendant_trans; [|exact Hcpk]. by eapply descendant_child.
  - intros c c' Hc Hc' Hne g Hg Hg'.
    apply elem_of_subfolders in Hc as (row & Hrow & Hp).
    apply elem_of_subfolders in Hc' as (row' & Hrow' & Hp').
    apply (Hacyclic pk); [by left|].
    apply elem_of_collected in Hg as [->|Hg];
      apply elem_of_collected in Hg' as [->|Hg'].
    + done.
    + by eapply (sibling_below _ pk c' c).
    + by eapply (sibling_below _ pk c c').
    + destruct (descendant_chain _ c c' g Hg Hg') as [->|[Hcc|Hcc]]; [done| |].
      * by eapply (sibling_below _ pk c c').
      * by eapply (sibling_below _ pk c' c).
Qed.

End DocumentCount.

(** ** vault: the folder views *)

Section FolderViews.
Context `{Lib}.

Lemma representation_cases depth code pk row db :
  (∃ count, Folders.document_count depth db pk = Some count
            ∧ Folders.representation depth code pk row db
              = (Ok (mkResponse code (Folders.folder_data pk row count)), db))
  ∨ (Folders.document_count depth db pk = None
     ∧ Folders.representation depth code pk row db
       = (Ok Folders.server_error, db)).
Proof.
  unfold Folders.representation, mbind, M_bind, get_db. cbv beta iota.
  destruct (Folders.document_count depth db pk) as [count|];
    [left; by eauto|by right].
Qed.

Lemma folder_create_cases env depth user u data db :
  users db !! user = Some u →
  (∃ validated,
     Folders.is_valid db user None false data = Ok validated
     ∧ status (Folders.create env depth user data db).1 ≠ 400)
  ∨ (∃ f m, Folders.is_valid db user None false data = Raise (ValidationError f m)
            ∧ Folders.create env depth user data db
              = (mkResponse HTTP_400_BAD_REQUEST (JObj [(f, JList [JStr m])]), db)).
Proof.
  intros Huser.
  unfold Folders.create, dispatch, Folders.create_view, authenticated.
  unfold mbind, M_bind, get_db, put_db, mret, M_ret, lift, raise.
  cbv beta iota. rewrite Huser.
  destruct (folder_is_valid_cases db user None false data)
    as [(validated & Hvalid & _ & _ & Hreq & _)|(f & m & Hvalid)];
    rewrite Hvalid; [|right; by eauto].
  left. exists validated. split; [done|].
  destruct (Hreq eq_refl) as (c & name & -> & ->). cbn.
  unfold insert_row. destruct (folders db !! uuid4 env 0); [done|].
  match goal with
  | |- context [Folders.representation depth ?code ?pk ?row ?db1] =>
      destruct (representation_cases depth code pk row db1)
        as [(count & _ & ->)|[_ ->]]
  end; done.
Qed.

Lemma folder_update_cases depth user u query pk instance partial data db :
  users db !! user = Some u →
  folders db !! pk = Some instance →
  Vault.folder_queryset user query instance = true →
  (∃ validated,
     Folders.is_valid db user (Some pk) partial data = Ok validated
     ∧ Folders.update depth user query pk partial data db
       = dispatch
           (Folders.representation depth HTTP_200_OK pk
              (Folders.updated instance validated))
           (with_folders
              (<[pk := Folders.updated instance validated]> (folders db)) db))
  ∨ (∃ f m, Folders.is_valid db user (Some pk) partial data
            = Raise (ValidationError f m)
            ∧ Folders.update depth user query pk partial data db
              = (mkResponse HTTP_400_BAD_REQUEST (JObj [(f, JList [JStr m])]), db)).
Proof.
  intros Huser Hrow Hq.
  unfold Folders.update, dispatch, Folders.update_view, authenticated.
  unfold mbind, M_bind, get_db, put_db, mret, M_ret, raise.
  cbv beta iota. rewrite Huser, Hrow, Hq.
  destruct (folder_is_valid_cases db user (Some pk) partial data)
    as [(validated & Hvalid & _)|(f & m & Hvalid)]; rewrite Hvalid.
  - left. by eauto.
  - right. by eauto.
Qed.

(** X7.  [FolderSerializer.validate] on an update: a request that names the
    folder itself as its parent is answered 400 and no table changes. *)
Theorem folder_own_parent_rejected depth user u query pk instance partial data db :
  users db !! user = Some u →
  folders db !! pk = Some instance →
  Vault.folder_queryset user query instance = true →
  Folders.parent data = Given pk →
  status (Folders.update depth user query pk partial data db).1 = 400
  ∧ (Folders.update depth user query pk partial data db).2 = db.
Proof.
  intros Huser Hrow Hq Hparent.
  destruct (folder_update_cases depth user u query pk instance partial data db
              Huser Hrow Hq) as [(validated & Hvalid & _)|(f & m & _ & ->)];
    [|done].
  destruct (folder_is_valid_cases db user (Some pk) partial data)
    as [(v & _ & _ & _ & _ & Hp)|(f & m & Hraise)]; [|congruence].
  by destruct (Hp pk Hparent) as (_ & _ & _ & Hself & _).
Qed.

(** X8.  [FolderSerializer.validate]: a parent folder of another user is
    refused, by the creation and by the update alike; the answer is 400 and
    no table changes. *)
Theorem folder_foreign_parent_rejected env depth user u query pk instance
    partial data db p row :
  users db !! user = Some u →
  folders db !! pk = Some instance →
  Vault.folder_queryset user query instance = true →
  Folders.parent data = Given p →
  folders db !! p = Some row →
  Folder.user row ≠ user →
  (status (Folders.create env depth user data db).1 = 400
   ∧ (Folders.create env depth user data db).2 = db)
  ∧ (status (Folders.update depth user query pk partial data db).1 = 400
     ∧ (Folders.update depth user query pk partial data db).2 = db).
Proof.
  intros Huser Hrow Hq Hparent Hp Hforeign.
  assert (∀ instance' partial' validated,
            Folders.is_valid db user instance' partial' data ≠ Ok validated)
    as Hinvalid.
  { intros instance' partial' validated Hvalid.
    destruct (folder_is_valid_cases db user instance' partial' data)
      as [(v & _ & _ & _ & _ & Hparent')|(f & m & Hraise)]; [|congruence].
    destruct (Hparent' p Hparent) as (row' & Hrow' & Howner & _). congruence. }
  split.
  - destruct (folder_create_cases env depth user u data db Huser)
      as [(validated & Hvalid & _)|(f & m & _ & ->)]; [|done].
    by apply Hinvalid in Hvalid.
  - destruct (folder_update_cases depth user u query pk instance partial data db
                Huser Hrow Hq) as [(validated & Hvalid & _)|(f & m & _ & ->)];
      [|done].
    by apply Hinvalid in Hvalid.
Qed.

(** X9.  [FolderViewSet.create]: a creation answered 201 adds one row under a
    new key and changes nothing else; the row belongs to the caller, and its
    parent, if it has one, is a folder of the caller in the same category. *)
Theorem folder_create_parent_invariant env depth user data db :
  status (Folders.create env depth user data db).1 = 201 →
  ∃ row,
    (Folders.create env depth user data db).2
    = with_folders (<[uuid4 env 0 := row]> (folders db)) db
    ∧ folders db !! uuid4 env 0 = None
    ∧ Folder.user row = user
    ∧ ∀ p, Folder.parent row = Some p →
        ∃ parent_row, folders db !! p = Some parent_row
                      ∧ Folder.user parent_row = user
                      ∧ Folder.category parent_row = Folder.category row.
Proof.
  unfold Folders.create, dispatch, Folders.create_view, authenticated.
  unfold mbind, M_bind, get_db, put_db, mret, M_ret, lift, raise.
  cbv beta iota.
  destruct (users db !! user) as [u|]; [|by cbn].
  destruct (folder_is_valid_cases db user None false data)
    as [(validated & Hvalid & Hcat & Hpar & Hreq & Hparent)|(f & m & Hvalid)];
    rewrite Hvalid; [|by cbn].
  destruct (Hreq eq_refl) as (c & name & Hc & Hname). rewrite Hc, Hname. cbn.
  unfold insert_row.
  destruct (folders db !! uuid4 env 0) eqn:Hnew; [by cbn|].
  match goal with
  | |- context [Folders.representation depth ?code ?pk ?row ?db1] =>
      destruct (representation_cases depth code pk row db1)
        as [(count & _ & ->)|[_ ->]]
  end; [|by cbn]. cbn. intros _.
  eexists. split; [reflexivity|]. split; [done|]. split; [done|].
  cbn. intros p Hp. rewrite Hpar in Hp.
  destruct (Folders.parent data) as [| |p'] eqn:Hdata; try discriminate.
  cbn in Hp. injection Hp as ->.
  destruct (Hparent p eq_refl) as (parent_row & Hrow & Howner & _ & Hsame).
  exists parent_row. repeat split; [done..|].
  apply Hsame. by rewrite <- Hcat.
Qed.

(** X10.  [FolderSerializer.validate] compares the parent with the folder
    only.  A partial update that makes a folder the child of one of its own
    subfolders passes the validation and is written; the folder is then
    below itself, [Folder.document_count] of it returns at no depth, and the
    answer, which reads that property, is the 500 of the framework. *)
Theorem folder_update_admits_cycle depth user u query pk instance child
    child_row db :
  users db !! user = Some u →
  folders db !! pk = Some instance →
  Vault.folder_queryset user query instance = true →
  folders db !! child = Some child_row →
  Folder.user child_row = user →
  Folder.parent child_row = Some pk →
  child ≠ pk →
  let after :=
    Folders.update depth user query pk true (only_parent (Given child)) db in
  status after.1 = HTTP_500_INTERNAL_SERVER_ERROR
  ∧ folders after.2 !! pk
    = Some (Folders.updated instance (only_parent (Given child)))
  ∧ descendant (folders after.2) pk pk
  ∧ ∀ fuel, Folders.document_count fuel after.2 pk = None.
Proof.
  intros Huser Hrow Hq Hchild Howner Hbelow Hne after.
  assert (Folders.is_valid db user (Some pk) true (only_parent (Given child))
          = Ok (only_parent (Given child))) as Hvalid.
  { unfold Folders.is_valid, only_parent. cbn.
    rewrite Hchild. cbn. unfold Folders.validate. cbn. rewrite Hchild.
    rewrite (proj2 (N.eqb_eq _ _) Howner). cbn.
    rewrite bool_decide_eq_false_2; [done|congruence]. }
  destruct (folder_update_cases depth user u query pk instance true
              (only_parent (Given child)) db Huser Hrow Hq)
    as [(validated & Hvalid' & Hupdate)|(f & m & Hraise & _)]; [|congruence].
  rewrite Hvalid in Hvalid'. injection Hvalid' as <-.
  subst after. rewrite Hupdate.
  set (db1 := with_folders
                (<[pk := Folders.updated instance (only_parent (Given child))]>
                   (folders db)) db).
  assert (descendant (folders db1) pk pk) as Hcycle.
  { cbn. eapply descendant_step.
    - eapply descendant_child; [|exact Hbelow].
      by rewrite lookup_insert_ne.
    - apply lookup_insert_eq.
    - done. }
  unfold dispatch.
  destruct (representation_cases depth HTTP_200_OK pk
              (Folders.updated instance (only_parent (Given child))) db1)
    as [(count & Hcount & _)|[_ ->]].
  { by rewrite document_count_cycle in Hcount. }
  cbn [fst snd]. split; [done|]. split; [apply lookup_insert_eq|].
  split; [done|]. intros fuel. by apply document_count_cycle.
Qed.

End FolderViews.

(** A witness for X7: folder 32 of [alice] asked to be its own parent. *)
Lemma folder_own_parent_rejected_witness :
  status (@Folders.update sample_lib 8 1 no_folder_query 32 true
            (only_parent (Given 32%N)) db_with_folders).1 = 400
  ∧ (@Folders.update sample_lib 8 1 no_folder_query 32 true
       (only_parent (Given 32%N)) db_with_folders).2 = db_with_folders.
Proof.
  apply (@folder_own_parent_rejected sample_lib 8 1 alice no_folder_query 32
           (Folder.mk 1 9 "Qg==" (Some 31%N) "#3b82f6" "F") true
           (only_parent (Given 32%N)) db_with_folders);
    vm_compute; reflexivity.
Defined.

(** A witness for X8: [alice] names folder 35 of [bob] as the parent. *)
Lemma folder_foreign_parent_rejected_witness :
  (status (@Folders.create sample_lib sample_env 8 1
             (new_folder (Given 35%N)) db_with_category).1 = 400
   ∧ (@Folders.create sample_lib sample_env 8 1
        (new_folder (Given 35%N)) db_with_category).2 = db_with_category)
  ∧ (status (@Folders.update sample_lib 8 1 no_folder_query 34 true
               (new_folder (Given 35%N)) db_with_category).1 = 400
     ∧ (@Folders.update sample_lib 8 1 no_folder_query 34 true
          (new_folder (Given 35%N)) db_with_category).2 = db_with_category).
Proof.
  apply (@folder_foreign_parent_rejected sample_lib sample_env 8 1 alice
           no_folder_query 34 (Folder.mk 1 9 "RA==" None "#3b82f6" "F") true
           (new_folder (Given 35%N)) db_with_category 35
           (Folder.mk 2 9 "Qg==" None "#3b82f6" "F"));
    vm_compute; (reflexivity || discriminate).
Defined.

(** A witness for X9: [alice] creates a folder below her folder 34. *)
Lemma folder_create_parent_invariant_witness :
  status (@Folders.create sample_lib sample_env 8 1 (new_folder (Given 34%N))
            db_with_category).1 = 201
  ∧ ∃ row,
      (@Folders.create sample_lib sample_env 8 1 (new_folder (Given 34%N))
         db_with_category).2
      = with_folders (<[uuid4 sample_env 0 := row]> (folders db_with_category))
          db_with_category
      ∧ folders db_with_category !! uuid4 sample_env 0 = None
      ∧ Folder.user row = 1%N
      ∧ ∀ p, Folder.parent row = Some p →
          ∃ parent_row, folders db_with_category !! p = Some parent_row
                        ∧ Folder.user parent_row = 1%N
                        ∧ Folder.category parent_row = Folder.category row.
Proof.
  assert (status (@Folders.create sample_lib sample_env 8 1
                    (new_folder (Given 34%N)) db_with_category).1 = 201)
    as Hcreated by (vm_compute; reflexivity).
  split; [exact Hcreated|].
  exact (@folder_create_parent_invariant sample_lib sample_env 8 1
           (new_folder (Given 34%N)) db_with_category Hcreated).
Defined.

(** A witness for X10: folder 31, the parent of 32, is moved below 32. *)
Lemma folder_update_admits_cycle_witness :
  let after := @Folders.update sample_lib 8 1 no_folder_query 31 true
                 (only_parent (Given 32%N)) db_with_folders in
  status after.1 = HTTP_500_INTERNAL_SERVER_ERROR
  ∧ folders after.2 !! 31%N
    = Some (Folders.updated (Folder.mk 1 9 "QQ==" None "#3b82f6" "F")
              (only_parent (Given 32%N)))
  ∧ descendant (folders after.2) 31 31
  ∧ ∀ fuel, Folders.document_count fuel after.2 31 = None.
Proof.
  apply (@folder_update_admits_cycle sample_lib 8 1 alice no_folder_query 31
           (Folder.mk 1 9 "QQ==" None "#3b82f6" "F") 32
           (Folder.mk 1 9 "Qg==" (Some 31%N) "#3b82f6" "F") db_with_folders);
    vm_compute; (reflexivity || discriminate).
Defined.

(** ** vault: moving documents *)

Section MoveDocuments.

Lemma selected_set_folder user ids pk folder d :
  Move.selected user ids pk (Document.set_folder folder d)
  = Move.selected user ids pk d.
Proof. done. Qed.

Lemma lookup_moved user ids folder table pk :
  objects_update_pk (Move.selected user ids) (Document.set_folder folder) table
    !! pk
  = (λ d, if Move.selected user ids pk d then Document.set_folder folder d else d)
      <$> table !! pk.
Proof.
  unfold objects_update_pk. rewrite map_lookup_imap.
  by destruct (table !! pk).
Qed.

Lemma count_moved user ids folder table :
  objects_count_pk (Move.selected user ids)
    (objects_update_pk (Move.selected user ids) (Document.set_folder folder) table)
  = objects_count_pk (Move.selected user ids) table.
Proof.
  unfold objects_count_pk. f_equal. rewrite <- !size_dom. f_equal.
  apply set_eq. intros pk. rewrite !elem_of_dom. unfold is_Some.
  setoid_rewrite map_lookup_filter_Some. setoid_rewrite lookup_moved.
  split.
  - intros (d' & Hd & Hsel). destruct (table !! pk) as [d|] eqn:Hrow; [|done].
    cbn in Hd. injection Hd as <-. cbn in Hsel. exists d. split; [done|]. cbn.
    destruct (Move.selected user ids pk d) eqn:Hs; [done|].
    by rewrite Hs in Hsel.
  - intros (d & Hd & Hsel). cbn in Hsel. rewrite Hd. cbn. rewrite Hsel.
    eexists. split; [done|]. cbn. by rewrite selected_set_folder.
Qed.

Lemma move_cases user u document_ids folder_id db :
  users db !! user = Some u →
  (∃ ids folder,
     document_ids = Some ids
     ∧ (∃ pk d, documents db !! pk = Some d ∧ Move.selected user ids pk d = true)
     ∧ (folder_id = None ∧ folder = None
        ∨ ∃ f row, folder_id = Some f ∧ folder = Some f
                   ∧ folders db !! f = Some row ∧ Folder.user row = user)
     ∧ Move.move user document_ids folder_id db
       = (mkResponse HTTP_200_OK
            (JObj [("status", JStr "success");
                   ("moved_count",
                    JInt (objects_count_pk (Move.selected user ids) (documents db)));
                   ("folder_id", from_option (λ f, JStr (pretty f)) JNull folder)]),
          with_documents
            (objects_update_pk (Move.selected user ids)
               (Document.set_folder folder) (documents db)) db))
  ∨ (∃ code body, Move.move user document_ids folder_id db
                  = (mkResponse code body, db)
                  ∧ (code = 400 ∨ code = 404)).
Proof.
  intros Huser.
  unfold Move.move, dispatch, Move.move_view, authenticated.
  unfold mbind, M_bind, get_db, put_db, mret, M_ret. cbv beta iota.
  rewrite Huser.
  destruct document_ids as [[|pk0 ids]|]; [right; by eauto| |right; by eauto].
  case_bool_decide as Hnone; [right; by eauto|].
  apply map_choose in Hnone as (pk & d & Hsel).
  apply map_lookup_filter_Some in Hsel as [Hd Hsel]. cbn in Hsel.
  destruct folder_id as [f|].
  - destruct (folders db !! f) as [row|] eqn:Hrow; [|right; by eauto].
    destruct (N.eqb (Folder.user row) user) eqn:Howner; [|right; by eauto].
    apply N.eqb_eq in Howner. left. exists (pk0 :: ids), (Some f).
    rewrite count_moved. split; [done|]. split; [by eauto|].
    split; [right; by exists f, row|done].
  - left. exists (pk0 :: ids), None.
    rewrite count_moved. split; [done|]. split; [by eauto|].
    split; [by left|done].
Qed.

(** X11.  [DocumentViewSet.move]: a move answered 200 writes the target
    folder to the listed documents of the caller that are not deleted and
    to no other row, changes no other table, and reports the number of those
    documents; the target is no folder or a folder of the caller. *)
Theorem move_changes_selected_only user document_ids folder_id db :
  status (Move.move user document_ids folder_id db).1 = 200 →
  ∃ ids folder,
    document_ids = Some ids
    ∧ (folder_id = None ∧ folder = None
       ∨ ∃ f row, folder_id = Some f ∧ folder = Some f
                  ∧ folders db !! f = Some row ∧ Folder.user row = user)
    ∧ (∃ moved, (Move.move user document_ids folder_id db).2
                = with_documents moved db
                ∧ ∀ pk, moved !! pk
                        = (λ d, if Move.selected user ids pk d
                                then Document.set_folder folder d else d)
                            <$> documents db !! pk)
    ∧ (1 ≤ objects_count_pk (Move.selected user ids) (documents db))
    ∧ data (Move.move user document_ids folder_id db).1
      = JObj [("status", JStr "success");
              ("moved_count",
               JInt (objects_count_pk (Move.selected user ids) (documents db)));
              ("folder_id", from_option (λ f, JStr (pretty f)) JNull folder)].
Proof.
  intros Hstatus.
  destruct (users db !! user) as [u|] eqn:Huser.
  - destruct (move_cases user u document_ids folder_id db Huser)
      as [(ids & folder & -> & (pk & d & Hd & Hsel) & Hfolder & Hmove)
         |(code & body' & Hmove & Hcode)].
    + exists ids, folder. rewrite Hmove. cbn [fst snd data].
      split; [done|]. split; [done|]. split; [|split; [|done]].
      * eexists. split; [reflexivity|]. intros pk'. apply lookup_moved.
      * unfold objects_count_pk.
        assert (size (filter (λ kv : UUID * Document.t,
                         Move.selected user ids kv.1 kv.2 = true) (documents db))
                ≠ 0%nat); [|lia].
        apply map_size_non_empty_iff. intros Hempty.
        assert (filter (λ kv : UUID * Document.t,
                         Move.selected user ids kv.1 kv.2 = true) (documents db)
                  !! pk = Some d) as Hin by by apply map_lookup_filter_Some.
        by rewrite Hempty in Hin.
    + rewrite Hmove in Hstatus. cbn in Hstatus. lia.
  - revert Hstatus.
    unfold Move.move, dispatch, Move.move_view, authenticated.
    unfold mbind, M_bind, get_db, mret, M_ret. cbv beta iota.
    rewrite Huser. by cbn.
Qed.

(** X12.  [DocumentViewSet.move]: a target folder that does not exist or is
    the folder of another user is answered 404 ("Folder not found") and no
    document is moved, whatever the documents are. *)
Theorem move_to_foreign_folder user u ids pk d f db :
  users db !! user = Some u →
  documents db !! pk = Some d →
  Move.selected user ids pk d = true →
  (∀ row, folders db !! f = Some row → Folder.user row ≠ user) →
  Move.move user (Some ids) (Some f) db
  = (mkResponse HTTP_404_NOT_FOUND (JObj [("error", JStr "Folder not found")]),
     db).
Proof.
  intros Huser Hd Hsel Hforeign.
  unfold Move.move, dispatch, Move.move_view, authenticated.
  unfold mbind, M_bind, get_db, put_db, mret, M_ret. cbv beta iota.
  rewrite Huser.
  destruct ids as [|pk0 ids].
  { unfold Move.selected in Hsel. rewrite bool_decide_eq_false_2 in Hsel;
      [done|by apply not_elem_of_nil]. }
  rewrite bool_decide_eq_false_2.
  - destruct (folders db !! f) as [row|] eqn:Hrow; [|done].
    destruct (N.eqb (Folder.user row) user) eqn:Howner; [|done].
    apply N.eqb_eq in Howner. by destruct (Hforeign row eq_refl).
  - intros Hempty.
    assert (filter (λ kv : UUID * Document.t,
                      Move.selected user (pk0 :: ids) kv.1 kv.2 = true)
              (documents db) !! pk = Some d) as Hin
      by by apply map_lookup_filter_Some.
    by rewrite Hempty in Hin.
Qed.

End MoveDocuments.

(** A witness for X11: [alice] moves her document 21 to her folder 34. *)
Lemma move_changes_selected_only_witness :
  ∃ ids folder,
    Some [21%N; 99%N] = Some ids
    ∧ (Some 34%N = None ∧ folder = None
       ∨ ∃ f row, Some 34%N = Some f ∧ folder = Some f
                  ∧ folders db_with_folders !! f = Some row
                  ∧ Folder.user row = 1%N)
    ∧ (∃ moved, (Move.move 1 (Some [21%N; 99%N]) (Some 34%N) db_with_folders).2
                = with_documents moved db_with_folders
                ∧ ∀ pk, moved !! pk
                        = (λ d, if Move.selected 1 ids pk d
                                then Document.set_folder folder d else d)
                            <$> documents db_with_folders !! pk)
    ∧ (1 ≤ objects_count_pk (Move.selected 1 ids) (documents db_with_folders))
    ∧ data (Move.move 1 (Some [21%N; 99%N]) (Some 34%N) db_with_folders).1
      = JObj [("status", JStr "success");
              ("moved_count",
               JInt (objects_count_pk (Move.selected 1 ids)
                       (documents db_with_folders)));
              ("folder_id", from_option (λ f, JStr (pretty f)) JNull folder)].
Proof.
  apply (move_changes_selected_only 1 (Some [21%N; 99%N]) (Some 34%N)
           db_with_folders).
  vm_compute. reflexivity.
Defined.

(** A witness for X12: [alice] moves document 21 to folder 35 of [bob]. *)
Lemma move_to_foreign_folder_witness :
  Move.move 1 (Some [21%N]) (Some 35%N) db_with_category
  = (mkResponse HTTP_404_NOT_FOUND (JObj [("error", JStr "Folder not found")]),
     db_with_category).
Proof.
  apply (move_to_foreign_folder 1 alice [21%N] 21
           (Document.set_folder (Some 31%N) passport) 35 db_with_category);
    [vm_compute; reflexivity..|].
  intros row Hrow. vm_compute in Hrow. injection Hrow as <-. discriminate.
Defined.

(** ** users: what login, device removal and a new mail write *)

Section AccountViews.
Context `{Lib}.

Lemma objects_get_Ok {A} (P : A → bool) (table : gmap UUID A) pk a :
  objects_get P table = Ok (pk, a) → table !! pk = Some a ∧ P a = true.
Proof.
  unfold objects_get.
  destruct (map_to_list (filter (λ kv : UUID * A, P kv.2 = true) table))
    as [|row [|row' rest]] eqn:Hlist; try discriminate.
  intros [= ->].
  assert ((pk, a) ∈ map_to_list (filter (λ kv : UUID * A, P kv.2 = true) table))
    as Hin by (rewrite Hlist; apply elem_of_cons; by left).
  apply elem_of_map_to_list in Hin. by apply map_lookup_filter_Some in Hin.
Qed.

(** X13.  [login] writes one column: an answer other than 200 leaves every
    table as it was; an answer of 200 goes to a verified user with the
    username of the request, whose stored hash matches the password, and
    nothing but [last_login_at] of that user has changed. *)
Theorem login_writes_last_login_only env request db :
  ((Users.login env request db).2 = db
   ∧ status (Users.login env request db).1 ≠ HTTP_200_OK)
  ∨ ∃ pk u password,
      users db !! pk = Some u
      ∧ Users.login_username request = Some (User.username u)
      ∧ Users.login_password request = Some password
      ∧ Users.check_password u password = true
      ∧ User.email_verified u = true
      ∧ status (Users.login env request db).1 = HTTP_200_OK
      ∧ (Users.login env request db).2
        = with_users (<[pk := User.set_last_login_at (now env) u]> (users db)) db.
Proof.
  destruct request as [[username|] [password|]];
    [|left; by destruct username|by left..].
  destruct (String.eqb_spec username "") as [->|Hu]; [by left|].
  destruct (String.eqb_spec password "") as [->|Hp].
  { left. unfold Users.login, dispatch, Users.login_view. cbn.
    apply String.eqb_neq in Hu. by rewrite Hu. }
  rewrite (login_with_credentials env db username password Hu Hp).
  destruct (objects_get _ (users db)) as [[pk u]|e] eqn:Hget;
    [|left; by destruct e].
  apply objects_get_Ok in Hget as [Hrow Hname]. apply String.eqb_eq in Hname.
  destruct (Users.check_password u password) eqn:Hcheck; [|by left].
  destruct (User.email_verified u) eqn:Hverified; [|by left].
  right. exists pk, u, password. cbn. rewrite Hname.
  do 6 (split; [done|]). f_equal. apply map_eq. intros i.
  destruct (decide (i = pk)) as [->|Hne].
  - by rewrite lookup_alter_eq, lookup_insert_eq, Hrow.
  - by rewrite lookup_alter_ne, lookup_insert_ne.
Qed.

(** X14.  [remove_device] removes a device of the caller only.  For an
    authenticated caller, a key that names no device, or the device of
    another user, is answered 404 and nothing changes; otherwise the device
    row is removed, every other device stays, and no notification refers to
    the removed device any more. *)
Theorem remove_device_own_only user pk db :
  is_Some (users db !! user) →
  ((∀ device, devices db !! pk = Some device → Device.user device ≠ user)
   ∧ status (Users.remove_device user pk db).1 = HTTP_404_NOT_FOUND
   ∧ (Users.remove_device user pk db).2 = db)
  ∨ ∃ device after,
      devices db !! pk = Some device ∧ Device.user device = user
      ∧ status (Users.remove_device user pk db).1 = HTTP_200_OK
      ∧ (Users.remove_device user pk db).2
        = with_notifications after (with_devices (delete pk (devices db)) db)
      ∧ dom after = dom (notifications db)
      ∧ (∀ n row, after !! n = Some row → Notification.device row ≠ Some pk)
      ∧ (∀ n row, notifications db !! n = Some row →
                  Notification.device row ≠ Some pk → after !! n = Some row).
Proof.
  intros _.
  unfold Users.remove_device, dispatch, Users.remove_device_view.
  unfold mbind, M_bind, get_db, put_db, mret, M_ret. cbv beta iota.
  destruct (devices db !! pk) as [device|] eqn:Hdevice; [|left; by split].
  destruct (N.eqb (Device.user device) user) eqn:Howner.
  - apply N.eqb_eq in Howner. right. eexists device, _. cbn [fst snd status].
    split; [done|]. split; [done|]. split; [done|]. split; [reflexivity|].
    unfold objects_update. split; [|split].
    + apply dom_fmap_L.
    + intros n row. rewrite lookup_fmap.
      destruct (notifications db !! n) as [row0|]; [|done]. cbn.
      intros [= <-]. case_bool_decide as Href; [done|exact Href].
    + intros n row Hrow Href. rewrite lookup_fmap, Hrow. cbn.
      by rewrite bool_decide_eq_false_2.
  - apply N.eqb_neq in Howner. left. split; [|by split].
    intros device' [= <-]. done.
Qed.

Lemma resend_verification_found env email db pk u :
  strip email ≠ "" →
  email_format (strip email) = true →
  users db !! pk = Some u →
  User.email u = strip email →
  (∀ pk' u', users db !! pk' = Some u' → User.email u' = strip email → pk' = pk) →
  User.email_verified u = false →
  Accounts.resend_verification env (Some email) db
  = (mkResponse HTTP_200_OK
       (JObj [("success", JBool true);
              ("message", JStr "Verification email sent! Please check your inbox.")]),
     with_users
       (<[pk := User.set_email_verification_token (Some (token_urlsafe env)) u]>
          (users db)) db).
Proof.
  intros Hs Hformat Hu Hemail Huniq Hunverified.
  unfold Accounts.resend_verification, dispatch, Accounts.resend_verification_view.
  unfold try_catch, mbind at 1, M_bind at 1, get_db. cbv beta iota.
  rewrite CharField_unbounded by done. cbn [mbind result_bind].
  unfold Accounts.resend_validate_email. rewrite Hformat. cbn [negb].
  rewrite (objects_first_unique _ _ pk u); [|done|by apply String.eqb_eq|].
  2:{ intros pk' u' Hu' Hm. apply String.eqb_eq in Hm. eauto. }
  rewrite Hunverified. cbn.
  do 2 f_equal. apply map_eq. intros i.
  destruct (decide (i = pk)) as [->|Hne].
  - by rewrite lookup_alter_eq, lookup_insert_eq, Hu.
  - by rewrite lookup_alter_ne, lookup_insert_ne.
Qed.

(** X15.  [resend_verification] replaces the token.  For the one unverified
    user with the address, the answer is 200; afterwards the token of the
    first mail is answered 400 by [verify_email] and changes nothing, and
    the new token verifies the user. *)
Theorem resend_replaces_token env email db pk u old :
  strip email ≠ "" →
  email_format (strip email) = true →
  users db !! pk = Some u →
  User.email u = strip email →
  (∀ pk' u', users db !! pk' = Some u' → User.email u' = strip email → pk' = pk) →
  User.email_verified u = false →
  old ≠ "" → strip old = old →
  token_urlsafe env ≠ "" → strip (token_urlsafe env) = token_urlsafe env →
  token_urlsafe env ≠ old →
  (∀ pk' u', users db !! pk' = Some u' → pk' ≠ pk →
             User.email_verification_token u' ≠ Some old
             ∧ User.email_verification_token u' ≠ Some (token_urlsafe env)) →
  let db1 := (Accounts.resend_verification env (Some email) db).2 in
  status (Accounts.resend_verification env (Some email) db).1 = HTTP_200_OK
  ∧ status (Accounts.verify_email (Some old) db1).1 = HTTP_400_BAD_REQUEST
  ∧ (Accounts.verify_email (Some old) db1).2 = db1
  ∧ status (Accounts.verify_email (Some (token_urlsafe env)) db1).1 = HTTP_200_OK
  ∧ ∃ verified,
      users (Accounts.verify_email (Some (token_urlsafe env)) db1).2 !! pk
      = Some verified
      ∧ User.email_verified verified = true.
Proof.
  intros Hs Hformat Hu Hemail Huniq Hunverified Hold Hsold Hnew Hsnew Hdiff
    Hothers db1. subst db1.
  rewrite (resend_verification_found env email db pk u) by done.
  cbn [fst snd]. split; [done|].
  set (u1 := User.set_email_verification_token (Some (token_urlsafe env)) u).
  set (db1 := with_users (<[pk := u1]> (users db)) db).
  destruct (verify_email_unknown old db1 Hold) as [m ->].
  { intros pk' u' Hu'. cbn in Hu'. rewrite Hsold.
    apply lookup_insert_Some in Hu' as [[<- <-]|[Hne Hu']].
    - cbn. congruence.
    - apply (Hothers pk' u' Hu'). congruence. }
  split; [done|]. split; [done|].
  rewrite (verify_email_found (token_urlsafe env) db1 pk u1).
  - cbn. split; [done|]. eexists. by rewrite lookup_insert_eq.
  - done.
  - by rewrite Hsnew.
  - cbn. by rewrite lookup_insert_eq.
  - by rewrite Hsnew.
  - intros pk' u' Hu' Htok. cbn in Hu'. rewrite Hsnew in Htok.
    apply lookup_insert_Some in Hu' as [[<- <-]|[Hne Hu']]; [done|].
    destruct (Hothers pk' u' Hu') as [_ Hno]; [congruence|]. done.
  - done.
Qed.

End AccountViews.

(** A witness for X15: [dave] asks for a second mail. *)
Lemma resend_replaces_token_witness :
  let db1 := (@Accounts.resend_verification sample_lib sample_env
                (Some "dave@example.com") db_with_dave).2 in
  status (@Accounts.resend_verification sample_lib sample_env
            (Some "dave@example.com") db_with_dave).1 = HTTP_200_OK
  ∧ status (@Accounts.verify_email sample_lib (Some "tok-9") db1).1
    = HTTP_400_BAD_REQUEST
  ∧ (@Accounts.verify_email sample_lib (Some "tok-9") db1).2 = db1
  ∧ status (@Accounts.verify_email sample_lib
              (Some (token_urlsafe sample_env)) db1).1 = HTTP_200_OK
  ∧ ∃ verified,
      users (@Accounts.verify_email sample_lib
               (Some (token_urlsafe sample_env)) db1).2 !! 3%N
      = Some verified
      ∧ User.email_verified verified = true.
Proof.
  assert (∀ pk' u', users db_with_dave !! pk' = Some u' → pk' ≠ 3%N →
                    u' = alice ∨ u' = bob) as Hrows.
  { intros pk' u' Hrow Hne.
    change (users db_with_dave) with (<[3%N := dave]> sample_users) in Hrow.
    rewrite lookup_insert_ne in Hrow by done. unfold sample_users in Hrow.
    apply lookup_insert_Some in Hrow as [[_ <-]|[_ Hrow]]; [by left|].
    apply lookup_singleton_Some in Hrow as [_ <-]. by right. }
  apply (@resend_replaces_token sample_lib sample_env "dave@example.com"
           db_with_dave 3 dave "tok-9");
    try (vm_compute; reflexivity); try discriminate.
  - intros pk' u' Hrow Hemail.
    destruct (decide (pk' = 3%N)) as [->|Hne]; [done|].
    destruct (Hrows pk' u' Hrow Hne) as [-> | ->]; discriminate.
  - intros pk' u' Hrow Hne.
    destruct (Hrows pk' u' Hrow Hne) as [-> | ->]; split; discriminate.
Defined.

(** ** vault: the quota, the extension and the owner of a document *)

Section Uploads.
Context `{Lib}.

Lemma has_storage_space_limit (user : User.t) (file_size : Z) :
  Accounts.has_storage_space user file_size
  = (User.storage_used user + file_size <=? user_limit user).
Proof. reflexivity. Qed.

(** X16.  [User.has_storage_space] and the check of
    [DocumentSerializer.create] agree: an upload of a file for which
    [has_storage_space] is false is answered 400 and no table changes. *)
Theorem upload_without_storage_space env user_pk user data file db :
  users db !! user_pk = Some user →
  Vault.encrypted_file data = Some file →
  Accounts.has_storage_space user (UploadedFile.size file) = false →
  status (Vault.DocumentViewSet_create env user_pk data db).1
  = HTTP_400_BAD_REQUEST
  ∧ (Vault.DocumentViewSet_create env user_pk data db).2 = db.
Proof.
  intros Huser Hfile Hspace.
  rewrite has_storage_space_limit in Hspace. apply Z.leb_gt in Hspace.
  destruct (upload_cases env user_pk user data db Huser)
    as [(file' & document & version & _ & Hfile' & Hle & _)|Hrefused]; [|done].
  rewrite Hfile in Hfile'. injection Hfile' as <-. lia.
Qed.

Lemma create_document_row env user_pk user data db pk document db' :
  Vault.create env user_pk user data db = (Ok (pk, document), db') →
  ∃ file, Vault.encrypted_file data = Some file
          ∧ Document.user document = user_pk
          ∧ Document.is_deleted document = false
          ∧ Document.file_size document = UploadedFile.size file.
Proof.
  unfold Vault.create.
  destruct (Vault.encrypted_file data) as [file|]; [|discriminate].
  destruct (_ <? _); [discriminate|].
  destruct (negb (UploadedFile.readable file)); [discriminate|].
  unfold try_catch, atomic, mbind, M_bind, get_db, put_db. cbv beta iota.
  match goal with
  | |- context [Vault.Document_objects_create env ?pk ?row db] =>
      destruct (Document_objects_create_cases env pk row db)
        as [(db1 & -> & _)|(e & db1 & ->)]
  end; [|discriminate].
  match goal with
  | |- context [Vault.DocumentVersion_objects_create env ?pk ?row db1] =>
      destruct (DocumentVersion_objects_create_cases env pk row db1)
        as [->|(e & ->)]
  end; [|discriminate].
  intros [= <- <- <-]. by exists file.
Qed.

Lemma upload_created env user_pk user data db :
  users db !! user_pk = Some user →
  status (Vault.DocumentViewSet_create env user_pk data db).1 = HTTP_201_CREATED →
  ∃ file document,
    Vault.encrypted_file data = Some file
    ∧ documents (Vault.DocumentViewSet_create env user_pk data db).2
        !! uuid4 env 0 = Some document
    ∧ Document.user document = user_pk
    ∧ Document.is_deleted document = false
    ∧ Document.file_size document = UploadedFile.size file
    ∧ users (Vault.DocumentViewSet_create env user_pk data db).2
      = alter (User.set_storage_used
                 (User.storage_used user + UploadedFile.size file))
          user_pk (users db).
Proof.
  intros Huser.
  unfold Vault.DocumentViewSet_create, dispatch, Vault.DocumentViewSet_create_view.
  unfold authenticated, mbind, M_bind, get_db. cbv beta iota. rewrite Huser.
  destruct (is_valid_cases db user_pk data) as [[-> _]|(f & m & ->)];
    [|by cbn].
  destruct (create_cases env user_pk user data db)
    as [(file & db' & document & version & Hcreate & Hfile & _ & _ & Hd & _ & _
         & _ & Hu)|(f & m & ->)]; [|by cbn].
  destruct (create_document_row _ _ _ _ _ _ _ _ Hcreate)
    as (file' & Hfile' & Howner & Hlive & Hsize).
  rewrite Hfile in Hfile'. injection Hfile' as <-.
  rewrite Hcreate. cbn. intros _. exists file, document.
  rewrite Hd, Hu, lookup_insert_eq. by repeat split.
Qed.

(** X17.  An upload and the deletion of the uploaded document cancel in the
    counter: after an upload answered 201, the [DELETE] of the new document
    by the same user is answered 200, [storage_used] of the user is what it
    was before the upload, and the row stays, marked deleted. *)
Theorem upload_then_delete_restores_storage env env' user_pk user data db :
  users db !! user_pk = Some user →
  status (Vault.DocumentViewSet_create env user_pk data db).1 = HTTP_201_CREATED →
  let db1 := (Vault.DocumentViewSet_create env user_pk data db).2 in
  let after := Vault.DocumentViewSet_destroy env' user_pk no_query (uuid4 env 0) db1 in
  after.1 = document_deleted
  ∧ (∃ user', users after.2 !! user_pk = Some user'
              ∧ User.storage_used user' = User.storage_used user)
  ∧ ∃ document, documents after.2 !! uuid4 env 0 = Some document
                ∧ Document.is_deleted document = true
                ∧ Document.deleted_at document = Some (now env').
Proof.
  intros Huser Hcreated db1 after.
  destruct (upload_created env user_pk user data db Huser Hcreated)
    as (file & document & Hfile & Hdoc & Howner & Hlive & Hsize & Husers).
  fold db1 in Hdoc, Husers.
  assert (users db1 !! user_pk
          = Some (User.set_storage_used
                    (User.storage_used user + UploadedFile.size file) user))
    as Huser1 by by rewrite Husers, lookup_alter_eq, Huser.
  assert (Vault.get_queryset user_pk no_query document = true) as Hq.
  { unfold Vault.get_queryset, no_query. cbn. rewrite Hlive, Howner.
    by rewrite N.eqb_refl. }
  subst after.
  rewrite (destroy_found env' user_pk _ no_query (uuid4 env 0) document db1
             Huser1 Hdoc Hq).
  cbn [fst snd]. split; [done|]. split.
  - eexists. cbn. rewrite lookup_alter_eq, Huser1. cbn.
    split; [done|]. cbn. rewrite Hsize. lia.
  - eexists. cbn. rewrite lookup_insert_eq. by repeat split.
Qed.

(** X18.  [DocumentViewSet.get_queryset] hides the documents of others: a
    [DELETE] for the document of another user is answered 404 and changes
    nothing, whatever the query string is. *)
Theorem destroy_foreign_document env user_pk user query pk document db :
  users db !! user_pk = Some user →
  documents db !! pk = Some document →
  Document.user document ≠ user_pk →
  Vault.DocumentViewSet_destroy env user_pk query pk db = (document_not_found, db).
Proof.
  intros Huser Hdoc Hforeign. apply (destroy_missing env user_pk user); [done|].
  intros document' Hdoc'. rewrite Hdoc in Hdoc'. injection Hdoc' as <-.
  unfold Vault.get_queryset.
  by rewrite (proj2 (N.eqb_neq _ _) Hforeign).
Qed.

End Uploads.

Section Extension.

Lemma append_empty_r (s : string) : (s ++ "")%string = s.
Proof.
  induction s as [|c rest IH]; [done|].
  change (String c (rest ++ "")%string = String c rest). by rewrite IH.
Qed.

Lemma append_assoc_string (a b c : string) :
  ((a ++ b) ++ c)%string = (a ++ (b ++ c))%string.
Proof.
  induction a as [|x rest IH]; [done|].
  change (String x ((rest ++ b) ++ c)%string = String x (rest ++ (b ++ c))%string).
  by rewrite IH.
Qed.

Lemma last_segment_no_dot acc s :
  no_dot s → Vault.last_segment acc s = (acc ++ s)%string.
Proof.
  unfold no_dot. revert acc. induction s as [|c rest IH]; intros acc Hno.
  - cbn [Vault.last_segment]. by rewrite append_empty_r.
  - cbn [list_ascii_of_string existsb] in Hno.
    apply orb_false_iff in Hno as [Hc Hrest].
    cbn [Vault.last_segment]. rewrite Ascii.eqb_sym, Hc, IH by done.
    by rewrite append_assoc_string.
Qed.

Lemma last_segment_suffix acc base ext :
  no_dot ext → Vault.last_segment acc (base ++ "." ++ ext)%string = ext.
Proof.
  intros Hno. revert acc. induction base as [|c rest IH]; intros acc.
  - change ("" ++ "." ++ ext)%string with (String "."%char ext).
    cbn [Vault.last_segment]. rewrite Ascii.eqb_refl.
    by rewrite last_segment_no_dot.
  - change (String c rest ++ "." ++ ext)%string
      with (String c (rest ++ "." ++ ext)%string).
    cbn [Vault.last_segment]. destruct (Ascii.eqb c "."); apply IH.
Qed.

End Extension.

Section ExtensionOf.

(** X19.  [file_name.split('.')[-1]]: the extension stored for a name is
    what follows its last ['.'], and it holds no ['.'] itself. *)
Theorem file_extension_of_suffix base ext :
  no_dot ext →
  Vault.file_extension_of (base ++ "." ++ ext) = ext
  ∧ no_dot (Vault.file_extension_of (base ++ "." ++ ext)).
Proof.
  intros Hno. unfold Vault.file_extension_of.
  assert (existsb (Ascii.eqb ".") (list_ascii_of_string (base ++ "." ++ ext))
          = true) as ->.
  { induction base as [|c rest IH].
    - change ("" ++ "." ++ ext)%string with (String "."%char ext).
      cbn [list_ascii_of_string existsb]. by rewrite Ascii.eqb_refl.
    - change (String c rest ++ "." ++ ext)%string
        with (String c (rest ++ "." ++ ext)%string).
      cbn [list_ascii_of_string existsb]. rewrite IH. apply orb_true_r. }
  by rewrite last_segment_suffix.
Qed.

End ExtensionOf.

(** A witness for X16: [alice] on the free tier with a file of 2 GB. *)
Lemma upload_without_storage_space_witness :
  status (@Vault.DocumentViewSet_create sample_lib sample_env 1 large_upload
            sample_db).1 = HTTP_400_BAD_REQUEST
  ∧ (@Vault.DocumentViewSet_create sample_lib sample_env 1 large_upload
       sample_db).2 = sample_db.
Proof.
  apply (@upload_without_storage_space sample_lib sample_env 1 alice
           large_upload large_file sample_db); vm_compute; reflexivity.
Defined.

(** A witness for X17: [alice] uploads 1000 bytes and deletes them. *)
Lemma upload_then_delete_restores_storage_witness :
  let db1 := (@Vault.DocumentViewSet_create sample_lib sample_env 1
                sample_upload sample_db).2 in
  let after := @Vault.DocumentViewSet_destroy sample_lib sample_env 1 no_query
                 (uuid4 sample_env 0) db1 in
  after.1 = document_deleted
  ∧ (∃ user', users after.2 !! 1%N = Some user'
              ∧ User.storage_used user' = User.storage_used alice)
  ∧ ∃ document, documents after.2 !! uuid4 sample_env 0 = Some document
                ∧ Document.is_deleted document = true
                ∧ Document.deleted_at document = Some (now sample_env).
Proof.
  apply (@upload_then_delete_restores_storage sample_lib sample_env sample_env
           1 alice sample_upload sample_db); vm_compute; reflexivity.
Defined.

(** A witness for X18: [bob] asks to delete the passport of [alice]. *)
Lemma destroy_foreign_document_witness :
  @Vault.DocumentViewSet_destroy sample_lib sample_env 2 no_query 21
    db_with_document
  = (document_not_found, db_with_document).
Proof.
  apply (@destroy_foreign_document sample_lib sample_env 2 bob no_query 21
           passport db_with_document);
    [vm_compute; reflexivity..|discriminate].
Defined.

(** A witness for X19: the name of the sample upload. *)
Lemma file_extension_of_suffix_witness :
  Vault.file_extension_of ("passport.pdf" ++ "." ++ "enc") = "enc"
  ∧ no_dot (Vault.file_extension_of ("passport.pdf" ++ "." ++ "enc")).
Proof.
  apply (file_extension_of_suffix "passport.pdf" "enc"). reflexivity.
Defined.

(** ** notifications: the views *)

Section InboxViews.

Lemma objects_update_pk_id {A} (P : UUID → A → bool) (f : A → A)
    (table : gmap UUID A) :
  (∀ pk row, table !! pk = Some row → P pk row = false) →
  objects_update_pk P f table = table.
Proof.
  intros Hno. apply map_eq. intros pk. rewrite lookup_objects_update_pk.
  destruct (table !! pk) as [row|] eqn:Hrow; [|done]. cbn.
  by rewrite (Hno pk row Hrow).
Qed.

Lemma objects_update_id {A} (P : A → bool) (f : A → A) (table : gmap UUID A) :
  (∀ pk row, table !! pk = Some row → P row = false) →
  objects_update P f table = table.
Proof.
  intros Hno. apply map_eq. intros pk. unfold objects_update.
  rewrite lookup_fmap.
  destruct (table !! pk) as [row|] eqn:Hrow; [|done]. cbn.
  by rewrite (Hno pk row Hrow).
Qed.

Lemma objects_count_pk_zero {A} (P : UUID → A → bool) (table : gmap UUID A) :
  (∀ pk row, table !! pk = Some row → P pk row = false) →
  objects_count_pk P table = 0.
Proof.
  intros Hno. unfold objects_count_pk.
  assert (filter (λ kv : UUID * A, P kv.1 kv.2 = true) table = ∅) as ->.
  { apply map_empty_filter. intros pk row Hrow Hp. cbn in Hp.
    by rewrite (Hno pk row Hrow) in Hp. }
  by rewrite map_size_empty.
Qed.

Lemma objects_count_zero {A} (P : A → bool) (table : gmap UUID A) :
  (∀ pk row, table !! pk = Some row → P row = false) →
  objects_count P table = 0.
Proof.
  intros Hno. unfold objects_count.
  assert (filter (λ kv : UUID * A, P kv.2 = true) table = ∅) as ->.
  { apply map_empty_filter. intros pk row Hrow Hp. cbn in Hp.
    by rewrite (Hno pk row Hrow) in Hp. }
  by rewrite map_size_empty.
Qed.

Lemma objects_count_delete {A} (P : A → bool) (table : gmap UUID A) :
  objects_count P table + Z.of_nat (size (objects_delete P table))
  = Z.of_nat (size table).
Proof.
  unfold objects_count, objects_delete.
  assert (filter (λ kv : UUID * A, P kv.2 = false) table
          = filter (λ kv : UUID * A, ¬ P kv.2 = true) table) as ->.
  { apply map_filter_ext. intros pk row _. cbn. by destruct (P row). }
  rewrite <- Nat2Z.inj_add, <- map_size_disj_union
    by apply map_disjoint_filter_complement.
  by rewrite map_filter_union_complement.
Qed.

Lemma mark_read_is_valid_cases db user notification_ids :
  (∃ ids, notification_ids = Some ids ∧ ids ≠ []
          ∧ Notifications.mark_read_is_valid db user notification_ids = Ok ids
          ∧ ∀ pk, pk ∈ ids →
              ∃ n, notifications db !! pk = Some n ∧ Notification.user n = user)
  ∨ ∃ f m, Notifications.mark_read_is_valid db user notification_ids
           = Raise (ValidationError f m).
Proof.
  unfold Notifications.mark_read_is_valid.
  destruct notification_ids as [[|pk0 ids]|]; [right; by eauto| |right; by eauto].
  destruct (decide _) as [Hvalid|]; [|right; by eauto].
  left. exists (pk0 :: ids). repeat split; [done|].
  intros pk Hin.
  assert (pk ∉ (list_to_set (pk0 :: ids) : gset UUID)
               ∖ dom (filter (λ kv : UUID * Notification.t,
                              bool_decide (kv.1 ∈ pk0 :: ids)
                              && N.eqb (Notification.user kv.2) user = true)
                        (notifications db))) as Hout
    by (rewrite Hvalid; set_solver).
  rewrite elem_of_difference, elem_of_list_to_set in Hout.
  destruct (decide (pk ∈ dom (filter (λ kv : UUID * Notification.t,
                              bool_decide (kv.1 ∈ pk0 :: ids)
                              && N.eqb (Notification.user kv.2) user = true)
                        (notifications db)))) as [Hdom|Hdom];
    [|destruct Hout; by split].
  apply elem_of_dom in Hdom as [n Hn].
  apply map_lookup_filter_Some in Hn as [Hn Hm]. cbn in Hm.
  apply andb_true_iff in Hm as [_ Hu]. apply N.eqb_eq in Hu. by eauto.
Qed.

Lemma mark_read_cases env user u notification_ids db :
  users db !! user = Some u →
  (∃ ids, notification_ids = Some ids ∧ ids ≠ []
          ∧ (∀ pk, pk ∈ ids →
               ∃ n, notifications db !! pk = Some n ∧ Notification.user n = user)
          ∧ Notifications.mark_read env user notification_ids db
            = (mkResponse HTTP_200_OK
                 (JObj [("message",
                         JStr ("Marked "
                               ++ pretty (objects_count_pk
                                            (Notifications.to_mark user ids)
                                            (notifications db))
                               ++ " notifications as read"));
                        ("count",
                         JInt (objects_count_pk (Notifications.to_mark user ids)
                                 (notifications db)))]),
               with_notifications
                 (objects_update_pk (Notifications.to_mark user ids)
                    (Notification.set_read true (Some (now env)))
                    (notifications db)) db))
  ∨ ∃ f m, Notifications.mark_read env user notification_ids db
           = (mkResponse HTTP_400_BAD_REQUEST (JObj [(f, JList [JStr m])]), db)
           ∧ Notifications.mark_read_is_valid db user notification_ids
             = Raise (ValidationError f m).
Proof.
  intros Huser.
  unfold Notifications.mark_read, dispatch, Notifications.mark_read_view.
  unfold authenticated, try_catch, Notifications.mark_as_read.
  unfold mbind, M_bind, get_db, put_db. cbv beta iota. rewrite Huser.
  destruct (mark_read_is_valid_cases db user notification_ids)
    as [(ids & -> & Hne & -> & Hlisted)|(f & m & ->)].
  - left. exists ids. by repeat split.
  - right. by exists f, m.
Qed.

(** X20.  [validate_notification_ids] is all or nothing: a list that holds
    one id that is no notification of the caller is answered 400 and no
    notification is marked, the valid ones of the list included. *)
Theorem mark_read_rejects_foreign env user ids pk db :
  is_Some (users db !! user) →
  pk ∈ ids →
  (∀ n, notifications db !! pk = Some n → Notification.user n ≠ user) →
  status (Notifications.mark_read env user (Some ids) db).1
  = HTTP_400_BAD_REQUEST
  ∧ (Notifications.mark_read env user (Some ids) db).2 = db.
Proof.
  intros [u Huser] Hin Hforeign.
  destruct (mark_read_cases env user u (Some ids) db Huser)
    as [(ids' & [= <-] & _ & Hlisted & _)|(f & m & -> & _)]; [|done].
  destruct (Hlisted pk Hin) as (n & Hn & Hu). by destruct (Hforeign n Hn).
Qed.

(** X21.  [mark_read] twice is [mark_read] once: after a request answered
    200, the same list is answered 200 with the count 0 and no table
    changes, so that [read_at] stays the time of the first request. *)
Theorem mark_read_twice env env' user notification_ids db :
  is_Some (users db !! user) →
  status (Notifications.mark_read env user notification_ids db).1 = HTTP_200_OK →
  let db1 := (Notifications.mark_read env user notification_ids db).2 in
  Notifications.mark_read env' user notification_ids db1
  = (mkResponse HTTP_200_OK
       (JObj [("message", JStr ("Marked " ++ pretty 0 ++ " notifications as read"));
              ("count", JInt 0)]), db1).
Proof.
  intros [u Huser] Hstatus db1. subst db1.
  destruct (mark_read_cases env user u notification_ids db Huser)
    as [(ids & -> & Hne & Hlisted & Hfirst)|(f & m & Hrefused & _)];
    [|by rewrite Hrefused in Hstatus].
  rewrite Hfirst. cbn [fst snd].
  set (table := objects_update_pk (Notifications.to_mark user ids)
                  (Notification.set_read true (Some (now env)))
                  (notifications db)).
  assert (∀ pk row, table !! pk = Some row →
                    Notifications.to_mark user ids pk row = false) as Hread.
  { intros pk row. unfold table. rewrite lookup_objects_update_pk.
    destruct (notifications db !! pk) as [n|]; [|done]. cbn. intros [= <-].
    destruct (Notifications.to_mark user ids pk n) eqn:Hm; [|done].
    unfold Notifications.to_mark. cbn. by rewrite andb_false_r. }
  destruct (mark_read_cases env' user u (Some ids) (with_notifications table db)
              Huser)
    as [(ids' & [= <-] & _ & _ & ->)|(f & m & _ & Hinvalid)].
  - cbn [notifications with_notifications].
    rewrite objects_count_pk_zero, objects_update_pk_id by done. done.
  - destruct (mark_read_is_valid_cases (with_notifications table db) user
                (Some ids)) as [(ids' & _ & _ & Hvalid & _)|_];
      [congruence|].
    rewrite mark_read_is_valid_listed in Hinvalid; [done..|].
    intros pk Hin. destruct (Hlisted pk Hin) as (n & Hn & Hu).
    cbn. unfold table. rewrite lookup_objects_update_pk, Hn. cbn.
    destruct (Notifications.to_mark user ids pk n); eauto.
Qed.

(** X22.  [get_object] raises [Http404], which is no
    [Notification.DoesNotExist]: a [DELETE] or a [PATCH] for a key outside
    the queryset of the caller is answered by the second handler, with 500,
    and no table changes. *)
Theorem notification_outside_queryset env user query pk is_read db :
  is_Some (users db !! user) →
  (∀ n, notifications db !! pk = Some n →
        Notifications.get_queryset env user query n = false) →
  Notifications.destroy env user query pk db
  = (Notifications.failed "Failed to delete notification", db)
  ∧ Notifications.partial_update env user query pk is_read db
    = (Notifications.failed "Failed to update notification", db).
Proof.
  intros [u Huser] Hout.
  unfold Notifications.destroy, Notifications.partial_update, dispatch.
  unfold Notifications.destroy_view, Notifications.partial_update_view.
  unfold authenticated, try_catch, Notifications.get_object.
  unfold mbind, M_bind, get_db. cbv beta iota. rewrite Huser.
  destruct (notifications db !! pk) as [n|] eqn:Hn; [|done].
  by rewrite (Hout n eq_refl).
Qed.

(** X23.  [delete_all_read] removes the read notifications of the caller
    and nothing else: a row stays exactly when it belongs to another user
    or is unread, the count reported is the number of rows removed, and no
    other table changes. *)
Theorem delete_all_read_removes_read user db :
  is_Some (users db !! user) →
  ∃ count after,
    Notifications.delete_all_read user db
    = (mkResponse HTTP_200_OK
         (JObj [("message", JStr ("Deleted " ++ pretty count
                                  ++ " read notifications"));
                ("count", JInt count)]),
       with_notifications after db)
    ∧ count + Z.of_nat (size after) = Z.of_nat (size (notifications db))
    ∧ ∀ pk n, after !! pk = Some n
              ↔ notifications db !! pk = Some n
                ∧ (Notification.user n ≠ user ∨ Notification.is_read n = false).
Proof.
  intros [u Huser].
  unfold Notifications.delete_all_read, dispatch, Notifications.delete_all_read_view.
  unfold authenticated, mbind, M_bind, get_db, put_db. cbv beta iota.
  rewrite Huser. cbn. do 2 eexists. split; [reflexivity|].
  split; [apply objects_count_delete|].
  intros pk n. unfold objects_delete. rewrite map_lookup_filter_Some. cbn.
  rewrite andb_false_iff, N.eqb_neq. tauto.
Qed.

Lemma mark_all_read_eq env user u db :
  users db !! user = Some u →
  Notifications.mark_all_read env user db
  = (let unread := λ n : Notification.t,
           N.eqb (Notification.user n) user && negb (Notification.is_read n) in
     let count := objects_count unread (notifications db) in
     (mkResponse HTTP_200_OK
        (JObj [("message", JStr ("Marked " ++ pretty count
                                 ++ " notifications as read"));
               ("count", JInt count)]),
      with_notifications
        (objects_update unread (Notification.set_read true (Some (now env)))
           (notifications db)) db)).
Proof.
  intros Huser.
  unfold Notifications.mark_all_read, dispatch, Notifications.mark_all_read_view.
  unfold authenticated, mbind, M_bind, get_db, put_db. cbv beta iota.
  by rewrite Huser.
Qed.

Lemma unread_count_eq env user u db :
  users db !! user = Some u →
  Inbox.unread_count env user db
  = (mkResponse HTTP_200_OK
       (JObj [("count",
               JInt (objects_count
                       (λ n, N.eqb (Notification.user n) user
                             && negb (Notification.is_read n)
                             && match Notification.expires_at n with
                                | None => true
                                | Some expires_at => now env <? expires_at
                                end)
                       (notifications db)))]), db).
Proof.
  intros Huser.
  unfold Inbox.unread_count, dispatch, Inbox.unread_count_view.
  unfold authenticated, try_catch, mbind, M_bind, get_db. cbv beta iota.
  by rewrite Huser.
Qed.

(** X24.  After [mark_all_read] the caller has nothing unread:
    [Notification.get_unread_count] is 0, the [unread_count] view answers 0,
    a second [mark_all_read] is answered with the count 0 and changes
    nothing, and the notifications of the other users are as they were. *)
Theorem mark_all_read_clears_inbox env env' user db :
  is_Some (users db !! user) →
  let db1 := (Notifications.mark_all_read env user db).2 in
  Inbox.get_unread_count db1 user = 0
  ∧ Inbox.unread_count env' user db1
    = (mkResponse HTTP_200_OK (JObj [("count", JInt 0)]), db1)
  ∧ Notifications.mark_all_read env' user db1
    = (mkResponse HTTP_200_OK
         (JObj [("message", JStr ("Marked " ++ pretty 0 ++ " notifications as read"));
                ("count", JInt 0)]), db1)
  ∧ ∀ pk n, notifications db !! pk = Some n → Notification.user n ≠ user →
            notifications db1 !! pk = Some n.
Proof.
  intros [u Huser] db1. subst db1.
  rewrite (mark_all_read_eq env user u db Huser). cbn [fst snd]. cbv zeta.
  set (unread := λ n : Notification.t,
         N.eqb (Notification.user n) user && negb (Notification.is_read n)).
  set (table := objects_update unread
                  (Notification.set_read true (Some (now env)))
                  (notifications db)).
  assert (∀ pk row, table !! pk = Some row → unread row = false) as Hread.
  { intros pk row. unfold table, objects_update. rewrite lookup_fmap.
    destruct (notifications db !! pk) as [n|]; [|done]. cbn. intros [= <-].
    destruct (unread n) eqn:Hm; [|done].
    unfold unread. cbn. by rewrite andb_false_r. }
  assert (users (with_notifications table db) !! user = Some u) as Huser1
    by exact Huser.
  split; [by apply objects_count_zero|]. split; [|split].
  - rewrite (unread_count_eq env' user u _ Huser1).
    rewrite objects_count_zero; [done|].
    intros pk row Hrow. apply Hread in Hrow. unfold unread in Hrow.
    by rewrite Hrow.
  - rewrite (mark_all_read_eq env' user u _ Huser1). cbv zeta.
    fold unread. cbn [notifications with_notifications].
    rewrite objects_count_zero, objects_update_id by done. done.
  - intros pk n Hn Hforeign. cbn. unfold table, objects_update.
    rewrite lookup_fmap, Hn. cbn. unfold unread.
    by rewrite (proj2 (N.eqb_neq _ _) Hforeign).
Qed.

End InboxViews.

(** A witness for X20: [alice] lists her notification 41 and the key 99,
    which names nothing. *)
Lemma mark_read_rejects_foreign_witness :
  is_Some (users db_with_notifications !! 1%N)
  ∧ 99%N ∈ [41%N; 99%N]
  ∧ status (Notifications.mark_read sample_env 1 (Some [41%N; 99%N])
              db_with_notifications).1 = HTTP_400_BAD_REQUEST
  ∧ (Notifications.mark_read sample_env 1 (Some [41%N; 99%N])
       db_with_notifications).2 = db_with_notifications.
Proof.
  assert (is_Some (users db_with_notifications !! 1%N)) as Huser
    by (exists alice; reflexivity).
  assert (99%N ∈ [41%N; 99%N]) as Hin
    by (apply elem_of_cons; right; apply elem_of_cons; by left).
  split; [exact Huser|]. split; [exact Hin|].
  apply (mark_read_rejects_foreign sample_env 1 [41%N; 99%N] 99
           db_with_notifications Huser Hin).
  intros n Hn. vm_compute in Hn. discriminate.
Defined.

(** A witness for X21: [alice] marks 41 and 42, twice. *)
Lemma mark_read_twice_witness :
  is_Some (users db_with_notifications !! 1%N)
  ∧ status (Notifications.mark_read sample_env 1 (Some [41%N; 42%N])
              db_with_notifications).1 = HTTP_200_OK
  ∧ Notifications.mark_read sample_env 1 (Some [41%N; 42%N])
      (Notifications.mark_read sample_env 1 (Some [41%N; 42%N])
         db_with_notifications).2
    = (mkResponse HTTP_200_OK
         (JObj [("message", JStr ("Marked " ++ pretty 0 ++ " notifications as read"));
                ("count", JInt 0)]),
       (Notifications.mark_read sample_env 1 (Some [41%N; 42%N])
          db_with_notifications).2).
Proof.
  assert (is_Some (users db_with_notifications !! 1%N)) as Huser
    by (exists alice; reflexivity).
  assert (status (Notifications.mark_read sample_env 1 (Some [41%N; 42%N])
                    db_with_notifications).1 = HTTP_200_OK) as Hok
    by (vm_compute; reflexivity).
  split; [exact Huser|]. split; [exact Hok|].
  exact (mark_read_twice sample_env sample_env 1 (Some [41%N; 42%N])
           db_with_notifications Huser Hok).
Defined.

(** A witness for X22: [bob] asks to delete notification 41 of [alice]. *)
Lemma notification_outside_queryset_witness :
  is_Some (users db_with_notifications !! 2%N)
  ∧ Notifications.destroy sample_env 2 any_notification 41 db_with_notifications
    = (Notifications.failed "Failed to delete notification", db_with_notifications)
  ∧ Notifications.partial_update sample_env 2 any_notification 41 (Some true)
      db_with_notifications
    = (Notifications.failed "Failed to update notification", db_with_notifications).
Proof.
  assert (is_Some (users db_with_notifications !! 2%N)) as Huser
    by (exists bob; reflexivity).
  split; [exact Huser|].
  apply (notification_outside_queryset sample_env 2 any_notification 41
           (Some true) db_with_notifications Huser).
  intros n Hn. vm_compute in Hn. injection Hn as <-. reflexivity.
Defined.

(** A witness for X23: [alice] with one read notification. *)
Lemma delete_all_read_removes_read_witness :
  is_Some (users db_with_read !! 1%N)
  ∧ ∃ count after,
      Notifications.delete_all_read 1 db_with_read
      = (mkResponse HTTP_200_OK
           (JObj [("message", JStr ("Deleted " ++ pretty count
                                    ++ " read notifications"));
                  ("count", JInt count)]),
         with_notifications after db_with_read)
      ∧ count + Z.of_nat (size after)
        = Z.of_nat (size (notifications db_with_read))
      ∧ ∀ pk n, after !! pk = Some n
                ↔ notifications db_with_read !! pk = Some n
                  ∧ (Notification.user n ≠ 1%N ∨ Notification.is_read n = false).
Proof.
  assert (is_Some (users db_with_read !! 1%N)) as Huser
    by (exists alice; reflexivity).
  split; [exact Huser|].
  exact (delete_all_read_removes_read 1 db_with_read Huser).
Defined.

(** A witness for X24: [alice] with four unread notifications. *)
Lemma mark_all_read_clears_inbox_witness :
  is_Some (users db_with_notifications !! 1%N)
  ∧ Inbox.get_unread_count
      (Notifications.mark_all_read sample_env 1 db_with_notifications).2 1 = 0.
Proof.
  assert (is_Some (users db_with_notifications !! 1%N)) as Huser
    by (exists alice; reflexivity).
  split; [exact Huser|].
  exact (proj1 (mark_all_read_clears_inbox sample_env sample_env 1
                  db_with_notifications Huser)).
Defined.

(** ** notifications: preferences and clean-up *)

Section Preferences.

Lemma preferences_update_eq user u data db :
  users db !! user = Some u →
  Notifications.preferences_update user data db
  = match Notifications.preferences_is_valid data with
    | Ok validated =>
        let saved :=
          Notifications.preferences_save (get_or_create_for_user user db).1
            validated in
        (mkResponse HTTP_200_OK (Notifications.preferences_data saved),
         with_preferences
           (<[user := saved]> (preferences (get_or_create_for_user user db).2))
           (get_or_create_for_user user db).2)
    | Raise (ValidationError f m) =>
        (mkResponse HTTP_400_BAD_REQUEST (JObj [(f, JList [JStr m])]),
         (get_or_create_for_user user db).2)
    | Raise _ =>
        (Notifications.failed "Failed to update preferences",
         (get_or_create_for_user user db).2)
    end.
Proof.
  intros Huser.
  unfold Notifications.preferences_update, dispatch.
  unfold Notifications.preferences_update_view, authenticated, try_catch.
  unfold mbind at 1, M_bind at 1, get_db. cbv beta iota. rewrite Huser.
  unfold mbind, M_bind, Signals.preferences_of, put_db.
  destruct (get_or_create_for_user user db) as [instance db0].
  cbn [fst snd].
  destruct (Notifications.preferences_is_valid data) as [validated|e];
    [done|by destruct e].
Qed.

(** X25.  A preferences request that gives both thresholds is accepted
    exactly when [50 ≤ warning < critical ≤ 100]: then the answer is 200 and
    the row of the caller holds the two values; otherwise the answer is 400
    and the tables are what [get_or_create_for_user] left, so that a
    refused request of a user without preferences creates the default
    row. *)
Theorem preferences_both_thresholds user data warning critical db :
  is_Some (users db !! user) →
  Notifications.storage_warning_threshold data = Some warning →
  Notifications.storage_critical_threshold data = Some critical →
  (50 ≤ warning < critical ∧ critical ≤ 100
   ∧ status (Notifications.preferences_update user data db).1 = HTTP_200_OK
   ∧ ∃ stored,
       preferences (Notifications.preferences_update user data db).2 !! user
       = Some stored
       ∧ NotificationPreference.storage_warning_threshold stored = warning
       ∧ NotificationPreference.storage_critical_threshold stored = critical
       ∧ thresholds_ordered stored)
  ∨ (¬ (50 ≤ warning < critical ∧ critical ≤ 100)
     ∧ status (Notifications.preferences_update user data db).1
       = HTTP_400_BAD_REQUEST
     ∧ (Notifications.preferences_update user data db).2
       = (get_or_create_for_user user db).2).
Proof.
  intros [u Huser] Hw Hc.
  rewrite (preferences_update_eq user u data db Huser).
  unfold Notifications.preferences_is_valid, Notifications.validate.
  unfold Notifications.validate_storage_warning_threshold.
  unfold Notifications.validate_storage_critical_threshold.
  rewrite Hw, Hc. cbn [default mbind result_bind].
  destruct (Z.leb_spec 50 warning), (Z.leb_spec warning 100); cbn;
    try (right; split; [lia|by split]).
  destruct (Z.leb_spec 50 critical), (Z.leb_spec critical 100); cbn;
    try (right; split; [lia|by split]).
  destruct (Z.leb_spec critical warning); cbn;
    [right; split; [lia|by split]|].
  left. split; [lia|]. split; [lia|]. split; [done|].
  eexists. rewrite lookup_insert_eq. split; [done|].
  unfold thresholds_ordered. cbn. rewrite Hw, Hc. cbn. by repeat split.
Qed.

End Preferences.

(** A witness for X25: [alice] asks for the thresholds 90 and 60. *)
Lemma preferences_both_thresholds_witness :
  is_Some (users sample_db !! 1%N)
  ∧ status (Notifications.preferences_update 1 (set_both_thresholds 90 60)
              sample_db).1 = HTTP_400_BAD_REQUEST
  ∧ preferences (Notifications.preferences_update 1 (set_both_thresholds 90 60)
                   sample_db).2 !! 1%N
    = Some NotificationPreference.defaults.
Proof.
  assert (is_Some (users sample_db !! 1%N)) as Huser
    by (exists alice; reflexivity).
  split; [exact Huser|].
  destruct (preferences_both_thresholds 1 (set_both_thresholds 90 60) 90 60
              sample_db Huser eq_refl eq_refl)
    as [(Horder & _)|(_ & Hstatus & Hrow)]; [lia|].
  split; [exact Hstatus|]. rewrite Hrow. reflexivity.
Defined.

Section CleanUp.

Lemma is_expired_lt env n : Inbox.is_expired env n = Inbox.expires_at__lt env n.
Proof.
  unfold Inbox.is_expired, Inbox.expires_at__lt.
  destruct (Notification.expires_at n); [apply Z.gtb_ltb|done].
Qed.

(** X26.  [Notification.delete_expired] removes exactly the rows whose
    [is_expired] is true and returns their number; no other table changes,
    and what [NotificationViewSet.get_queryset] shows to any user at that
    time or later is the same before and after. *)
Theorem delete_expired_is_invisible env env' db :
  now env ≤ now env' →
  ∃ count after,
    Inbox.delete_expired env db = (Ok count, with_notifications after db)
    ∧ count + Z.of_nat (size after) = Z.of_nat (size (notifications db))
    ∧ (∀ pk n, after !! pk = Some n
               ↔ notifications db !! pk = Some n ∧ Inbox.is_expired env n = false)
    ∧ ∀ user query,
        filter (λ kv, Notifications.get_queryset env' user query kv.2 = true) after
        = filter (λ kv, Notifications.get_queryset env' user query kv.2 = true)
            (notifications db).
Proof.
  intros Hlater. unfold Inbox.delete_expired.
  unfold mbind, M_bind, get_db, put_db, mret, M_ret. cbv beta iota.
  do 2 eexists. split; [reflexivity|].
  split; [apply objects_count_delete|]. split.
  - intros pk n. unfold objects_delete. rewrite map_lookup_filter_Some. cbn.
    by rewrite is_expired_lt.
  - intros user query. apply map_eq. intros pk. apply option_eq. intros n.
    unfold objects_delete. rewrite !map_lookup_filter_Some. cbn.
    split; [tauto|]. intros [Hn Hq]. repeat split; [done| |done].
    unfold Notifications.get_queryset in Hq. rewrite !andb_true_iff in Hq.
    destruct Hq as [_ Hlive]. unfold Inbox.expires_at__lt.
    destruct (Notification.expires_at n) as [t|]; [|done].
    apply Z.ltb_lt in Hlive. apply Z.ltb_ge. lia.
Qed.

End CleanUp.

(** A witness for X26: the clean-up at noon and a listing at the same time. *)
Lemma delete_expired_is_invisible_witness :
  now sample_env ≤ now sample_env
  ∧ ∃ count after,
      Inbox.delete_expired sample_env db_with_notifications
      = (Ok count, with_notifications after db_with_notifications)
      ∧ count + Z.of_nat (size after)
        = Z.of_nat (size (notifications db_with_notifications)).
Proof.
  assert (now sample_env ≤ now sample_env) as Hle by lia.
  split; [exact Hle|].
  destruct (delete_expired_is_invisible sample_env sample_env
              db_with_notifications Hle) as (count & after & Heq & Hsize & _).
  exists count, after. split; [exact Heq|exact Hsize].
Defined.

(** ** vault and notifications: what the receivers of an upload leave *)

Section Receivers.
Context `{Lib}.

Lemma Document_objects_create_notifications env pk row db :
  (∃ db', Vault.Document_objects_create env pk row db = (Ok tt, db')
          ∧ notifications db' = notifications db)
  ∨ (∃ e db', Vault.Document_objects_create env pk row db = (Raise e, db')).
Proof.
  unfold Vault.Document_objects_create.
  unfold mbind, M_bind, get_db, lift, insert_row, put_db. cbv beta iota.
  destruct (check_expiry_date_change_frame pk row db)
    as ((_&_&_&_&Hd0&_) & Hok & Hsame).
  destruct (documents db !! pk) as [old|] eqn:Hpk.
  - right. destruct (Signals.check_expiry_date_change pk row db) as [r db1].
    cbn in Hok, Hd0. subst r.
    destruct (negb (storage_ok env)); [by eauto|].
    rewrite Hd0, Hpk. by eauto.
  - rewrite Hsame by done.
    destruct (storage_ok env); cbn [negb]; [|right; by eauto].
    rewrite Hpk. cbv beta iota.
    destruct (create_expiry_notifications_frame env pk row true
                (with_documents (<[pk:=row]> (documents db)) db))
      as (_ & Hn & Hr).
    destruct (Signals.create_expiry_notifications _ _ _ _ _) as [r db1].
    cbn in Hn, Hr. subst r.
    rewrite monitor_storage_after_upload_frame.
    left. exists db1. by split.
Qed.

Lemma create_notifications env user_pk user data db :
  notifications (Vault.create env user_pk user data db).2 = notifications db.
Proof.
  unfold Vault.create.
  destruct (Vault.encrypted_file data) as [file|]; [|done].
  destruct (_ <? _); [done|].
  destruct (negb (UploadedFile.readable file)); [done|].
  unfold try_catch, atomic, mbind, M_bind, get_db, put_db. cbv beta iota.
  match goal with
  | |- context [Vault.Document_objects_create env ?pk ?row db] =>
      destruct (Document_objects_create_notifications env pk row db)
        as [(db1 & -> & Hn)|(e & db1 & ->)]
  end; [|done].
  match goal with
  | |- context [Vault.DocumentVersion_objects_create env ?pk ?row db1] =>
      destruct (DocumentVersion_objects_create_cases env pk row db1)
        as [->|(e & ->)]
  end; [|done].
  exact Hn.
Qed.

(** X28.  The receivers of [post_save] of a document create nothing:
    [create_expiry_notifications] calls [create_expiry_alert] with a keyword
    it does not take and [check_storage_usage] reads an attribute [User]
    does not have, and each receiver catches what it raises.  So an upload,
    whatever it is answered, leaves the notifications as they were. *)
Theorem upload_creates_no_notification env user_pk data db :
  notifications (Vault.DocumentViewSet_create env user_pk data db).2
  = notifications db.
Proof.
  unfold Vault.DocumentViewSet_create, dispatch, Vault.DocumentViewSet_create_view.
  unfold authenticated, mbind, M_bind, get_db. cbv beta iota.
  destruct (users db !! user_pk) as [user|]; [|done].
  destruct (is_valid_cases db user_pk data) as [[-> _]|(f & m & ->)]; [|done].
  pose proof (create_notifications env user_pk user data db) as Hn.
  destruct (Vault.create env user_pk user data db) as [[[pk document]|e] db'];
    [exact Hn|]. by destruct e.
Qed.

End Receivers.

(** A witness for X29: folder 31 with a document of its own and one two
    levels below. *)
Lemma document_count_counts_subtree_witness :
  Folders.document_count 4 db_with_folders 31 = Some 2
  ∧ 2 = live_documents db_with_folders (collected db_with_folders 31).
Proof.
  assert (Folders.document_count 4 db_with_folders 31 = Some 2) as Hcount
    by (vm_compute; reflexivity).
  split; [exact Hcount|].
  exact (document_count_counts_subtree 4 db_with_folders 31 2 Hcount).
Defined.

(** A witness for X14: [bob] asks to remove the laptop of [alice]. *)
Lemma remove_device_own_only_witness :
  is_Some (users db_with_device !! 2%N)
  ∧ status (@Users.remove_device 2 11 db_with_device).1 = HTTP_404_NOT_FOUND
  ∧ (@Users.remove_device 2 11 db_with_device).2 = db_with_device.
Proof.
  assert (is_Some (users db_with_device !! 2%N)) as Huser
    by (exists bob; reflexivity).
  split; [exact Huser|].
  destruct (remove_device_own_only 2 11 db_with_device Huser)
    as [(_ & H404 & Hsame)|(device & after & Hdevice & Howner & _)].
  - split; [exact H404|exact Hsame].
  - vm_compute in Hdevice. injection Hdevice as <-. discriminate Howner.
Defined.
